(** * University complaint system: model of the backend and its properties

    A shallow embedding of the Flask backend under [backend/app]:
    the SQLAlchemy models ([models/complaint.py], [models/response.py],
    [models/user.py], [models/notification.py]), the helpers of
    [utils/helpers.py] and the request handlers of [routes/student.py],
    [routes/admin.py] and [routes/dashboard.py]. The accounts blueprint
    [routes/auth.py] (registration, login, profile, password) is not
    embedded: it writes to the users table only.

    Conventions.
    - A Python [str] is held as its UTF-8 encoding, a [string] of bytes:
      a byte of the form 10xxxxxx continues a character, any other byte
      starts one. [len] and slicing count characters, [strip] removes the
      white space of Unicode. Equality, concatenation and the literals of
      the program, which are ASCII, are those of the encodings.
    - A [datetime] is a [Z]: microseconds since the epoch, naive UTC.
      A [date] is the day number [t `div` 86400000000]; [str(date)], the
      ISO rendering, is one-to-one on dates, so a date string used as a
      dictionary key is modelled by the day number itself.
    - The database is a record of four tables, each a list of rows in
      insertion (primary key) order; handlers take the database and return
      the HTTP status, the JSON payload and the database after the request.
    - [datetime.utcnow()] and [random.choices] are inputs of the handlers. *)

From Stdlib Require Import Ascii String DecimalString.
From stdpp Require Import gmap strings list sorting.
From Equations Require Import Equations.

Local Open Scope string_scope.
Local Open Scope Z_scope.

(** ** Python strings *)

Module Py.

(** *** Characters *)

(** A byte that continues a character: 10xxxxxx. *)
Definition is_continuation (c : ascii) : bool :=
  let n := N_of_ascii c in ((128 <=? n) && (n <=? 191))%N.

(** [len(s)]: the number of characters. *)
Fixpoint len (s : string) : nat :=
  match s with
  | "" => 0%nat
  | String c s' => if is_continuation c then len s' else S (len s')
  end.

(** [s[:n]]: the first [n] characters. *)
Fixpoint take (n : nat) (s : string) : string :=
  match s with
  | "" => ""
  | String c s' =>
      if is_continuation c then String c (take n s')
      else match n with
           | O => ""
           | S n' => String c (take n' s')
           end
  end.

(** *** Case *)

Definition ascii_lower (c : ascii) : ascii :=
  let n := N_of_ascii c in
  if ((65 <=? n) && (n <=? 90))%N then ascii_of_N (n + 32) else c.

Definition ascii_upper (c : ascii) : ascii :=
  let n := N_of_ascii c in
  if ((97 <=? n) && (n <=? 122))%N then ascii_of_N (n - 32) else c.

(** The bytes [a b c] in a row. *)
Definition bytes3 (c1 c2 c3 : ascii) (a b c : N) : bool :=
  ((N_of_ascii c1 =? a) && (N_of_ascii c2 =? b) && (N_of_ascii c3 =? c))%N.

(** [str.lower()], exact wherever its result is in the ASCII range: it
    maps A-Z to a-z and U+212A KELVIN SIGN (e2 84 aa) to k, and no other
    character to an ASCII one. The program compares lowered text with
    ASCII literals only; a cased letter outside the ASCII range is kept
    here as it is and stands for its lower case. *)
Fixpoint lower (s : string) : string :=
  match s with
  | "" => ""
  | String c s1 =>
      match s1 with
      | String c2 (String c3 s3) =>
          if bytes3 c c2 c3 226 132 170 then String "k" (lower s3)
          else String (ascii_lower c) (lower s1)
      | _ => String (ascii_lower c) (lower s1)
      end
  end.

(** The ASCII text [str.upper()] gives for a character outside the ASCII
    range, for the ten characters where it is ASCII: U+00DF (c3 9f) to SS,
    U+0131 (c4 b1) to I, U+017F (c5 bf) to S and the ligatures U+FB00 to
    U+FB06 (ef ac 80 to ef ac 86). *)
Definition upper2 (c1 c2 : ascii) : option string :=
  let a := N_of_ascii c1 in
  let b := N_of_ascii c2 in
  if ((a =? 195) && (b =? 159))%N then Some "SS"
  else if ((a =? 196) && (b =? 177))%N then Some "I"
  else if ((a =? 197) && (b =? 191))%N then Some "S"
  else None.

Definition upper3 (c1 c2 c3 : ascii) : option string :=
  if bytes3 c1 c2 c3 239 172 128 then Some "FF"
  else if bytes3 c1 c2 c3 239 172 129 then Some "FI"
  else if bytes3 c1 c2 c3 239 172 130 then Some "FL"
  else if bytes3 c1 c2 c3 239 172 131 then Some "FFI"
  else if bytes3 c1 c2 c3 239 172 132 then Some "FFL"
  else if bytes3 c1 c2 c3 239 172 133 then Some "ST"
  else if bytes3 c1 c2 c3 239 172 134 then Some "ST"
  else None.

(** [str.upper()], exact wherever its result is in the ASCII range; a
    cased letter outside the ASCII range whose upper case is not ASCII is
    kept as it is and stands for its upper case. *)
Fixpoint upper (s : string) : string :=
  match s with
  | "" => ""
  | String c s1 =>
      match s1 with
      | String c2 s2 =>
          match upper2 c c2 with
          | Some u => u +:+ upper s2
          | None =>
              match s2 with
              | String c3 s3 =>
                  match upper3 c c2 c3 with
                  | Some u => u +:+ upper s3
                  | None => String (ascii_upper c) (upper s1)
                  end
              | "" => String (ascii_upper c) (upper s1)
              end
          end
      | "" => String (ascii_upper c) ""
      end
  end.

(** *** White space *)

(** The characters [str.strip()] removes, those for which [str.isspace()]
    holds, by their encodings. One byte: U+0009 to U+000D, U+001C to
    U+001F and U+0020. *)
Definition space1 (c1 : ascii) : bool :=
  let a := N_of_ascii c1 in
  (((9 <=? a) && (a <=? 13)) || ((28 <=? a) && (a <=? 32)))%N.

(** Two bytes: U+0085 (c2 85) and U+00A0 (c2 a0). *)
Definition space2 (c1 c2 : ascii) : bool :=
  let a := N_of_ascii c1 in
  let b := N_of_ascii c2 in
  ((a =? 194) && ((b =? 133) || (b =? 160)))%N.

(** Three bytes: U+1680 (e1 9a 80), U+2000 to U+200A (e2 80 80 to
    e2 80 8a), U+2028 and U+2029 (e2 80 a8, e2 80 a9), U+202F (e2 80 af),
    U+205F (e2 81 9f) and U+3000 (e3 80 80). *)
Definition space3 (c1 c2 c3 : ascii) : bool :=
  let a := N_of_ascii c1 in
  let b := N_of_ascii c2 in
  let c := N_of_ascii c3 in
  (((a =? 225) && (b =? 154) && (c =? 128))
   || ((a =? 226) && (b =? 128)
       && (((128 <=? c) && (c <=? 138)) || (c =? 168) || (c =? 169) || (c =? 175)))
   || ((a =? 226) && (b =? 129) && (c =? 159))
   || ((a =? 227) && (b =? 128) && (c =? 128)))%N.

(** [str.lstrip()] *)
Fixpoint lstrip (s : string) : string :=
  match s with
  | "" => ""
  | String c1 s1 =>
      if space1 c1 then lstrip s1
      else match s1 with
           | "" => s
           | String c2 s2 =>
               if space2 c1 c2 then lstrip s2
               else match s2 with
                    | "" => s
                    | String c3 s3 => if space3 c1 c2 c3 then lstrip s3 else s
                    end
           end
  end.

(** [str.rstrip()] on the reversed text: the bytes of a character come
    last byte first. *)
Fixpoint rstrip_rev (s : string) : string :=
  match s with
  | "" => ""
  | String c1 s1 =>
      if space1 c1 then rstrip_rev s1
      else match s1 with
           | "" => s
           | String c2 s2 =>
               if space2 c2 c1 then rstrip_rev s2
               else match s2 with
                    | "" => s
                    | String c3 s3 => if space3 c3 c2 c1 then rstrip_rev s3 else s
                    end
           end
  end.

(** [str.strip()] *)
Definition strip (s : string) : string :=
  String.rev (rstrip_rev (String.rev (lstrip s))).

(** [str(i)] for an [int]. *)
Definition str_of_int (z : Z) : string := NilZero.string_of_int (Z.to_int z).

(** [x in xs] for a list of strings. *)
Definition mem (x : string) (xs : list string) : bool := bool_decide (x ∈ xs).

(** The double quote, as a one-character string. *)
Definition quote : string := String "034"%char "".

(** Truth value of a string: the empty string is falsy. *)
Definition truthy (s : string) : bool := negb (String.eqb s "").

(** SQLite's [lower()]: the letters of the ASCII range only. *)
Fixpoint sql_lower (s : string) : string :=
  match s with
  | "" => ""
  | String c s' => String (ascii_lower c) (sql_lower s')
  end.

(** The rest of a text after the bytes that continue a character. *)
Fixpoint skip_continuation (s : list ascii) : list ascii :=
  match s with
  | [] => []
  | c :: s' => if is_continuation c then skip_continuation s' else s
  end.

(** SQL [LIKE] as SQLite evaluates it (no escape character): [%] matches
    any run of characters, [_] any single character, any other character
    matches itself, letters of the ASCII range without regard to case. *)
Fixpoint like (p : list ascii) (s : list ascii) {struct p} : bool :=
  match p with
  | [] => match s with [] => true | _ => false end
  | c :: p' =>
      if Ascii.eqb c "%"
      then (fix star (s : list ascii) : bool :=
              like p' s || match s with [] => false | _ :: s' => star s' end) s
      else match s with
           | [] => false
           | d :: s' =>
               if Ascii.eqb c "_" then like p' (skip_continuation s')
               else Ascii.eqb (ascii_lower c) (ascii_lower d) && like p' s'
           end
  end.

(** [column.ilike(pattern)]: SQLAlchemy renders [lower(column) LIKE
    lower(pattern)]. *)
Definition ilike (column pattern : string) : bool :=
  like (list_ascii_of_string (sql_lower pattern))
    (list_ascii_of_string (sql_lower column)).

End Py.

(** ** JSON request bodies *)

Inductive json : Type :=
| JNull : json
| JBool : bool -> json
| JInt : Z -> json
| JStr : string -> json.

#[global] Instance json_eq_dec : EqDecision json.
Proof. solve_decision. Defined.

(** Truth value of a decoded JSON value. *)
Definition json_truthy (j : json) : bool :=
  match j with
  | JNull => false
  | JBool b => b
  | JInt z => negb (z =? 0)
  | JStr s => Py.truthy s
  end.

(** [str(value)] for a decoded JSON value other than [None]. *)
Definition json_str (j : json) : string :=
  match j with
  | JNull => "None"
  | JBool true => "True"
  | JBool false => "False"
  | JInt z => Py.str_of_int z
  | JStr s => s
  end.

(** ** utils/helpers.py *)

Module Helpers.

(** [sanitize_string(value, max_length)]: [None] stays [None]; otherwise
    the value is converted to a string, stripped and cut to [max_length]
    characters. *)
Definition sanitize_string (value : option json) (max_length : nat) : option string :=
  match value with
  | None | Some JNull => None
  | Some v =>
      let value := Py.strip (json_str v) in
      Some (if bool_decide (max_length ≠ 0%nat) && bool_decide (max_length < Py.len value)%nat
            then Py.take max_length value else value)
  end.

(** The page of a Flask-SQLAlchemy [Pagination] object. *)
Record Pagination (A : Type) := mkPagination {
  page : Z;
  per_page : Z;
  total : Z;
  items : list A
}.
Arguments mkPagination {A}.
Arguments page {A}.
Arguments per_page {A}.
Arguments total {A}.
Arguments items {A}.

(** [query.paginate(page=..., per_page=..., error_out=False)] of
    Flask-SQLAlchemy 3: a page below 1 becomes 1, a page size below 1
    becomes 20, a page size above the library limit of 100 becomes 100; the items
    are those of [LIMIT per_page OFFSET (page - 1) * per_page]. *)
Definition paginate {A} (query : list A) (page per_page : Z) : Pagination A :=
  let per_page := Z.min 100 per_page in
  let page := if page <? 1 then 1 else page in
  let per_page := if per_page <? 1 then 20 else per_page in
  mkPagination page per_page (Z.of_nat (length query))
    (take (Z.to_nat per_page) (drop (Z.to_nat ((page - 1) * per_page)) query)).

(** [paginate_query(query, page, per_page, max_per_page)] *)
Definition paginate_query {A} (query : list A) (page per_page max_per_page : Z)
  : Pagination A :=
  let page := Z.max 1 page in
  let per_page := Z.min (Z.max 1 per_page) max_per_page in
  paginate query page per_page.

(** The default of [max_per_page], which every caller uses. *)
Definition default_max_per_page : Z := 100.

(** [Pagination.pages], [has_next], [has_prev], [next_num], [prev_num]. *)
Definition pages {A} (p : Pagination A) : Z :=
  if total p =? 0 then 0 else (total p + per_page p - 1) `div` per_page p.
Definition has_next {A} (p : Pagination A) : bool := page p <? pages p.
Definition has_prev {A} (p : Pagination A) : bool := 1 <? page p.

Record PaginationInfo := mkPaginationInfo {
  info_page : Z;
  info_per_page : Z;
  total_pages : Z;
  total_items : Z;
  info_has_next : bool;
  info_has_prev : bool;
  next_page : option Z;
  prev_page : option Z
}.

(** [get_pagination_info(pagination)] *)
Definition get_pagination_info {A} (p : Pagination A) : PaginationInfo :=
  mkPaginationInfo (page p) (per_page p) (pages p) (total p)
    (has_next p) (has_prev p)
    (if has_next p then Some (page p + 1) else None)
    (if has_prev p then Some (page p - 1) else None).

End Helpers.

(** ** models/user.py *)

Module User.

Record t := mk {
  id : Z;
  email : string;
  password_hash : string;
  full_name : string;
  matric_number : option string;
  department : option string;
  faculty : option string;
  phone : option string;
  role : string;
  is_active : bool;
  created_at : Z;
  updated_at : Z
}.

Definition VALID_ROLES : list string := ["student"; "admin"; "super_admin"].

(** [is_admin(self)] *)
Definition is_admin (u : t) : bool := Py.mem (role u) ["admin"; "super_admin"].

End User.

(** ** models/response.py *)

Module Response.

Record t := mk {
  id : Z;
  complaint_id : Z;
  user_id : Z;
  message : string;
  is_internal : bool;
  attachments : list string;
  created_at : Z
}.

#[global] Instance eq_dec : EqDecision t.
Proof. solve_decision. Defined.

Record author_info := mkAuthor {
  author_id : Z;
  author_full_name : string;
  author_role : string;
  author_email : string
}.

(** The dictionary [to_dict] builds. *)
Record dict := mkDict {
  d_id : Z;
  d_complaint_id : Z;
  d_user_id : Z;
  d_message : string;
  d_is_internal : bool;
  d_attachments : list string;
  d_created_at : Z;
  d_author : option author_info
}.

(** [to_dict(self, include_author=True)]; [author] is the row the
    [author] relationship loads, if any. *)
Definition to_dict (author : option User.t) (r : t) : dict :=
  mkDict (id r) (complaint_id r) (user_id r) (message r) (is_internal r)
    (attachments r) (created_at r)
    (match author with
     | Some u => Some (mkAuthor (User.id u) (User.full_name u) (User.role u) (User.email u))
     | None => None
     end).

End Response.

(** ** models/notification.py *)

Module Notification.

Record t := mk {
  id : Z;
  user_id : Z;
  complaint_id : option Z;
  type : string;
  title : string;
  message : string;
  is_read : bool;
  created_at : Z
}.

Definition VALID_TYPES : list string :=
  ["complaint_submitted"; "complaint_assigned"; "status_changed";
   "new_response"; "complaint_resolved"; "complaint_closed"; "system_message"].

End Notification.

(** ** models/complaint.py *)

Module Complaint.

(** A stored complaint: a row of the [complaints] table, which is also the
    state of a loaded [Complaint] object. *)
Record t := mk {
  id : Z;
  ticket_number : string;
  user_id : Z;
  assigned_to : option Z;
  category : string;
  title : string;
  description : string;
  status : string;
  priority : string;
  attachments : list string;
  admin_notes : option string;
  created_at : Z;
  updated_at : Z;
  resolved_at : option Z
}.

#[global] Instance eq_dec : EqDecision t.
Proof. solve_decision. Defined.

Definition VALID_CATEGORIES : list string :=
  ["transcript"; "registration"; "fees_payment"; "accommodation";
   "examination"; "clearance"; "scholarship"; "library"; "id_card";
   "course_registration"; "result_issues"; "certificate"; "admission";
   "transfer"; "medical"; "security"; "facilities"; "academic_advising";
   "other"].

Definition CATEGORY_DISPLAY : gmap string string :=
  list_to_map
    [("transcript", "Transcript Request"); ("registration", "Registration Issues");
     ("fees_payment", "Fees & Payment"); ("accommodation", "Accommodation/Hostel");
     ("examination", "Examination Issues"); ("clearance", "Clearance");
     ("scholarship", "Scholarship"); ("library", "Library Services");
     ("id_card", "ID Card"); ("course_registration", "Course Registration");
     ("result_issues", "Result Issues"); ("certificate", "Certificate Collection");
     ("admission", "Admission Issues"); ("transfer", "Transfer Request");
     ("medical", "Medical/Health Services"); ("security", "Security Issues");
     ("facilities", "Facilities & Maintenance");
     ("academic_advising", "Academic Advising"); ("other", "Other")].

Definition VALID_STATUSES : list string :=
  ["pending"; "in_progress"; "resolved"; "closed"; "rejected"].

Definition STATUS_DISPLAY : gmap string string :=
  list_to_map
    [("pending", "Pending"); ("in_progress", "In Progress");
     ("resolved", "Resolved"); ("closed", "Closed"); ("rejected", "Rejected")].

Definition VALID_PRIORITIES : list string := ["low"; "medium"; "high"; "urgent"].

Definition PRIORITY_DISPLAY : gmap string string :=
  list_to_map
    [("low", "Low"); ("medium", "Medium"); ("high", "High"); ("urgent", "Urgent")].

(** *** Construction *)

(** The attributes of a [Complaint] object that is not stored yet. The
    declarative constructor sets the keyword arguments it is given; an
    attribute that was not given reads as [None]. *)
Module Attrs.
Record t := mk {
  ticket_number : option string;
  user_id : option Z;
  assigned_to : option Z;
  category : option string;
  title : option string;
  description : option string;
  status : option string;
  priority : option string;
  attachments : option (list string);
  admin_notes : option string;
  created_at : option Z;
  resolved_at : option Z
}.
End Attrs.

(** [string.ascii_uppercase + string.digits] *)
Definition ticket_alphabet : list ascii :=
  list_ascii_of_string "ABCDEFGHIJKLMNOPQRSTUVWXYZ0123456789".

(** [random.choices(population, k=k)] picks
    [population[floor(random() * n)]] [k] times, [n] being the size of the
    population. The random source is the stream [rng] of natural numbers,
    the [i]-th of which, reduced into [0, n), is the [i]-th index drawn. *)
Definition random_choices (population : list ascii) (k : nat) (rng : nat -> nat)
  : list ascii :=
  (fun i => default "A"%char (population !! (rng i `mod` length population)%nat))
    <$> seq 0 k.

(** [generate_ticket_number()]; [year] is [datetime.utcnow().year]. *)
Definition generate_ticket_number (year : Z) (rng : nat -> nat) : string :=
  let random_part := string_of_list_ascii (random_choices ticket_alphabet 6 rng) in
  "TKT-" +:+ Py.str_of_int year +:+ "-" +:+ random_part.

(** [value not in valid], for an attribute that may be [None]. *)
Definition not_in (value : option string) (valid : list string) : bool :=
  match value with
  | Some v => negb (Py.mem v valid)
  | None => true
  end.

(** [Complaint.__init__(self, **kwargs)] *)
Definition init (kwargs : Attrs.t) (year : Z) (rng : nat -> nat) : Attrs.t :=
  let ticket_number :=
    match Attrs.ticket_number kwargs with
    | Some tn => if Py.truthy tn then Some tn else Some (generate_ticket_number year rng)
    | None => Some (generate_ticket_number year rng)
    end in
  let category :=
    if not_in (Attrs.category kwargs) VALID_CATEGORIES then Some "other"
    else Attrs.category kwargs in
  let status :=
    if not_in (Attrs.status kwargs) VALID_STATUSES then Some "pending"
    else Attrs.status kwargs in
  let priority :=
    if not_in (Attrs.priority kwargs) VALID_PRIORITIES then Some "medium"
    else Attrs.priority kwargs in
  let attachments :=
    match Attrs.attachments kwargs with
    | None => Some []
    | Some a => Some a
    end in
  Attrs.mk ticket_number (Attrs.user_id kwargs) (Attrs.assigned_to kwargs)
    category (Attrs.title kwargs) (Attrs.description kwargs) status priority
    attachments (Attrs.admin_notes kwargs) (Attrs.created_at kwargs)
    (Attrs.resolved_at kwargs).

(** *** Methods *)

(** [update_status(self, new_status)]: the object after the call and the
    returned flag; [now] is [datetime.utcnow()]. A [datetime] is always
    truthy, so [not self.resolved_at] holds exactly when it is [None]. *)
Definition update_status (now : Z) (self : t) (new_status : string) : t * bool :=
  if negb (Py.mem new_status VALID_STATUSES) then (self, false)
  else
    let resolved_at :=
      if Py.mem new_status ["resolved"; "closed"] && negb (bool_decide (is_Some (resolved_at self)))
      then Some now else resolved_at self in
    (mk (id self) (ticket_number self) (user_id self) (assigned_to self)
        (category self) (title self) (description self) new_status
        (priority self) (attachments self) (admin_notes self)
        (created_at self) (updated_at self) resolved_at, true).

Definition get_category_display (self : t) : string :=
  default (category self) (CATEGORY_DISPLAY !! category self).
Definition get_status_display (self : t) : string :=
  default (status self) (STATUS_DISPLAY !! status self).
Definition get_priority_display (self : t) : string :=
  default (priority self) (PRIORITY_DISPLAY !! priority self).

Record student_info := mkStudent {
  student_id : Z;
  student_full_name : string;
  student_matric_number : option string;
  student_email : string;
  student_department : option string;
  student_faculty : option string
}.

Record admin_info := mkAdmin {
  admin_id : Z;
  admin_full_name : string;
  admin_email : string
}.

(** The dictionary [to_dict] builds; [d_responses] is [None] when the
    ['responses'] key is absent. *)
Record dict := mkDict {
  d_id : Z;
  d_ticket_number : string;
  d_user_id : Z;
  d_category : string;
  d_category_display : string;
  d_title : string;
  d_description : string;
  d_status : string;
  d_status_display : string;
  d_priority : string;
  d_priority_display : string;
  d_assigned_to : option Z;
  d_attachments : list string;
  d_response_count : nat;
  d_created_at : Z;
  d_updated_at : Z;
  d_resolved_at : option Z;
  d_student : option student_info;
  d_assigned_admin : option admin_info;
  d_responses : option (list Response.dict);
  d_admin_notes : option (option string)
}.

End Complaint.

(** ** The database and the session *)

Module Db.

Record t := mk {
  users : list User.t;
  complaints : list Complaint.t;
  responses : list Response.t;
  notifications : list Notification.t
}.

(** [User.query.get(id)], [Complaint.query.get(id)] *)
Definition get_user (db : t) (id : Z) : option User.t :=
  List.find (fun u => bool_decide (User.id u = id)) (users db).
Definition get_complaint (db : t) (id : Z) : option Complaint.t :=
  List.find (fun c => bool_decide (Complaint.id c = id)) (complaints db).

(** The next value of an autoincrement primary key. *)
Definition next_id (ids : list Z) : Z := 1 + foldr Z.max 0 ids.

(** [db.session.add(Response(complaint_id=..., user_id=..., message=...,
    is_internal=...))] followed by a flush: the key is assigned, the
    attachments default to the empty list and [created_at] to the time of
    the flush. *)
Definition add_response (now : Z) (complaint_id user_id : Z) (message : string)
    (is_internal : bool) (db : t) : Response.t * t :=
  let r := Response.mk (next_id (Response.id <$> responses db)) complaint_id
             user_id message is_internal [] now in
  (r, mk (users db) (complaints db) (responses db ++ [r]) (notifications db)).

(** [Notification.create_notification(user_id, notification_type, title,
    message, complaint_id)] followed by a flush. *)
Definition create_notification (now : Z) (user_id : Z) (notification_type : string)
    (title message : string) (complaint_id : option Z) (db : t) : t :=
  let type :=
    if Py.mem notification_type Notification.VALID_TYPES
    then notification_type else "system_message" in
  let n := Notification.mk (next_id (Notification.id <$> notifications db))
             user_id complaint_id type title message false now in
  mk (users db) (complaints db) (responses db) (notifications db ++ [n]).

(** Flushing a loaded complaint: a modified row is written back and its
    [updated_at] is touched ([onupdate=datetime.utcnow]); an unmodified
    object causes no UPDATE. *)
Definition touch (now : Z) (c : Complaint.t) : Complaint.t :=
  Complaint.mk (Complaint.id c) (Complaint.ticket_number c) (Complaint.user_id c)
    (Complaint.assigned_to c) (Complaint.category c) (Complaint.title c)
    (Complaint.description c) (Complaint.status c) (Complaint.priority c)
    (Complaint.attachments c) (Complaint.admin_notes c) (Complaint.created_at c)
    now (Complaint.resolved_at c).

Definition flushed (now : Z) (old new : Complaint.t) : Complaint.t :=
  if bool_decide (new = old) then old else touch now new.

Definition save_complaint (now : Z) (old new : Complaint.t) (db : t) : t :=
  if bool_decide (new = old) then db
  else mk (users db)
         ((fun c => if bool_decide (Complaint.id c = Complaint.id old)
                    then touch now new else c) <$> complaints db)
         (responses db) (notifications db).

(** [db.session.add(complaint)] followed by a flush, for a new object. The
    key is assigned; an attribute that is [None] is left to the default of
    its column (['pending'], ['medium'], the empty list, the time of the
    flush for [created_at] and [updated_at]); a [None] in a NOT NULL column
    without default, or a ticket number that is already stored (the UNIQUE
    constraint of [ticket_number]), raises IntegrityError: [None]. *)
Definition insert_complaint (now : Z) (a : Complaint.Attrs.t) (db : t)
  : option (Complaint.t * t) :=
  ticket_number ← Complaint.Attrs.ticket_number a;
  user_id ← Complaint.Attrs.user_id a;
  category ← Complaint.Attrs.category a;
  title ← Complaint.Attrs.title a;
  description ← Complaint.Attrs.description a;
  let status := default "pending" (Complaint.Attrs.status a) in
  let priority := default "medium" (Complaint.Attrs.priority a) in
  if bool_decide (ticket_number ∈ Complaint.ticket_number <$> complaints db)
  then None
  else
    let c := Complaint.mk (next_id (Complaint.id <$> complaints db))
               ticket_number user_id (Complaint.Attrs.assigned_to a) category
               title description status priority
               (default [] (Complaint.Attrs.attachments a))
               (Complaint.Attrs.admin_notes a)
               (default now (Complaint.Attrs.created_at a)) now
               (Complaint.Attrs.resolved_at a) in
    Some (c, mk (users db) (complaints db ++ [c]) (responses db) (notifications db)).

(** [Response.created_at.asc()] *)
Definition created_at_asc (r1 r2 : Response.t) : Prop :=
  Response.created_at r1 ≤ Response.created_at r2.

#[global] Instance created_at_asc_dec : RelDecision created_at_asc.
Proof. intros r1 r2. unfold created_at_asc. apply _. Defined.

(** The [responses] relationship of a complaint:
    [order_by='Response.created_at.asc()']. *)
Definition responses_of (db : t) (complaint_id : Z) : list Response.t :=
  merge_sort created_at_asc
    (filter (fun r => Response.complaint_id r = complaint_id) (responses db)).

(** [Response.to_dict(self)], the [author] relationship loaded from the
    database. *)
Definition response_to_dict (db : t) (r : Response.t) : Response.dict :=
  Response.to_dict (get_user db (Response.user_id r)) r.

(** [Complaint.to_dict(self, include_responses, include_student)] *)
Definition complaint_to_dict (db : t) (include_responses include_student : bool)
    (self : Complaint.t) : Complaint.dict :=
  let student :=
    if include_student then
      (fun u => Complaint.mkStudent (User.id u) (User.full_name u)
                  (User.matric_number u) (User.email u) (User.department u)
                  (User.faculty u)) <$> get_user db (Complaint.user_id self)
    else None in
  let assigned_admin :=
    (fun u => Complaint.mkAdmin (User.id u) (User.full_name u) (User.email u))
      <$> (Complaint.assigned_to self ≫= get_user db) in
  Complaint.mkDict (Complaint.id self) (Complaint.ticket_number self)
    (Complaint.user_id self) (Complaint.category self)
    (Complaint.get_category_display self) (Complaint.title self)
    (Complaint.description self) (Complaint.status self)
    (Complaint.get_status_display self) (Complaint.priority self)
    (Complaint.get_priority_display self) (Complaint.assigned_to self)
    (Complaint.attachments self)
    (length (responses_of db (Complaint.id self)))
    (Complaint.created_at self) (Complaint.updated_at self)
    (Complaint.resolved_at self) student assigned_admin
    (if include_responses
     then Some (response_to_dict db <$> responses_of db (Complaint.id self))
     else None)
    None.

End Db.

(** ** Response envelopes *)

Record Reply (D : Type) := mkReply {
  success : bool;
  message : string;
  data : option D;
  status_code : Z
}.
Arguments mkReply {D}.
Arguments success {D}.
Arguments message {D}.
Arguments data {D}.
Arguments status_code {D}.

(** [create_success_response(data, message, status_code)] *)
Definition create_success_response {D} (data : option D) (message : string)
    (status_code : Z) : Reply D :=
  mkReply true message data status_code.

(** [create_error_response(message, status_code=...)] *)
Definition create_error_response {D} (message : string) (status_code : Z) : Reply D :=
  mkReply false message None status_code.

(** What a handler reads from outside the request: the clock and the
    random source. A request is served under one reading of the clock;
    [year] is the year of that reading. *)
Record Env := mkEnv {
  now : Z;
  year : Z;
  rng : nat -> nat
}.

(** The query string of a listing request. A field is [None] when the key
    is absent; an integer field is also [None] when the conversion of
    [request.args.get(key, default, type=int)] fails. *)
Record Args := mkArgs {
  arg_status : option string;
  arg_category : option string;
  arg_priority : option string;
  arg_assigned_to : option Z;
  arg_unassigned : option string;
  arg_start_date : option string;
  arg_end_date : option string;
  arg_search : option string;
  arg_sort_by : option string;
  arg_sort_order : option string;
  arg_page : option Z;
  arg_per_page : option Z
}.

(** The payload of a complaint listing. *)
Record Listing := mkListing {
  listed : list Complaint.dict;
  pagination : Helpers.PaginationInfo
}.

(** ** Pieces shared by the two complaint listings *)

Module Query.

(** [if value and value in valid: query = query.filter_by(field=value)] *)
Definition filter_enum (field : Complaint.t -> string) (valid : list string)
    (value : option string) (query : list Complaint.t) : list Complaint.t :=
  match value with
  | Some v =>
      if Py.truthy v && Py.mem v valid
      then filter (fun c => field c = v) query
      else query
  | None => query
  end.

(** The search over title, description and ticket number. *)
Definition search (arg : option string) (query : list Complaint.t) : list Complaint.t :=
  let search := Py.strip (default "" arg) in
  if Py.truthy search then
    let search_term := "%" +:+ search +:+ "%" in
    filter (fun c => Py.ilike (Complaint.title c) search_term
                     || Py.ilike (Complaint.description c) search_term
                     || Py.ilike (Complaint.ticket_number c) search_term) query
  else query.

(** The value of a sort column: a timestamp or a string. *)
Inductive key := KInt (z : Z) | KStr (s : string).

Definition key_le (k1 k2 : key) : Prop :=
  match k1, k2 with
  | KInt a, KInt b => a ≤ b
  | KStr a, KStr b => String.le a b
  | _, _ => True
  end.

#[global] Instance key_le_dec : RelDecision key_le.
Proof. intros [a|a] [b|b]; simpl; apply _. Defined.

(** [getattr(Complaint, sort_by)] *)
Definition sort_column (sort_by : string) (c : Complaint.t) : key :=
  if String.eqb sort_by "updated_at" then KInt (Complaint.updated_at c)
  else if String.eqb sort_by "status" then KStr (Complaint.status c)
  else if String.eqb sort_by "priority" then KStr (Complaint.priority c)
  else if String.eqb sort_by "category" then KStr (Complaint.category c)
  else KInt (Complaint.created_at c).

Definition asc (sort_by : string) (a b : Complaint.t) : Prop :=
  key_le (sort_column sort_by a) (sort_column sort_by b).
Definition desc (sort_by : string) (a b : Complaint.t) : Prop :=
  key_le (sort_column sort_by b) (sort_column sort_by a).

#[global] Instance asc_dec sort_by : RelDecision (asc sort_by).
Proof. intros a b. unfold asc. apply _. Defined.
#[global] Instance desc_dec sort_by : RelDecision (desc sort_by).
Proof. intros a b. unfold desc. apply _. Defined.

(** [query.order_by(sort_column.asc())] or [.desc()]; rows with equal keys
    keep their table order. *)
Definition order_by (valid_sort_fields : list string) (sort_by sort_order : option string)
    (query : list Complaint.t) : list Complaint.t :=
  let sort_by := default "created_at" sort_by in
  let sort_order := default "desc" sort_order in
  let sort_by := if negb (Py.mem sort_by valid_sort_fields) then "created_at" else sort_by in
  if String.eqb sort_order "asc"
  then merge_sort (asc sort_by) query
  else merge_sort (desc sort_by) query.

End Query.

(** ** Idioms shared by the handlers *)

Module Handler.

(** [validate_required_fields(data, required_fields)]: the missing fields. *)
Definition missing_fields (data : gmap string json) (required_fields : list string)
  : list string :=
  List.filter
    (fun field =>
       match data !! field with
       | None | Some JNull | Some (JStr "") => true
       | _ => false
       end) required_fields.

(** The string a JSON value must be for [value.lower()] to succeed; any
    other value raises AttributeError. *)
Definition as_str (j : json) : option string :=
  match j with
  | JStr s => Some s
  | _ => None
  end.

(** [len(value) < n] for a sanitized string, [not value] included. *)
Definition too_short (value : option string) (n : nat) : bool :=
  match value with
  | None => true
  | Some v => negb (Py.truthy v) || bool_decide (Py.len v < n)%nat
  end.

Definition failed {D} (what : string) (db : Db.t) : Reply D * Db.t :=
  (create_error_response ("Failed to " +:+ what) 500, db).

End Handler.

(** ** routes/student.py *)

Module Student.

(** [get_current_student()]; [identity] is [get_jwt_identity()]. *)
Definition get_current_student {D} (db : Db.t) (identity : Z) : User.t + Reply D :=
  match Db.get_user db identity with
  | None => inr (create_error_response "User not found" 404)
  | Some user =>
      if negb (User.is_active user)
      then inr (create_error_response "Account is deactivated" 403)
      else if negb (String.eqb (User.role user) "student")
      then inr (create_error_response
                  "Access denied. This endpoint is for students only." 403)
      else inl user
  end.

(** The query [get_my_complaints] paginates. *)
Definition my_complaints_query (db : Db.t) (user : User.t) (args : Args)
  : list Complaint.t :=
  let query := filter (fun c => Complaint.user_id c = User.id user) (Db.complaints db) in
  let query := Query.filter_enum Complaint.status Complaint.VALID_STATUSES
                 (arg_status args) query in
  let query := Query.filter_enum Complaint.category Complaint.VALID_CATEGORIES
                 (arg_category args) query in
  let query := Query.filter_enum Complaint.priority Complaint.VALID_PRIORITIES
                 (arg_priority args) query in
  let query := Query.search (arg_search args) query in
  Query.order_by ["created_at"; "updated_at"; "status"; "priority"]
    (arg_sort_by args) (arg_sort_order args) query.

(** [GET /complaints] *)
Definition get_my_complaints (db : Db.t) (identity : Z) (args : Args) : Reply Listing :=
  match get_current_student db identity with
  | inr error => error
  | inl user =>
      let query := my_complaints_query db user args in
      let page := default 1 (arg_page args) in
      let per_page := default 10 (arg_per_page args) in
      let pagination :=
        Helpers.paginate_query query page per_page Helpers.default_max_per_page in
      let complaints :=
        Db.complaint_to_dict db false true <$> Helpers.items pagination in
      create_success_response
        (Some (mkListing complaints (Helpers.get_pagination_info pagination)))
        "Complaints retrieved successfully" 200
  end.

(** [POST /complaints]. The database returned is the last committed one:
    an exception rolls the session back. *)
Definition create_complaint (env : Env) (db : Db.t) (identity : Z)
    (body : option (gmap string json)) : Reply Complaint.dict * Db.t :=
  match get_current_student db identity with
  | inr error => (error, db)
  | inl user =>
  match body with
  | None => (create_error_response "No data provided" 400, db)
  | Some data =>
  if bool_decide (data = ∅) then (create_error_response "No data provided" 400, db)
  else
  let missing := Handler.missing_fields data ["category"; "title"; "description"] in
  if negb (bool_decide (missing = [])) then
    (create_error_response
       ("Missing required fields: " +:+ String.concat ", " missing) 400, db)
  else
  match data !! "category" ≫= Handler.as_str with
  | None => Handler.failed "create complaint" db
  | Some raw_category =>
  let category := Helpers.sanitize_string (Some (JStr (Py.lower raw_category))) 50 in
  if Complaint.not_in category Complaint.VALID_CATEGORIES then
    (create_error_response
       ("Invalid category. Valid options: "
        +:+ String.concat ", " Complaint.VALID_CATEGORIES) 400, db)
  else
  let title := Helpers.sanitize_string (data !! "title") 200 in
  if Handler.too_short title 5 then
    (create_error_response "Title must be at least 5 characters long" 400, db)
  else
  let description := Helpers.sanitize_string (data !! "description") 5000 in
  if Handler.too_short description 20 then
    (create_error_response "Description must be at least 20 characters long" 400, db)
  else
  match Handler.as_str (default (JStr "medium") (data !! "priority")) with
  | None => Handler.failed "create complaint" db
  | Some raw_priority =>
  let priority := Helpers.sanitize_string (Some (JStr (Py.lower raw_priority))) 20 in
  let priority :=
    if Complaint.not_in priority Complaint.VALID_PRIORITIES then Some "medium"
    else priority in
  let complaint :=
    Complaint.init
      (Complaint.Attrs.mk None (Some (User.id user)) None category title
         description (Some "pending") priority None None None None)
      (year env) (rng env) in
  match Db.insert_complaint (now env) complaint db with
  | None => Handler.failed "create complaint" db
  | Some (complaint, db1) =>
      let db2 :=
        Db.create_notification (now env) (User.id user) "complaint_submitted"
          "Complaint Submitted Successfully"
          ("Your complaint " +:+ Py.quote +:+ default "" title +:+ Py.quote
           +:+ " has been submitted. Ticket: " +:+ Complaint.ticket_number complaint)
          (Some (Complaint.id complaint)) db1 in
      (create_success_response (Some (Db.complaint_to_dict db2 false true complaint))
         ("Complaint submitted successfully. Your ticket number is "
          +:+ Complaint.ticket_number complaint) 201, db2)
  end end end end end.

(** [GET /complaints/<complaint_id>] *)
Definition get_complaint_details (db : Db.t) (identity : Z) (complaint_id : Z)
  : Reply Complaint.dict :=
  match get_current_student db identity with
  | inr error => error
  | inl user =>
  match Db.get_complaint db complaint_id with
  | None => create_error_response "Complaint not found" 404
  | Some complaint =>
  if negb (bool_decide (Complaint.user_id complaint = User.id user)) then
    create_error_response "Access denied. You can only view your own complaints." 403
  else
    let responses :=
      merge_sort Db.created_at_asc
        (filter (fun r => Response.complaint_id r = complaint_id
                          ∧ Response.is_internal r = false) (Db.responses db)) in
    let complaint_data := Db.complaint_to_dict db false true complaint in
    let complaint_data :=
      Complaint.mkDict
        (Complaint.d_id complaint_data) (Complaint.d_ticket_number complaint_data)
        (Complaint.d_user_id complaint_data) (Complaint.d_category complaint_data)
        (Complaint.d_category_display complaint_data)
        (Complaint.d_title complaint_data) (Complaint.d_description complaint_data)
        (Complaint.d_status complaint_data)
        (Complaint.d_status_display complaint_data)
        (Complaint.d_priority complaint_data)
        (Complaint.d_priority_display complaint_data)
        (Complaint.d_assigned_to complaint_data)
        (Complaint.d_attachments complaint_data)
        (Complaint.d_response_count complaint_data)
        (Complaint.d_created_at complaint_data)
        (Complaint.d_updated_at complaint_data)
        (Complaint.d_resolved_at complaint_data)
        (Complaint.d_student complaint_data)
        (Complaint.d_assigned_admin complaint_data)
        (Some (Db.response_to_dict db <$> responses))
        (Complaint.d_admin_notes complaint_data) in
    create_success_response (Some complaint_data) "Complaint retrieved successfully" 200
  end end.

(** [POST /complaints/<complaint_id>/responses] *)
Definition add_response_to_complaint (env : Env) (db : Db.t) (identity : Z)
    (complaint_id : Z) (body : option (gmap string json))
  : Reply Response.dict * Db.t :=
  match get_current_student db identity with
  | inr error => (error, db)
  | inl user =>
  match Db.get_complaint db complaint_id with
  | None => (create_error_response "Complaint not found" 404, db)
  | Some complaint =>
  if negb (bool_decide (Complaint.user_id complaint = User.id user)) then
    (create_error_response
       "Access denied. You can only respond to your own complaints." 403, db)
  else if Py.mem (Complaint.status complaint) ["closed"; "rejected"] then
    (create_error_response
       "Cannot add response to a closed or rejected complaint." 400, db)
  else
  match body with
  | None => (create_error_response "No data provided" 400, db)
  | Some data =>
  if bool_decide (data = ∅) then (create_error_response "No data provided" 400, db)
  else
  let message := Helpers.sanitize_string (data !! "message") 5000 in
  if Handler.too_short message 5 then
    (create_error_response "Message must be at least 5 characters long" 400, db)
  else
    let '(response, db1) :=
      Db.add_response (now env) complaint_id (User.id user) (default "" message)
        false db in
    (create_success_response (Some (Db.response_to_dict db1 response))
       "Response added successfully" 201, db1)
  end end end.

(** [GET /complaints/<ticket_number>/track] *)
Definition track_complaint_by_ticket (db : Db.t) (identity : Z) (ticket_number : string)
  : Reply Complaint.dict :=
  match get_current_student db identity with
  | inr error => error
  | inl user =>
  match List.find (fun c => String.eqb (Complaint.ticket_number c) (Py.upper ticket_number))
          (Db.complaints db) with
  | None => create_error_response "Complaint not found with this ticket number" 404
  | Some complaint =>
  if negb (bool_decide (Complaint.user_id complaint = User.id user)) then
    create_error_response "Access denied. You can only track your own complaints." 403
  else
    create_success_response (Some (Db.complaint_to_dict db true true complaint))
      "Complaint found" 200
  end end.

End Student.

(** ** routes/admin.py *)

Module Admin.

(** [get_current_admin()] *)
Definition get_current_admin {D} (db : Db.t) (identity : Z) : User.t + Reply D :=
  match Db.get_user db identity with
  | None => inr (create_error_response "User not found" 404)
  | Some user =>
      if negb (User.is_active user)
      then inr (create_error_response "Account is deactivated" 403)
      else if negb (User.is_admin user)
      then inr (create_error_response "Access denied. Admin privileges required." 403)
      else inl user
  end.

Section Listing.

(** [datetime.strptime(s, '%Y-%m-%d')]: the midnight that starts the day
    [s] names, [None] when it raises ValueError. *)
Variable strptime : string -> option Z.

(** [end.replace(hour=23, minute=59, second=59)] for a midnight [end]. *)
Definition end_of_day (t : Z) : Z := t + 86399 * 1000000.

(** The date range of [get_all_complaints]; a date that does not parse is
    ignored. *)
Definition filter_dates (start_date end_date : option string)
    (query : list Complaint.t) : list Complaint.t :=
  let query :=
    match start_date with
    | Some s =>
        if Py.truthy s then
          match strptime s with
          | Some start => filter (fun c => start ≤ Complaint.created_at c) query
          | None => query
          end
        else query
    | None => query
    end in
  match end_date with
  | Some s =>
      if Py.truthy s then
        match strptime s with
        | Some e => filter (fun c => Complaint.created_at c ≤ end_of_day e) query
        | None => query
        end
      else query
  | None => query
  end.

(** The query [get_all_complaints] paginates. *)
Definition all_complaints_query (db : Db.t) (args : Args) : list Complaint.t :=
  let query := Db.complaints db in
  let query := Query.filter_enum Complaint.status Complaint.VALID_STATUSES
                 (arg_status args) query in
  let query := Query.filter_enum Complaint.category Complaint.VALID_CATEGORIES
                 (arg_category args) query in
  let query := Query.filter_enum Complaint.priority Complaint.VALID_PRIORITIES
                 (arg_priority args) query in
  let query :=
    match arg_assigned_to args with
    | Some a =>
        if negb (a =? 0) then filter (fun c => Complaint.assigned_to c = Some a) query
        else query
    | None => query
    end in
  let query :=
    if String.eqb (Py.lower (default "" (arg_unassigned args))) "true"
    then filter (fun c => Complaint.assigned_to c = None) query
    else query in
  let query := filter_dates (arg_start_date args) (arg_end_date args) query in
  let query := Query.search (arg_search args) query in
  Query.order_by ["created_at"; "updated_at"; "status"; "priority"; "category"]
    (arg_sort_by args) (arg_sort_order args) query.

(** [GET /complaints] *)
Definition get_all_complaints (db : Db.t) (identity : Z) (args : Args) : Reply Listing :=
  match get_current_admin db identity with
  | inr error => error
  | inl admin =>
      let query := all_complaints_query db args in
      let page := default 1 (arg_page args) in
      let per_page := default 10 (arg_per_page args) in
      let pagination :=
        Helpers.paginate_query query page per_page Helpers.default_max_per_page in
      let complaints :=
        Db.complaint_to_dict db false true <$> Helpers.items pagination in
      create_success_response
        (Some (mkListing complaints (Helpers.get_pagination_info pagination)))
        "Complaints retrieved successfully" 200
  end.

End Listing.

(** [PUT /complaints/<complaint_id>/status]. The first commit stores the
    status change and the comment, the second the notification. *)
Definition update_complaint_status (env : Env) (db : Db.t) (identity : Z)
    (complaint_id : Z) (body : option (gmap string json))
  : Reply Complaint.dict * Db.t :=
  match get_current_admin db identity with
  | inr error => (error, db)
  | inl admin =>
  match Db.get_complaint db complaint_id with
  | None => (create_error_response "Complaint not found" 404, db)
  | Some complaint =>
  match body ≫= (fun data => data !! "status") with
  | None => (create_error_response "Status is required" 400, db)
  | Some raw_status =>
  match Handler.as_str raw_status with
  | None => Handler.failed "update status" db
  | Some raw_status =>
  let new_status :=
    default "" (Helpers.sanitize_string (Some (JStr (Py.lower raw_status))) 20) in
  if negb (Py.mem new_status Complaint.VALID_STATUSES) then
    (create_error_response
       ("Invalid status. Valid options: "
        +:+ String.concat ", " Complaint.VALID_STATUSES) 400, db)
  else
  let old_status := Complaint.status complaint in
  let '(updated, ok) := Complaint.update_status (now env) complaint new_status in
  if negb ok then (create_error_response "Failed to update status" 400, db)
  else
  let comment := Helpers.sanitize_string (body ≫= (fun data => data !! "comment")) 2000 in
  let db1 :=
    match comment with
    | Some comment =>
        if Py.truthy comment then
          snd (Db.add_response (now env) complaint_id (User.id admin)
                 ("Status changed from '" +:+ old_status +:+ "' to '" +:+ new_status
                  +:+ "'. " +:+ comment) false db)
        else db
    | None => db
    end in
  let db2 := Db.save_complaint (now env) complaint updated db1 in
  let db3 :=
    Db.create_notification (now env) (Complaint.user_id updated) "status_changed"
      "Complaint Status Updated"
      ("Your complaint " +:+ Py.quote +:+ Complaint.title updated +:+ Py.quote
       +:+ " status changed to " +:+ Py.upper new_status +:+ ".")
      (Some (Complaint.id updated)) db2 in
  (create_success_response
     (Some (Db.complaint_to_dict db3 false true (Db.flushed (now env) complaint updated)))
     ("Status updated to '" +:+ new_status +:+ "'") 200, db3)
  end end end end.

(** The value a [Boolean] column takes from a JSON value: [None] leaves
    the column to its default [False]; [True], [False] and the integers
    that equal them are stored; anything else is refused when the row is
    flushed (TypeError: Not a boolean value), which is [None] here. *)
Definition as_boolean (j : json) : option bool :=
  match j with
  | JNull => Some false
  | JBool b => Some b
  | JInt 0 => Some false
  | JInt 1 => Some true
  | _ => None
  end.

(** [complaint.status = 'in_progress'] *)
Definition set_status (c : Complaint.t) (status : string) : Complaint.t :=
  Complaint.mk (Complaint.id c) (Complaint.ticket_number c) (Complaint.user_id c)
    (Complaint.assigned_to c) (Complaint.category c) (Complaint.title c)
    (Complaint.description c) status (Complaint.priority c)
    (Complaint.attachments c) (Complaint.admin_notes c) (Complaint.created_at c)
    (Complaint.updated_at c) (Complaint.resolved_at c).

(** [POST /complaints/<complaint_id>/responses] *)
Definition add_admin_response (env : Env) (db : Db.t) (identity : Z)
    (complaint_id : Z) (body : option (gmap string json))
  : Reply Response.dict * Db.t :=
  match get_current_admin db identity with
  | inr error => (error, db)
  | inl admin =>
  match Db.get_complaint db complaint_id with
  | None => (create_error_response "Complaint not found" 404, db)
  | Some complaint =>
  match body with
  | None => (create_error_response "No data provided" 400, db)
  | Some data =>
  if bool_decide (data = ∅) then (create_error_response "No data provided" 400, db)
  else
  let message := Helpers.sanitize_string (data !! "message") 5000 in
  if Handler.too_short message 2 then
    (create_error_response "Message is required" 400, db)
  else
  let is_internal := default (JBool false) (data !! "is_internal") in
  match as_boolean is_internal with
  | None => Handler.failed "add response" db
  | Some stored =>
  let '(response, db1) :=
    Db.add_response (now env) complaint_id (User.id admin) (default "" message)
      stored db in
  let updated :=
    if String.eqb (Complaint.status complaint) "pending"
    then set_status complaint "in_progress" else complaint in
  let db2 := Db.save_complaint (now env) complaint updated db1 in
  let db3 :=
    if negb (json_truthy is_internal) then
      Db.create_notification (now env) (Complaint.user_id updated) "new_response"
        "New Response on Your Complaint"
        ("Admin responded to your complaint " +:+ Py.quote
         +:+ Complaint.title updated +:+ Py.quote +:+ ".")
        (Some (Complaint.id updated)) db2
    else db2 in
  (create_success_response (Some (Db.response_to_dict db3 response))
     "Response added successfully" 201, db3)
  end end end end.

End Admin.

(** ** routes/dashboard.py *)

Module Dashboard.

(** One day, in microseconds. *)
Definition DAY : Z := 86400 * 1000000.

(** [dt.date()], and SQL [date(column)]: the day a timestamp falls on. *)
Definition date (t : Z) : Z := t `div` DAY.

(** [dt - timedelta(days=days)] *)
Definition minus_days (t days : Z) : Z := t - days * DAY.

(** [days = min(max(7, days), 365)] *)
Definition clamp_days (days : Z) : Z := Z.min (Z.max 7 days) 365.

(** The complaints the trend query reads: [created_at >= start_date]. *)
Definition in_window (db : Db.t) (start_date : Z) : list Complaint.t :=
  filter (fun c => start_date ≤ Complaint.created_at c) (Db.complaints db).

(** [count(Complaint.id)] of one group of the query. *)
Definition count_on (rows : list Complaint.t) (d : Z) : Z :=
  Z.of_nat (length (filter (fun c => date (Complaint.created_at c) = d) rows)).

(** The grouped query: one row [(date, count)] for each day on which a
    complaint of the window was created, in date order. *)
Definition daily_data (db : Db.t) (start_date : Z) : list (Z * Z) :=
  let rows := in_window db start_date in
  (fun d => (d, count_on rows d))
    <$> merge_sort Z.le (remove_dups ((fun c => date (Complaint.created_at c)) <$> rows)).

(** [{str(d): c for d, c in daily_data}] *)
Definition daily_counts (daily_data : list (Z * Z)) : gmap Z Z :=
  foldl (fun m dc => <[dc.1 := dc.2]> m) ∅ daily_data.

Record point := mkPoint {
  point_date : Z;
  point_count : Z
}.

(** The loop that fills the date range:
    [while current_date <= end_date: ...; current_date += timedelta(days=1)]. *)
Equations? fill (counts : gmap Z Z) (current_date end_date : Z) : list point
  by wf (Z.to_nat (end_date - current_date + 1)) lt :=
  fill counts current_date end_date with decide (current_date ≤ end_date) => {
    | left _ := mkPoint current_date (default 0 (counts !! current_date))
                :: fill counts (current_date + 1) end_date;
    | right _ := [] }.
Proof. lia. Qed.

(** The chart [get_trend_chart_data] computes for a caller who passed the role check;
    [now_start] and [now_end] are the two readings of [datetime.utcnow()],
    the first for [start_date], the second for [end_date]. *)
Definition trend_chart (db : Db.t) (days : option Z) (now_start now_end : Z) : list point :=
  let days := default 30 days in
  let days := clamp_days days in
  let start_date := minus_days now_start days in
  let daily_data := daily_data db start_date in
  let current_date := date start_date in
  let end_date := date now_end in
  fill (daily_counts daily_data) current_date end_date.

(** [GET /charts/trend] *)
Definition get_trend_chart_data (db : Db.t) (identity : Z) (days : option Z)
    (now_start now_end : Z) : Reply (list point) :=
  match Admin.get_current_admin db identity with
  | inr error => error
  | inl admin =>
      create_success_response (Some (trend_chart db days now_start now_end))
        "Trend chart data retrieved successfully" 200
  end.

End Dashboard.

(** ** routes/student.py: statistics and notifications *)

Module StudentMore.

Record Statistics := mkStatistics {
  stat_total : nat;
  stat_pending : nat;
  stat_in_progress : nat;
  stat_resolved : nat;
  stat_closed : nat;
  stat_rejected : nat
}.

Record StatsData := mkStatsData {
  statistics : Statistics;
  recent_complaints : list Complaint.dict;
  unread_notifications : nat
}.

(** [Complaint.query.filter_by(user_id=user.id)] *)
Definition owned (db : Db.t) (user_id : Z) : list Complaint.t :=
  filter (fun c => Complaint.user_id c = user_id) (Db.complaints db).

(** [Complaint.query.filter_by(user_id=user.id, status=status).count()] *)
Definition count_status (db : Db.t) (user_id : Z) (status : string) : nat :=
  length (filter (fun c => Complaint.user_id c = user_id ∧ Complaint.status c = status)
            (Db.complaints db)).

(** [Notification.query.filter_by(user_id=user.id, is_read=False)] *)
Definition unread (db : Db.t) (user_id : Z) : list Notification.t :=
  filter (fun n => Notification.user_id n = user_id ∧ Notification.is_read n = false)
    (Db.notifications db).

(** [GET /stats] *)
Definition get_student_stats (db : Db.t) (identity : Z) : Reply StatsData :=
  match Student.get_current_student db identity with
  | inr error => error
  | inl user =>
      let total := length (owned db (User.id user)) in
      let pending := count_status db (User.id user) "pending" in
      let in_progress := count_status db (User.id user) "in_progress" in
      let resolved := count_status db (User.id user) "resolved" in
      let closed := count_status db (User.id user) "closed" in
      let rejected := count_status db (User.id user) "rejected" in
      let recent_complaints :=
        take 5 (merge_sort (Query.desc "created_at") (owned db (User.id user))) in
      let unread_notifications := length (unread db (User.id user)) in
      create_success_response
        (Some (mkStatsData
                 (mkStatistics total pending in_progress resolved closed rejected)
                 (Db.complaint_to_dict db false true <$> recent_complaints)
                 unread_notifications))
        "Statistics retrieved successfully" 200
  end.

(** [Notification.created_at.desc()] *)
Definition newest_first (n1 n2 : Notification.t) : Prop :=
  Notification.created_at n2 ≤ Notification.created_at n1.

#[global] Instance newest_first_dec : RelDecision newest_first.
Proof. intros n1 n2. unfold newest_first. apply _. Defined.

(** The payload of the notification listing; [Notification.to_dict] copies
    every column, so a listed notification is the row. *)
Record NotificationPage := mkNotificationPage {
  listed_notifications : list Notification.t;
  notification_pagination : Helpers.PaginationInfo
}.

(** The query [get_notifications] paginates. *)
Definition notifications_query (db : Db.t) (user : User.t) (unread_only : option string)
  : list Notification.t :=
  let query := filter (fun n => Notification.user_id n = User.id user) (Db.notifications db) in
  let unread_only := String.eqb (Py.lower (default "false" unread_only)) "true" in
  let query :=
    if unread_only then filter (fun n => Notification.is_read n = false) query
    else query in
  merge_sort newest_first query.

(** [GET /notifications] *)
Definition get_notifications (db : Db.t) (identity : Z) (unread_only : option string)
    (page per_page : option Z) : Reply NotificationPage :=
  match Student.get_current_student db identity with
  | inr error => error
  | inl user =>
      let query := notifications_query db user unread_only in
      let page := default 1 page in
      let per_page := default 10 per_page in
      let pagination :=
        Helpers.paginate_query query page per_page Helpers.default_max_per_page in
      create_success_response
        (Some (mkNotificationPage (Helpers.items pagination)
                 (Helpers.get_pagination_info pagination)))
        "Notifications retrieved successfully" 200
  end.

(** [Notification.mark_as_read(self)] *)
Definition mark_as_read (n : Notification.t) : Notification.t :=
  Notification.mk (Notification.id n) (Notification.user_id n)
    (Notification.complaint_id n) (Notification.type n) (Notification.title n)
    (Notification.message n) true (Notification.created_at n).

(** [Notification.query.get(id)] *)
Definition get_notification (db : Db.t) (id : Z) : option Notification.t :=
  List.find (fun n => bool_decide (Notification.id n = id)) (Db.notifications db).

(** [PUT /notifications/<notification_id>/read]; the commit writes the
    flag to the row of that key. *)
Definition mark_notification_as_read (db : Db.t) (identity : Z) (notification_id : Z)
  : Reply unit * Db.t :=
  match Student.get_current_student db identity with
  | inr error => (error, db)
  | inl user =>
  match get_notification db notification_id with
  | None => (create_error_response "Notification not found" 404, db)
  | Some notification =>
  if negb (bool_decide (Notification.user_id notification = User.id user)) then
    (create_error_response "Access denied" 403, db)
  else
    (create_success_response None "Notification marked as read" 200,
     Db.mk (Db.users db) (Db.complaints db) (Db.responses db)
       ((fun n => if bool_decide (Notification.id n = Notification.id notification)
                  then mark_as_read n else n) <$> Db.notifications db))
  end end.

(** [PUT /notifications/read-all]:
    [Notification.query.filter_by(user_id=user.id, is_read=False)
       .update({'is_read': True})] *)
Definition mark_all_notifications_as_read (db : Db.t) (identity : Z)
  : Reply unit * Db.t :=
  match Student.get_current_student db identity with
  | inr error => (error, db)
  | inl user =>
    (create_success_response None "All notifications marked as read" 200,
     Db.mk (Db.users db) (Db.complaints db) (Db.responses db)
       ((fun n => if bool_decide (Notification.user_id n = User.id user
                                  ∧ Notification.is_read n = false)
                  then mark_as_read n else n) <$> Db.notifications db))
  end.

End StudentMore.

(** ** routes/admin.py: priority, assignment, notes and accounts *)

Module AdminMore.

(** [complaint.priority = ...], [complaint.assigned_to = ...],
    [complaint.admin_notes = ...] *)
Definition set_priority (c : Complaint.t) (priority : string) : Complaint.t :=
  Complaint.mk (Complaint.id c) (Complaint.ticket_number c) (Complaint.user_id c)
    (Complaint.assigned_to c) (Complaint.category c) (Complaint.title c)
    (Complaint.description c) (Complaint.status c) priority
    (Complaint.attachments c) (Complaint.admin_notes c) (Complaint.created_at c)
    (Complaint.updated_at c) (Complaint.resolved_at c).

Definition set_assigned_to (c : Complaint.t) (assigned_to : option Z) : Complaint.t :=
  Complaint.mk (Complaint.id c) (Complaint.ticket_number c) (Complaint.user_id c)
    assigned_to (Complaint.category c) (Complaint.title c)
    (Complaint.description c) (Complaint.status c) (Complaint.priority c)
    (Complaint.attachments c) (Complaint.admin_notes c) (Complaint.created_at c)
    (Complaint.updated_at c) (Complaint.resolved_at c).

Definition set_admin_notes (c : Complaint.t) (admin_notes : option string) : Complaint.t :=
  Complaint.mk (Complaint.id c) (Complaint.ticket_number c) (Complaint.user_id c)
    (Complaint.assigned_to c) (Complaint.category c) (Complaint.title c)
    (Complaint.description c) (Complaint.status c) (Complaint.priority c)
    (Complaint.attachments c) admin_notes (Complaint.created_at c)
    (Complaint.updated_at c) (Complaint.resolved_at c).

(** [PUT /complaints/<complaint_id>/priority] *)
Definition update_complaint_priority (env : Env) (db : Db.t) (identity : Z)
    (complaint_id : Z) (body : option (gmap string json))
  : Reply Complaint.dict * Db.t :=
  match Admin.get_current_admin db identity with
  | inr error => (error, db)
  | inl admin =>
  match Db.get_complaint db complaint_id with
  | None => (create_error_response "Complaint not found" 404, db)
  | Some complaint =>
  match body ≫= (fun data => data !! "priority") with
  | None => (create_error_response "Priority is required" 400, db)
  | Some raw_priority =>
  match Handler.as_str raw_priority with
  | None => Handler.failed "update priority" db
  | Some raw_priority =>
  let new_priority :=
    default "" (Helpers.sanitize_string (Some (JStr (Py.lower raw_priority))) 20) in
  if negb (Py.mem new_priority Complaint.VALID_PRIORITIES) then
    (create_error_response
       ("Invalid priority. Valid options: "
        +:+ String.concat ", " Complaint.VALID_PRIORITIES) 400, db)
  else
  let updated := set_priority complaint new_priority in
  let db1 := Db.save_complaint (now env) complaint updated db in
  (create_success_response
     (Some (Db.complaint_to_dict db1 false true (Db.flushed (now env) complaint updated)))
     ("Priority updated to '" +:+ new_priority +:+ "'") 200, db1)
  end end end end.

(** [PUT /complaints/<complaint_id>/assign]. [body] is [None] when the
    request carries no JSON body; otherwise it is the value of ['admin_id']
    in the body: [None] when the key is absent or null, the integer
    otherwise. *)
Definition assign_complaint (env : Env) (db : Db.t) (identity : Z)
    (complaint_id : Z) (body : option (option Z))
  : Reply Complaint.dict * Db.t :=
  match Admin.get_current_admin db identity with
  | inr error => (error, db)
  | inl admin =>
  match Db.get_complaint db complaint_id with
  | None => (create_error_response "Complaint not found" 404, db)
  | Some complaint =>
  match body with
  | None => (create_error_response "No data provided" 400, db)
  | Some (Some admin_id) =>
      match Db.get_user db admin_id with
      | None => (create_error_response "Admin not found" 404, db)
      | Some assigned_admin =>
          if negb (User.is_admin assigned_admin) then
            (create_error_response "Can only assign to admin users" 400, db)
          else
            let updated := set_assigned_to complaint (Some admin_id) in
            let db1 :=
              Db.create_notification (now env) admin_id "complaint_assigned"
                "New Complaint Assigned"
                ("Complaint " +:+ Py.quote +:+ Complaint.title updated +:+ Py.quote
                 +:+ " has been assigned to you.")
                (Some (Complaint.id updated)) db in
            let db2 := Db.save_complaint (now env) complaint updated db1 in
            (create_success_response
               (Some (Db.complaint_to_dict db2 false true
                        (Db.flushed (now env) complaint updated)))
               ("Complaint assigned to " +:+ User.full_name assigned_admin) 200, db2)
      end
  | Some None =>
      let updated := set_assigned_to complaint None in
      let db1 := Db.save_complaint (now env) complaint updated db in
      (create_success_response
         (Some (Db.complaint_to_dict db1 false true
                  (Db.flushed (now env) complaint updated)))
         "Complaint unassigned" 200, db1)
  end end end.

(** [PUT /complaints/<complaint_id>/notes] *)
Definition update_admin_notes (env : Env) (db : Db.t) (identity : Z)
    (complaint_id : Z) (body : option (gmap string json))
  : Reply Complaint.dict * Db.t :=
  match Admin.get_current_admin db identity with
  | inr error => (error, db)
  | inl admin =>
  match Db.get_complaint db complaint_id with
  | None => (create_error_response "Complaint not found" 404, db)
  | Some complaint =>
  match body with
  | None => (create_error_response "No data provided" 400, db)
  | Some data =>
  if bool_decide (data = ∅) then (create_error_response "No data provided" 400, db)
  else
  let updated :=
    set_admin_notes complaint (Helpers.sanitize_string (data !! "notes") 5000) in
  let db1 := Db.save_complaint (now env) complaint updated db in
  (create_success_response
     (Some (Db.complaint_to_dict db1 false true (Db.flushed (now env) complaint updated)))
     "Notes updated successfully" 200, db1)
  end end end.

(** [User.is_super_admin(self)] *)
Definition is_super_admin (u : User.t) : bool := String.eqb (User.role u) "super_admin".

(** [user.is_active = ...] and the commit: the UPDATE of the row writes
    the flag and, [updated_at] having [onupdate=datetime.utcnow], the time
    of the commit. *)
Definition set_active (now : Z) (u : User.t) (is_active : bool) : User.t :=
  User.mk (User.id u) (User.email u) (User.password_hash u) (User.full_name u)
    (User.matric_number u) (User.department u) (User.faculty u) (User.phone u)
    (User.role u) is_active (User.created_at u) now.

(** [user.is_active = not user.is_active] *)
Definition toggled (now : Z) (u : User.t) : User.t :=
  set_active now u (negb (User.is_active u)).

(** [PUT /users/<user_id>/toggle-active]; the reply carries the user as
    read back after the commit, the commit writes the row of that key. *)
Definition toggle_user_active (env : Env) (db : Db.t) (identity : Z) (user_id : Z)
  : Reply User.t * Db.t :=
  match Admin.get_current_admin db identity with
  | inr error => (error, db)
  | inl admin =>
  if negb (is_super_admin admin) then
    (create_error_response "Access denied. Super admin privileges required." 403, db)
  else
  match Db.get_user db user_id with
  | None => (create_error_response "User not found" 404, db)
  | Some user =>
  if bool_decide (User.id user = User.id admin) then
    (create_error_response "Cannot deactivate your own account" 400, db)
  else
    let updated := toggled (now env) user in
    (create_success_response (Some updated)
       ("User " +:+ (if User.is_active updated then "activated" else "deactivated")
        +:+ " successfully") 200,
     Db.mk ((fun u => if bool_decide (User.id u = User.id user)
                      then set_active (now env) u (User.is_active updated) else u)
              <$> Db.users db)
       (Db.complaints db) (Db.responses db) (Db.notifications db))
  end end.

Record admin_entry := mkAdminEntry {
  entry_id : Z;
  entry_full_name : string;
  entry_email : string;
  entry_role : string
}.

(** [User.full_name.asc()] *)
Definition by_name (u1 u2 : User.t) : Prop :=
  String.le (User.full_name u1) (User.full_name u2).

#[global] Instance by_name_dec : RelDecision by_name.
Proof. intros u1 u2. unfold by_name. apply _. Defined.

(** The active staff, by name. *)
Definition active_admins (db : Db.t) : list User.t :=
  merge_sort by_name
    (filter (fun u => User.role u ∈ ["admin"; "super_admin"] ∧ User.is_active u = true)
       (Db.users db)).

(** [GET /admins] *)
Definition get_admin_list (db : Db.t) (identity : Z) : Reply (list admin_entry) :=
  match Admin.get_current_admin db identity with
  | inr error => error
  | inl admin =>
      create_success_response
        (Some ((fun a => mkAdminEntry (User.id a) (User.full_name a) (User.email a)
                           (User.role a)) <$> active_admins db))
        "Admins retrieved successfully" 200
  end.

End AdminMore.

(** ** routes/dashboard.py: the monthly chart *)

Module DashboardMore.

Section Monthly.

(** SQL [extract('year', column)] and [extract('month', column)]. *)
Variable year_of : Z -> Z.
Variable month_of : Z -> Z.

Definition month_names : list string :=
  ["January"; "February"; "March"; "April"; "May"; "June";
   "July"; "August"; "September"; "October"; "November"; "December"].

(** The complaints created in [current_year]. *)
Definition in_year (db : Db.t) (current_year : Z) : list Complaint.t :=
  filter (fun c => year_of (Complaint.created_at c) = current_year) (Db.complaints db).

Definition count_in_month (rows : list Complaint.t) (m : Z) : Z :=
  Z.of_nat (length (filter (fun c => month_of (Complaint.created_at c) = m) rows)).

(** The grouped query: one row [(month, count)] for each month of the year
    in which a complaint was created, in month order. *)
Definition monthly_data (db : Db.t) (current_year : Z) : list (Z * Z) :=
  let rows := in_year db current_year in
  (fun m => (m, count_in_month rows m))
    <$> merge_sort Z.le
          (remove_dups ((fun c => month_of (Complaint.created_at c)) <$> rows)).

Record month_point := mkMonthPoint {
  month : Z;
  month_name : string;
  month_count : Z
}.

(** The chart [get_monthly_chart_data] computes; [now] is
    [datetime.utcnow()]. *)
Definition monthly_chart (db : Db.t) (now : Z) : list month_point :=
  let current_year := year_of now in
  let monthly_counts := Dashboard.daily_counts (monthly_data db current_year) in
  (fun i : nat =>
     mkMonthPoint (Z.of_nat i + 1) (default "" (month_names !! i))
       (default 0 (monthly_counts !! (Z.of_nat i + 1))))
    <$> seq 0 12.

(** [GET /charts/monthly]; the payload is the chart and the year. *)
Definition get_monthly_chart_data (db : Db.t) (identity : Z) (now : Z)
  : Reply (list month_point * Z) :=
  match Admin.get_current_admin db identity with
  | inr error => error
  | inl admin =>
      create_success_response (Some (monthly_chart db now, year_of now))
        "Monthly chart data retrieved successfully" 200
  end.

End Monthly.

End DashboardMore.

(** * Vocabulary of the properties *)

(** ** Enumerated attributes and filters *)

Module Enum.

(** The value the specification gives an enumerated attribute after
    construction: the value passed if it is one of the enumeration, the
    fallback otherwise. *)
Definition enum_or (fallback : string) (valid : list string) (v : option string) : string :=
  match v with
  | Some s => if decide (s ∈ valid) then s else fallback
  | None => fallback
  end.

Definition with_status (v : option string) (a : Args) : Args :=
  mkArgs v (arg_category a) (arg_priority a) (arg_assigned_to a)
    (arg_unassigned a) (arg_start_date a) (arg_end_date a) (arg_search a)
    (arg_sort_by a) (arg_sort_order a) (arg_page a) (arg_per_page a).
Definition with_category (v : option string) (a : Args) : Args :=
  mkArgs (arg_status a) v (arg_priority a) (arg_assigned_to a)
    (arg_unassigned a) (arg_start_date a) (arg_end_date a) (arg_search a)
    (arg_sort_by a) (arg_sort_order a) (arg_page a) (arg_per_page a).
Definition with_priority (v : option string) (a : Args) : Args :=
  mkArgs (arg_status a) (arg_category a) v (arg_assigned_to a)
    (arg_unassigned a) (arg_start_date a) (arg_end_date a) (arg_search a)
    (arg_sort_by a) (arg_sort_order a) (arg_page a) (arg_per_page a).

(** The form in which the status-update handler checks a status:
    lower-cased, stripped, cut to 20 characters. *)
Definition normalized_status (raw : string) : string :=
  let s := Py.strip (Py.lower raw) in
  if bool_decide (20 < Py.len s)%nat then Py.take 20 s else s.

End Enum.

(** ** Changes of status *)

Module Lifecycle.

(** One change of a complaint's status: a call of [update_status], or the
    automatic move out of ['pending'] when staff responds. *)
Inductive change :=
| Update (now : Z) (new_status : string)
| StaffResponse.

Definition apply_change (c : Complaint.t) (ch : change) : Complaint.t :=
  match ch with
  | Update now new_status => (Complaint.update_status now c new_status).1
  | StaffResponse =>
      if String.eqb (Complaint.status c) "pending"
      then Admin.set_status c "in_progress" else c
  end.

Definition apply_changes (c : Complaint.t) (chs : list change) : Complaint.t :=
  foldl apply_change c chs.

End Lifecycle.

(** ** A small database used in the examples *)

Module Sample.

Definition alice : User.t :=
  User.mk 1 "alice@uni.edu.ng" "$2b$12$alice" "Alice Obi" (Some "CSC/2020/001")
    (Some "Computer Science") (Some "Science") (Some "08030000001") "student" true
    1704067200000000 1704067200000000.
Definition bob : User.t :=
  User.mk 2 "bob@uni.edu.ng" "$2b$12$bob" "Bob Ade" (Some "CSC/2020/002")
    (Some "Computer Science") (Some "Science") None "student" true
    1704067200000000 1704067200000000.
Definition staff : User.t :=
  User.mk 3 "staff@uni.edu.ng" "$2b$12$staff" "Registry Officer" None None None None
    "admin" true 1704067200000000 1704067200000000.

(** 2024-03-01 00:00:00 UTC *)
Definition t0 : Z := 1709251200 * 1000000.

Definition card : Complaint.t :=
  Complaint.mk 1 "TKT-2024-A3B5C7" 1 (Some 3) "library" "Lost library card"
    "My library card stopped working at the gate scanner yesterday."
    "pending" "medium" [] None t0 t0 None.
Definition hostel : Complaint.t :=
  Complaint.mk 2 "TKT-2024-ZZ99Q1" 2 None "accommodation" "Hostel allocation"
    "I paid for a hostel room but no room has been allocated to me."
    "closed" "high" [] None (t0 + 5) (t0 + 9) (Some (t0 + 9)).

Definition note : Response.t :=
  Response.mk 1 1 3 "Student has two unpaid fines, check before reissuing."
    true [] (t0 + 10).
Definition answer : Response.t :=
  Response.mk 2 1 3 "Please come to the library desk with your ID card."
    false [] (t0 + 20).

Definition db : Db.t := Db.mk [alice; bob; staff] [card; hostel] [note; answer] [].

Definition env : Env := mkEnv (t0 + 3600 * 1000000) 2024 (fun i => (7 * i + 3)%nat).

Definition no_args : Args :=
  mkArgs None None None None None None None None None None None None.

End Sample.

(** ** Ticket numbers and the requests that write *)

Module Ticket.

Definition is_digit (c : ascii) : bool :=
  let n := N_of_ascii c in ((48 <=? n) && (n <=? 57))%N.

Definition is_upper_or_digit (c : ascii) : bool :=
  let n := N_of_ascii c in (((65 <=? n) && (n <=? 90)) || is_digit c)%N.

(** A full match of [TKT-\d{4}-[A-Z0-9]{6}]. *)
Definition matches_ticket_pattern (s : string) : bool :=
  match list_ascii_of_string s with
  | [t; k; t'; dash; y1; y2; y3; y4; dash'; c1; c2; c3; c4; c5; c6] =>
      Ascii.eqb t "T" && Ascii.eqb k "K" && Ascii.eqb t' "T" && Ascii.eqb dash "-"
      && is_digit y1 && is_digit y2 && is_digit y3 && is_digit y4
      && Ascii.eqb dash' "-"
      && is_upper_or_digit c1 && is_upper_or_digit c2 && is_upper_or_digit c3
      && is_upper_or_digit c4 && is_upper_or_digit c5 && is_upper_or_digit c6
  | _ => false
  end.

Definition four_digits (s : string) : bool :=
  match list_ascii_of_string s with
  | [y1; y2; y3; y4] => is_digit y1 && is_digit y2 && is_digit y3 && is_digit y4
  | _ => false
  end.

(** *** The stored ticket numbers *)

Definition ids (db : Db.t) : list Z := Complaint.id <$> Db.complaints db.
Definition tickets (db : Db.t) : list string :=
  Complaint.ticket_number <$> Db.complaints db.

(** Primary keys and ticket numbers are pairwise distinct, and every
    stored ticket number has the generated form. *)
Definition well_keyed (db : Db.t) : Prop :=
  NoDup (ids db) ∧ NoDup (tickets db)
  ∧ Forall (fun t => matches_ticket_pattern t = true) (tickets db).

(** The requests that write to the database. *)
Inductive request :=
| CreateComplaint (identity : Z) (body : option (gmap string json))
| StudentResponse (identity complaint_id : Z) (body : option (gmap string json))
| StatusUpdate (identity complaint_id : Z) (body : option (gmap string json))
| StaffResponse (identity complaint_id : Z) (body : option (gmap string json)).

(** The database after a request. *)
Definition handle (env : Env) (db : Db.t) (req : request) : Db.t :=
  match req with
  | CreateComplaint identity body =>
      (Student.create_complaint env db identity body).2
  | StudentResponse identity complaint_id body =>
      (Student.add_response_to_complaint env db identity complaint_id body).2
  | StatusUpdate identity complaint_id body =>
      (Admin.update_complaint_status env db identity complaint_id body).2
  | StaffResponse identity complaint_id body =>
      (Admin.add_admin_response env db identity complaint_id body).2
  end.

(** A run of the server: each request with the clock and random source it
    is served under. *)
Definition run (db : Db.t) (steps : list (Env * request)) : Db.t :=
  foldl (fun db step => handle step.1 db step.2) db steps.

(** Two students file a complaint under the same year and the same draws. *)
Definition two_submissions : list (Env * request) :=
  let body (title : string) : option (gmap string json) :=
    Some (<["category" := JStr "Library"]>
          (<["title" := JStr title]>
           {["description" := JStr "The reading room is closed during exam weeks."]})) in
  [(Sample.env, CreateComplaint 1 (body "Reading room closed"));
   (Sample.env, CreateComplaint 2 (body "Reading room hours"))].

End Ticket.

(** ** The server as a whole *)

Module Server.

(** The requests of the student and admin blueprints that write to the
    database, that is every route of [routes/student.py] and
    [routes/admin.py] that commits. *)
Inductive request :=
| Core (req : Ticket.request)
| PriorityUpdate (identity complaint_id : Z) (body : option (gmap string json))
| Assign (identity complaint_id : Z) (body : option (option Z))
| Notes (identity complaint_id : Z) (body : option (gmap string json))
| ToggleActive (identity user_id : Z)
| MarkRead (identity notification_id : Z)
| MarkAllRead (identity : Z).

(** The database after a request. *)
Definition handle (env : Env) (db : Db.t) (req : request) : Db.t :=
  match req with
  | Core req => Ticket.handle env db req
  | PriorityUpdate identity complaint_id body =>
      (AdminMore.update_complaint_priority env db identity complaint_id body).2
  | Assign identity complaint_id body =>
      (AdminMore.assign_complaint env db identity complaint_id body).2
  | Notes identity complaint_id body =>
      (AdminMore.update_admin_notes env db identity complaint_id body).2
  | ToggleActive identity user_id =>
      (AdminMore.toggle_user_active env db identity user_id).2
  | MarkRead identity notification_id =>
      (StudentMore.mark_notification_as_read db identity notification_id).2
  | MarkAllRead identity =>
      (StudentMore.mark_all_notifications_as_read db identity).2
  end.

Definition run (db : Db.t) (steps : list (Env * request)) : Db.t :=
  foldl (fun db step => handle step.1 db step.2) db steps.

(** [id] is the key of a member of staff. *)
Definition staff (db : Db.t) (id : Z) : Prop :=
  ∃ u, Db.get_user db id = Some u ∧ User.is_admin u = true.

(** The enumerated columns hold values of their enumerations. *)
Definition valid_complaint (c : Complaint.t) : Prop :=
  Complaint.status c ∈ Complaint.VALID_STATUSES
  ∧ Complaint.category c ∈ Complaint.VALID_CATEGORIES
  ∧ Complaint.priority c ∈ Complaint.VALID_PRIORITIES.

Definition valid_enums (db : Db.t) : Prop :=
  Forall valid_complaint (Db.complaints db)
  ∧ Forall (fun n => Notification.type n ∈ Notification.VALID_TYPES) (Db.notifications db).

(** Internal responses are written by staff, and complaints are assigned
    to staff. *)
Definition staff_only (db : Db.t) : Prop :=
  Forall (fun r => Response.is_internal r = true -> staff db (Response.user_id r))
    (Db.responses db)
  ∧ Forall (fun c => forall a, Complaint.assigned_to c = Some a -> staff db a)
      (Db.complaints db).

(** What a complaint keeps for life. *)
Definition same_origin (c c' : Complaint.t) : Prop :=
  Complaint.id c' = Complaint.id c
  ∧ Complaint.ticket_number c' = Complaint.ticket_number c
  ∧ Complaint.user_id c' = Complaint.user_id c
  ∧ Complaint.category c' = Complaint.category c
  ∧ Complaint.title c' = Complaint.title c
  ∧ Complaint.description c' = Complaint.description c
  ∧ Complaint.created_at c' = Complaint.created_at c
  ∧ (forall t, Complaint.resolved_at c = Some t -> Complaint.resolved_at c' = Some t).

(** How one write may change a stored complaint. *)
Definition evolves (db : Db.t) (c c' : Complaint.t) : Prop :=
  same_origin c c'
  ∧ (valid_complaint c -> valid_complaint c')
  ∧ (forall a, Complaint.assigned_to c' = Some a ->
       Complaint.assigned_to c = Some a ∨ staff db a).

(** The effects a request is made of. *)
Inductive step : Db.t -> Db.t -> Prop :=
| step_none db : step db db
| step_then db1 db2 db3 : step db1 db2 -> step db2 db3 -> step db1 db3
| step_response db r :
    (Response.is_internal r = true -> staff db (Response.user_id r)) ->
    step db (Db.mk (Db.users db) (Db.complaints db) (Db.responses db ++ [r])%list
               (Db.notifications db))
| step_notification db n :
    Notification.type n ∈ Notification.VALID_TYPES ->
    step db (Db.mk (Db.users db) (Db.complaints db) (Db.responses db)
               (Db.notifications db ++ [n])%list)
| step_save db now old new :
    Db.get_complaint db (Complaint.id old) = Some old ->
    evolves db old new ->
    step db (Db.save_complaint now old new db)
| step_insert db c :
    valid_complaint c ->
    Complaint.assigned_to c = None ->
    Db.get_complaint db (Complaint.id c) = None ->
    step db (Db.mk (Db.users db) (Db.complaints db ++ [c])%list (Db.responses db)
               (Db.notifications db))
| step_users db (f : User.t -> User.t) :
    (forall u, User.id (f u) = User.id u ∧ User.role (f u) = User.role u) ->
    step db (Db.mk (f <$> Db.users db) (Db.complaints db) (Db.responses db)
               (Db.notifications db))
| step_read db (f : Notification.t -> Notification.t) :
    (forall n, Notification.type (f n) = Notification.type n) ->
    step db (Db.mk (Db.users db) (Db.complaints db) (Db.responses db)
               (f <$> Db.notifications db)).

(** A day at the office: a complaint is assigned, another is resolved with
    a comment, an internal note is taken, a priority is raised, the
    complaint is reopened and its owner reads the notifications. *)
Definition office_day : list (Env * request) :=
  [(Sample.env, Assign 3 2 (Some (Some 3)));
   (Sample.env, Core (Ticket.StatusUpdate 3 1
                        (Some (<["comment" := JStr "Card reissued."]>
                               {["status" := JStr "Resolved"]}))));
   (Sample.env, Core (Ticket.StaffResponse 3 1
                        (Some (<["is_internal" := JBool true]>
                               {["message" := JStr "Fine waived."]}))));
   (Sample.env, PriorityUpdate 3 1 (Some {["priority" := JStr "urgent"]}));
   (Sample.env, Core (Ticket.StatusUpdate 3 1 (Some {["status" := JStr "pending"]})));
   (Sample.env, MarkAllRead 1)].

End Server.

(** ** Accounts *)

Module Account.
(** The account a write request of the student or admin blueprint is
    sent from. *)
Definition sender (req : Server.request) : Z :=
  match req with
  | Server.Core (Ticket.CreateComplaint identity _) => identity
  | Server.Core (Ticket.StudentResponse identity _ _) => identity
  | Server.Core (Ticket.StatusUpdate identity _ _) => identity
  | Server.Core (Ticket.StaffResponse identity _ _) => identity
  | Server.PriorityUpdate identity _ _ => identity
  | Server.Assign identity _ _ => identity
  | Server.Notes identity _ _ => identity
  | Server.ToggleActive identity _ => identity
  | Server.MarkRead identity _ => identity
  | Server.MarkAllRead identity => identity
  end.

(** An account that does not exist or is deactivated. *)
Definition locked (db : Db.t) (identity : Z) : Prop :=
  match Db.get_user db identity with
  | Some user => User.is_active user = false
  | None => True
  end.
End Account.

(** ** A campus with a dean and an inbox *)

Module Campus.

Definition dean : User.t :=
  User.mk 4 "dean@uni.edu.ng" "$2b$12$dean" "Dean Okoro" None None None None
    "super_admin" true 1704067200000000 1704067200000000.

Definition submitted : Notification.t :=
  Notification.mk 1 1 (Some 1) "complaint_submitted" "Complaint Submitted Successfully"
    "Your complaint has been submitted." true Sample.t0.
Definition replied : Notification.t :=
  Notification.mk 2 1 (Some 1) "new_response" "New Response on Your Complaint"
    "Admin responded to your complaint." false (Sample.t0 + 20).
Definition closed : Notification.t :=
  Notification.mk 3 2 (Some 2) "status_changed" "Complaint Status Updated"
    "Your complaint status changed to CLOSED." false (Sample.t0 + 9).

Definition db : Db.t :=
  Db.mk [Sample.alice; Sample.bob; Sample.staff; dean] [Sample.card; Sample.hostel]
    [Sample.note; Sample.answer] [submitted; replied; closed].

End Campus.

(** * Properties *)

(** Closes a decidable goal without variables by evaluating its decision
    procedure. *)
Ltac by_decide :=
  match goal with
  | |- ?P => apply (bool_decide_unpack P); vm_compute; exact I
  end.

(** ** Pagination bounds *)

Module PaginationProps.

Lemma paginate_valid {A} (query : list A) page per_page :
  1 ≤ page -> 1 ≤ per_page ≤ 100 ->
  Helpers.page (Helpers.paginate query page per_page) = page
  ∧ Helpers.per_page (Helpers.paginate query page per_page) = per_page.
Proof.
  intros Hp Hpp. unfold Helpers.paginate. simpl.
  rewrite Z.min_r by lia.
  destruct (Z.ltb_spec page 1); [lia|].
  destruct (Z.ltb_spec per_page 1); [lia|]. done.
Qed.

(** C6. Whatever page size is requested, [paginate_query] paginates with a
    page size in [1, 100]: the requested size raised to 1 and cut to 100
    (1000 gives 100, 0 gives 1); a requested page below 1 becomes page 1;
    and the items returned are those of that page with that size. *)
Theorem paginate_query_bounds {A} (query : list A) (page per_page : Z) :
  let p := Helpers.paginate_query query page per_page Helpers.default_max_per_page in
  1 ≤ Helpers.per_page p ≤ 100
  ∧ Helpers.per_page p = Z.min (Z.max 1 per_page) 100
  ∧ Helpers.page p = (if page <? 1 then 1 else page)
  ∧ Helpers.per_page
      (Helpers.paginate_query query page 1000 Helpers.default_max_per_page) = 100
  ∧ Helpers.per_page
      (Helpers.paginate_query query page 0 Helpers.default_max_per_page) = 1
  ∧ Helpers.items p =
      take (Z.to_nat (Helpers.per_page p))
        (drop (Z.to_nat ((Helpers.page p - 1) * Helpers.per_page p)) query)
  ∧ (length (Helpers.items p) ≤ 100)%nat.
Proof.
  intros p.
  assert (Hpage : 1 ≤ Z.max 1 page) by lia.
  assert (Hper : 1 ≤ Z.min (Z.max 1 per_page) 100 ≤ 100) by lia.
  destruct (paginate_valid query _ _ Hpage Hper) as [Hp1 Hp2].
  assert (Epage : Helpers.page p = Z.max 1 page) by exact Hp1.
  assert (Eper : Helpers.per_page p = Z.min (Z.max 1 per_page) 100) by exact Hp2.
  assert (Eitems : Helpers.items p =
      take (Z.to_nat (Helpers.per_page p))
        (drop (Z.to_nat ((Helpers.page p - 1) * Helpers.per_page p)) query)).
  { rewrite Epage, Eper. subst p.
    unfold Helpers.paginate_query, Helpers.default_max_per_page, Helpers.paginate.
    simpl. rewrite (Z.min_r 100) by lia.
    destruct (Z.ltb_spec (Z.max 1 page) 1); [lia|].
    destruct (Z.ltb_spec (Z.min (Z.max 1 per_page) 100) 1); [lia|]. done. }
  split; [lia|]. split; [exact Eper|].
  split; [rewrite Epage; destruct (Z.ltb_spec page 1); lia|].
  split; [exact (proj2 (paginate_valid query (Z.max 1 page) 100 Hpage ltac:(lia)))|].
  split; [exact (proj2 (paginate_valid query (Z.max 1 page) 1 Hpage ltac:(lia)))|].
  split; [exact Eitems|].
  rewrite Eitems, length_take. lia.
Qed.

End PaginationProps.

(** ** The constructor of a complaint *)

Module ConstructorProps.

Import Enum.

Lemma enum_or_valid fallback valid v :
  fallback ∈ valid -> enum_or fallback valid v ∈ valid.
Proof. intros Hf. destruct v as [s|]; simpl; [case_decide|]; done. Qed.

Lemma normalized fallback valid v :
  (if Complaint.not_in v valid then Some fallback else v)
  = Some (enum_or fallback valid v).
Proof.
  destruct v as [s|]; simpl; [|done].
  unfold Py.mem. case_bool_decide; case_decide; done.
Qed.

(** C9. Right after construction a complaint has a category among the 19
    valid ones, a status among the five, a priority among the four and an
    attachments list that is not [None]; a category, status or priority
    that is absent or outside its enumeration is replaced by ['other'],
    ['pending'], ['medium'], and the constructor rejects nothing. *)
Theorem init_normalizes (kwargs : Complaint.Attrs.t) (year : Z) (rng : nat -> nat) :
  let c := Complaint.init kwargs year rng in
  (∃ category, Complaint.Attrs.category c = Some category
     ∧ category ∈ Complaint.VALID_CATEGORIES
     ∧ category = enum_or "other" Complaint.VALID_CATEGORIES
                    (Complaint.Attrs.category kwargs))
  ∧ (∃ status, Complaint.Attrs.status c = Some status
     ∧ status ∈ ["pending"; "in_progress"; "resolved"; "closed"; "rejected"]
     ∧ status = enum_or "pending" Complaint.VALID_STATUSES
                  (Complaint.Attrs.status kwargs))
  ∧ (∃ priority, Complaint.Attrs.priority c = Some priority
     ∧ priority ∈ ["low"; "medium"; "high"; "urgent"]
     ∧ priority = enum_or "medium" Complaint.VALID_PRIORITIES
                    (Complaint.Attrs.priority kwargs))
  ∧ (∃ attachments, Complaint.Attrs.attachments c = Some attachments
     ∧ attachments = default [] (Complaint.Attrs.attachments kwargs))
  ∧ length Complaint.VALID_CATEGORIES = 19%nat
  ∧ NoDup Complaint.VALID_CATEGORIES.
Proof.
  intros c. subst c. unfold Complaint.init. simpl.
  rewrite !normalized.
  split; [eexists; split; [done|split; [|done]]|].
  { apply enum_or_valid. by_decide. }
  split; [eexists; split; [done|split; [|done]]|].
  { apply (enum_or_valid "pending" Complaint.VALID_STATUSES). by_decide. }
  split; [eexists; split; [done|split; [|done]]|].
  { apply (enum_or_valid "medium" Complaint.VALID_PRIORITIES). by_decide. }
  split; [destruct (Complaint.Attrs.attachments kwargs); eauto|].
  split; [done|]. by_decide.
Qed.

End ConstructorProps.

(** ** The resolution timestamp *)

Module ResolutionProps.

Import Lifecycle.

Lemma update_status_keeps now c new_status t :
  Complaint.resolved_at c = Some t ->
  Complaint.resolved_at (Complaint.update_status now c new_status).1 = Some t.
Proof.
  intros Ht. unfold Complaint.update_status.
  destruct (negb (Py.mem new_status Complaint.VALID_STATUSES)); simpl; [done|].
  rewrite Ht. rewrite bool_decide_eq_true_2 by eauto.
  by rewrite andb_false_r.
Qed.

Lemma apply_change_keeps c ch t :
  Complaint.resolved_at c = Some t ->
  Complaint.resolved_at (apply_change c ch) = Some t.
Proof.
  intros Ht. destruct ch as [now new_status|]; simpl.
  - by apply update_status_keeps.
  - by destruct (String.eqb _ _).
Qed.

Lemma apply_changes_keep chs : forall c t,
  Complaint.resolved_at c = Some t ->
  Complaint.resolved_at (apply_changes c chs) = Some t.
Proof.
  induction chs as [|ch chs IH]; intros c t Ht; simpl; [done|].
  apply IH. by apply apply_change_keeps.
Qed.

(** C1. When [update_status] moves a complaint whose [resolved_at] is
    [None] to ['resolved'] or ['closed'], the call succeeds, the status is
    the new one and [resolved_at] is the time of the call; after that no
    sequence of status changes, to whatever status, alters or clears
    [resolved_at]. *)
Theorem resolved_at_set_once (now : Z) (c : Complaint.t) (new_status : string)
    (later : list change) :
  Complaint.resolved_at c = None ->
  new_status ∈ ["resolved"; "closed"] ->
  let c1 := (Complaint.update_status now c new_status).1 in
  (Complaint.update_status now c new_status).2 = true
  ∧ Complaint.status c1 = new_status
  ∧ Complaint.resolved_at c1 = Some now
  ∧ Complaint.resolved_at (apply_changes c1 later) = Some now.
Proof.
  intros Hnone Hin c1.
  assert (Hc1 : Complaint.update_status now c new_status
                = (Complaint.mk (Complaint.id c) (Complaint.ticket_number c)
                     (Complaint.user_id c) (Complaint.assigned_to c)
                     (Complaint.category c) (Complaint.title c)
                     (Complaint.description c) new_status (Complaint.priority c)
                     (Complaint.attachments c) (Complaint.admin_notes c)
                     (Complaint.created_at c) (Complaint.updated_at c) (Some now),
                   true)).
  { apply list_elem_of_In in Hin. simpl in Hin.
    unfold Complaint.update_status. rewrite Hnone.
    destruct Hin as [<-|[<-|[]]]; reflexivity. }
  subst c1. rewrite Hc1. simpl.
  split; [done|]. split; [done|]. split; [done|].
  by apply apply_changes_keep.
Qed.

(** The same complaint, first resolved, then reopened, closed and answered
    by staff: the timestamp of the first resolution stays. *)
Lemma resolved_at_set_once_witness :
  let c := Complaint.mk 1 "TKT-2024-A3B5C7" 7 None "library" "Lost library card"
             "My library card stopped working." "in_progress" "medium" [] None
             100 100 None in
  Complaint.resolved_at
    (apply_changes (Complaint.update_status 500 c "resolved").1
       [Update 600 "pending"; StaffResponse; Update 700 "closed";
        Update 800 "in_progress"]) = Some 500.
Proof.
  intros c.
  apply (resolved_at_set_once 500 c "resolved"
           [Update 600 "pending"; StaffResponse; Update 700 "closed";
            Update 800 "in_progress"]).
  - reflexivity.
  - set_solver.
Defined.

End ResolutionProps.

(** ** Facts about the database and the query pieces *)

Module DbProps.

Lemma find_fmap {A} (f : A -> bool) (g : A -> A) (l : list A) :
  (forall x, f (g x) = f x) ->
  List.find f (g <$> l) = g <$> List.find f l.
Proof.
  intros Hfg. induction l as [|x l IH]; simpl; [done|].
  rewrite Hfg. destruct (f x); [done|exact IH].
Qed.

Lemma find_elem_of {A} (f : A -> bool) (l : list A) (x : A) :
  List.find f l = Some x -> x ∈ l ∧ f x = true.
Proof.
  intros H. apply List.find_some in H as [Hin Hf].
  split; [by apply list_elem_of_In|done].
Qed.

Lemma get_user_id db identity user :
  Db.get_user db identity = Some user -> User.id user = identity.
Proof.
  intros H. apply find_elem_of in H as [_ H]. by apply bool_decide_eq_true_1 in H.
Qed.

Lemma get_complaint_id db complaint_id complaint :
  Db.get_complaint db complaint_id = Some complaint ->
  Complaint.id complaint = complaint_id ∧ complaint ∈ Db.complaints db.
Proof.
  intros H. apply find_elem_of in H as [Hin H].
  by apply bool_decide_eq_true_1 in H.
Qed.

(** Writing a loaded complaint back leaves it where it was found. *)
Lemma get_complaint_save now old new db complaint_id :
  Db.get_complaint db complaint_id = Some old ->
  Complaint.id new = Complaint.id old ->
  Db.get_complaint (Db.save_complaint now old new db) complaint_id
  = Some (Db.flushed now old new).
Proof.
  intros Hget Hid. unfold Db.save_complaint, Db.flushed.
  case_bool_decide; [done|].
  destruct (get_complaint_id _ _ _ Hget) as [Hold _].
  unfold Db.get_complaint in *. simpl.
  rewrite find_fmap.
  - rewrite Hget. simpl. by rewrite bool_decide_eq_true_2.
  - intros c. simpl.
    destruct (bool_decide (Complaint.id c = Complaint.id old)) eqn:Hc; [|done].
    apply bool_decide_eq_true_1 in Hc. simpl. by rewrite Hid, <- Hc.
Qed.

Lemma student_accepted {D} db identity user :
  Db.get_user db identity = Some user ->
  User.is_active user = true ->
  User.role user = "student" ->
  @Student.get_current_student D db identity = inl user.
Proof.
  intros Hu Ha Hr. unfold Student.get_current_student. by rewrite Hu, Ha, Hr.
Qed.

Lemma student_refused {D} db identity (e : Reply D) :
  Student.get_current_student db identity = inr e -> data e = None.
Proof.
  unfold Student.get_current_student. intros H.
  destruct (Db.get_user db identity) as [u|]; [|by inversion H].
  destruct (User.is_active u); simpl in H; [|by inversion H].
  destruct (String.eqb (User.role u) "student"); simpl in H; by inversion H.
Qed.

Lemma student_identity {D} db identity user :
  @Student.get_current_student D db identity = inl user ->
  User.id user = identity ∧ User.role user = "student" ∧ User.is_active user = true.
Proof.
  unfold Student.get_current_student. intros H.
  destruct (Db.get_user db identity) as [u|] eqn:Hu; [|done].
  destruct (User.is_active u) eqn:Ha; simpl in H; [|done].
  destruct (String.eqb (User.role u) "student") eqn:Hr; simpl in H; [|done].
  injection H as <-. split; [by eapply get_user_id|].
  split; [by apply String.eqb_eq|done].
Qed.

Lemma admin_accepted {D} db identity user :
  Db.get_user db identity = Some user ->
  User.is_active user = true ->
  User.is_admin user = true ->
  @Admin.get_current_admin D db identity = inl user.
Proof.
  intros Hu Ha Hr. unfold Admin.get_current_admin. by rewrite Hu, Ha, Hr.
Qed.

(** The query pieces only ever drop rows. *)
Lemma filter_enum_subseteq field valid value query :
  Query.filter_enum field valid value query ⊆ query.
Proof.
  unfold Query.filter_enum. destruct value as [v|]; [|done].
  destruct (_ && _); [|done]. intros c Hc; by apply list_elem_of_filter in Hc as [_ ?].
Qed.

Lemma search_subseteq arg query : Query.search arg query ⊆ query.
Proof.
  unfold Query.search. destruct (Py.truthy _); [|done].
  intros c Hc; by apply list_elem_of_filter in Hc as [_ ?].
Qed.

Lemma order_by_subseteq fields sort_by sort_order query :
  Query.order_by fields sort_by sort_order query ⊆ query.
Proof.
  unfold Query.order_by. intros c Hc.
  destruct (String.eqb _ "asc"); by rewrite merge_sort_Permutation in Hc.
Qed.

Lemma paginate_query_subseteq {A} (query : list A) page per_page max_per_page :
  Helpers.items (Helpers.paginate_query query page per_page max_per_page) ⊆ query.
Proof.
  unfold Helpers.paginate_query, Helpers.paginate. simpl.
  etrans; [apply subseteq_take|apply subseteq_drop].
Qed.

End DbProps.

(** ** The student's listing *)

Module ListingProps.

Lemma my_complaints_query_owned db user args c :
  c ∈ Student.my_complaints_query db user args ->
  c ∈ Db.complaints db ∧ Complaint.user_id c = User.id user.
Proof.
  unfold Student.my_complaints_query. intros Hc.
  apply DbProps.order_by_subseteq in Hc.
  apply DbProps.search_subseteq in Hc.
  do 3 apply DbProps.filter_enum_subseteq in Hc.
  apply list_elem_of_filter in Hc as [Hu Hc]. done.
Qed.

(** C2. Whatever filters, search, sort and pagination parameters a student
    sends to the "my complaints" listing, every complaint of the returned
    page is a stored complaint whose [user_id] is the identity of the
    caller. *)
Theorem my_complaints_owned (db : Db.t) (identity : Z) (args : Args)
    (listing : Listing) (d : Complaint.dict) :
  data (Student.get_my_complaints db identity args) = Some listing ->
  d ∈ listed listing ->
  Complaint.d_user_id d = identity
  ∧ ∃ c, c ∈ Db.complaints db ∧ Complaint.user_id c = identity
         ∧ d = Db.complaint_to_dict db false true c.
Proof.
  unfold Student.get_my_complaints. intros Hdata Hd.
  destruct (Student.get_current_student db identity) as [user|e] eqn:Hu.
  - simpl in Hdata. injection Hdata as <-. simpl in Hd.
    apply list_elem_of_fmap in Hd as (c & -> & Hc).
    apply DbProps.paginate_query_subseteq in Hc.
    apply my_complaints_query_owned in Hc as [Hin Hc].
    apply DbProps.student_identity in Hu as (Hid & _ & _).
    rewrite Hid in Hc. split; [exact Hc|]. by exists c.
  - apply DbProps.student_refused in Hu. congruence.
Qed.

(** Alice lists her complaints without any parameter: the page holds her
    complaint and not Bob's. *)
Lemma my_complaints_owned_witness :
  ∃ d, d ∈ default [] (listed <$> data (Student.get_my_complaints Sample.db 1 Sample.no_args))
       ∧ Complaint.d_user_id d = 1.
Proof.
  eexists. split.
  - vm_compute. apply list_elem_of_here.
  - eapply (my_complaints_owned Sample.db 1 Sample.no_args).
    + vm_compute. reflexivity.
    + simpl. apply list_elem_of_here.
Defined.

End ListingProps.

(** ** Responses: who may add them and who sees them *)

Module ResponseProps.

(** C10. When a student who owns a complaint adds a response to it while
    its status is ['closed'] or ['rejected'], whatever the request body, the
    reply is the 400 error and the database is the one before the request:
    no response is stored, the complaint and its thread are unchanged. *)
Theorem closed_complaint_refuses_response (env : Env) (db : Db.t) (identity : Z)
    (complaint_id : Z) (body : option (gmap string json))
    (user : User.t) (complaint : Complaint.t) :
  Db.get_user db identity = Some user ->
  User.is_active user = true ->
  User.role user = "student" ->
  Db.get_complaint db complaint_id = Some complaint ->
  Complaint.user_id complaint = User.id user ->
  Complaint.status complaint ∈ ["closed"; "rejected"] ->
  Student.add_response_to_complaint env db identity complaint_id body
  = (create_error_response
       "Cannot add response to a closed or rejected complaint." 400, db).
Proof.
  intros Hu Ha Hr Hc Ho Hs. unfold Student.add_response_to_complaint.
  rewrite (DbProps.student_accepted db identity user Hu Ha Hr), Hc.
  rewrite (bool_decide_eq_true_2 _ Ho). simpl.
  unfold Py.mem. by rewrite (bool_decide_eq_true_2 _ Hs).
Qed.

(** Bob answers on his closed hostel complaint: refused, nothing stored. *)
Lemma closed_complaint_refuses_response_witness :
  Student.add_response_to_complaint Sample.env Sample.db 2 2
    (Some {["message" := JStr "Any news about my room?"]})
  = (create_error_response
       "Cannot add response to a closed or rejected complaint." 400, Sample.db).
Proof.
  apply (closed_complaint_refuses_response Sample.env Sample.db 2 2 _
           Sample.bob Sample.hostel).
  - reflexivity.
  - reflexivity.
  - reflexivity.
  - reflexivity.
  - reflexivity.
  - vm_compute. apply list_elem_of_here.
Defined.

(** The detail view of a student leaves internal notes out. *)
Lemma details_hide_internal_notes db identity complaint_id d rs r :
  data (Student.get_complaint_details db identity complaint_id) = Some d ->
  Complaint.d_responses d = Some rs ->
  r ∈ rs ->
  Response.d_is_internal r = false.
Proof.
  unfold Student.get_complaint_details. intros Hd Hrs Hr.
  destruct (Student.get_current_student db identity) as [user|e] eqn:Hu;
    [|apply DbProps.student_refused in Hu; congruence].
  destruct (Db.get_complaint db complaint_id) as [c|]; [|done].
  destruct (negb _); [done|].
  simpl in Hd. injection Hd as <-. simpl in Hrs. injection Hrs as <-.
  apply list_elem_of_fmap in Hr as (x & -> & Hx).
  rewrite merge_sort_Permutation in Hx.
  apply list_elem_of_filter in Hx as [[_ Hi] _]. exact Hi.
Qed.

(** C3. Tracking by ticket number shows the owner every response of the
    complaint: Alice tracks her ticket and the reply carries the internal
    note staff left on it. *)
Theorem track_exposes_internal_note :
  ∃ d rs r,
    data (Student.track_complaint_by_ticket Sample.db 1 "tkt-2024-a3b5c7") = Some d
    ∧ Complaint.d_responses d = Some rs
    ∧ r ∈ rs
    ∧ Response.d_is_internal r = true
    ∧ Response.d_id r = Response.id Sample.note
    ∧ Response.d_message r = Response.message Sample.note.
Proof.
  eexists. eexists. eexists.
  split; [vm_compute; reflexivity|].
  split; [reflexivity|].
  split; [apply list_elem_of_here|].
  by vm_compute.
Qed.

End ResponseProps.

(** ** The automatic move out of ['pending'] *)

Module TransitionProps.

Lemma flushed_status now old new :
  Complaint.status (Db.flushed now old new) = Complaint.status new.
Proof. unfold Db.flushed. case_bool_decide; [by subst|done]. Qed.

Lemma sanitized_message_nonempty (data : gmap string json) max_length msg :
  Helpers.sanitize_string (data !! "message") max_length = Some msg -> data ≠ ∅.
Proof. intros H ->. by rewrite lookup_empty in H. Qed.

(** An internal note is enough to move a pending complaint: staff leaves
    an internal note on Alice's pending complaint, the note is stored as
    internal, and the complaint is in progress afterwards. *)
Lemma internal_note_moves_pending :
  let body : gmap string json :=
    <["is_internal" := JBool true]>
      {["message" := JStr "Checked with the bursary, fines are paid."]} in
  let r := Admin.add_admin_response Sample.env Sample.db 3 1 (Some body) in
  Complaint.status <$> Db.get_complaint Sample.db 1 = Some "pending"
  ∧ status_code r.1 = 201
  ∧ Response.is_internal <$> last (Db.responses r.2) = Some true
  ∧ Complaint.status <$> Db.get_complaint r.2 1 = Some "in_progress"
  ∧ Complaint.status <$> Db.get_complaint r.2 1 ≠ Some "pending".
Proof. vm_compute. repeat split; congruence. Qed.

(** C4 (as the code has it). When staff adds a response and it is
    accepted with 201, internal or not, a complaint that was ['pending'] is
    ['in_progress'] afterwards and a complaint in any other status keeps
    it; the response is stored on the complaint with the visibility that
    was asked for. *)
Theorem staff_response_moves_pending (env : Env) (db : Db.t) (identity : Z)
    (complaint_id : Z) (body : option (gmap string json)) :
  let r := Admin.add_admin_response env db identity complaint_id body in
  status_code r.1 = 201 ->
  ∃ (data : gmap string json) (complaint c : Complaint.t) (response : Response.t),
    body = Some data
    ∧ Db.get_complaint db complaint_id = Some complaint
    ∧ Db.responses r.2 = (Db.responses db ++ [response])%list
    ∧ Response.complaint_id response = complaint_id
    ∧ Admin.as_boolean (default (JBool false) (data !! "is_internal"))
      = Some (Response.is_internal response)
    ∧ Db.get_complaint r.2 complaint_id = Some c
    ∧ Complaint.status c =
        (if String.eqb (Complaint.status complaint) "pending"
         then "in_progress" else Complaint.status complaint).
Proof.
  intros r. subst r.
  unfold Admin.add_admin_response, Handler.failed, Admin.get_current_admin.
  destruct (Db.get_user db identity) as [admin|]; [|done].
  destruct (negb (User.is_active admin)); [done|].
  destruct (negb (User.is_admin admin)); [done|].
  destruct (Db.get_complaint db complaint_id) as [complaint|] eqn:Hc; [|done].
  destruct body as [data|]; [|done].
  case_bool_decide; [done|].
  destruct (Handler.too_short _ _); [done|].
  destruct (Admin.as_boolean _) as [stored|] eqn:Hbool; [|done].
  intros _. unfold Db.add_response. cbv zeta.
  set (updated := if String.eqb (Complaint.status complaint) "pending"
                  then Admin.set_status complaint "in_progress" else complaint).
  set (response := Response.mk _ _ _ _ _ _ _).
  set (db1 := Db.mk _ _ _ _).
  assert (Hc1 : Db.get_complaint db1 complaint_id = Some complaint) by exact Hc.
  assert (Hid : Complaint.id updated = Complaint.id complaint).
  { subst updated. by destruct (String.eqb _ _). }
  pose proof (DbProps.get_complaint_save (now env) complaint updated db1
                complaint_id Hc1 Hid) as Hsave.
  assert (Hresp : Db.responses (Db.save_complaint (now env) complaint updated db1)
                  = Db.responses db1).
  { unfold Db.save_complaint. by case_bool_decide. }
  assert (Hst : Complaint.status (Db.flushed (now env) complaint updated)
                = if String.eqb (Complaint.status complaint) "pending"
                  then "in_progress" else Complaint.status complaint).
  { rewrite flushed_status. subst updated. by destruct (String.eqb _ _). }
  exists data, complaint, (Db.flushed (now env) complaint updated), response.
  split; [done|]. split; [done|].
  destruct (negb (json_truthy _)); cbn [fst snd Db.create_notification Db.responses];
    (split; [rewrite Hresp; by subst db1|]);
    (split; [done|]); (split; [done|]);
    (split; [exact Hsave|exact Hst]).
Qed.

(** Staff leaves an internal note on Alice's pending complaint. *)
Lemma staff_response_moves_pending_witness :
  let body : gmap string json :=
    <["is_internal" := JBool true]>
      {["message" := JStr "Checked with the bursary, fines are paid."]} in
  ∃ c response,
    Db.get_complaint
      (Admin.add_admin_response Sample.env Sample.db 3 1 (Some body)).2 1 = Some c
    ∧ Db.responses (Admin.add_admin_response Sample.env Sample.db 3 1 (Some body)).2
      = (Db.responses Sample.db ++ [response])%list
    ∧ Admin.as_boolean (default (JBool false) (body !! "is_internal"))
      = Some (Response.is_internal response)
    ∧ Complaint.status c = "in_progress".
Proof.
  intros body.
  destruct (staff_response_moves_pending Sample.env Sample.db 3 1 (Some body))
    as (data & complaint & c & response & Hb & Hget & Hr & _ & Hi & Hc & Hs).
  - vm_compute. reflexivity.
  - injection Hb as <-. injection Hget as <-.
    exists c, response. split; [exact Hc|]. split; [exact Hr|].
    split; [exact Hi|exact Hs].
Defined.

End TransitionProps.

(** ** Enumerated values on the read paths and on the write path *)

Module ValidationProps.

Import Enum.

Lemma filter_enum_invalid field valid v query :
  v ∉ valid -> Query.filter_enum field valid (Some v) query = query.
Proof.
  intros Hv. unfold Query.filter_enum, Py.mem.
  by rewrite (bool_decide_eq_false_2 _ Hv), andb_false_r.
Qed.

(** Reads the fields of a request whose one filter was replaced. *)
Ltac project_args :=
  unfold with_status, with_category, with_priority;
  cbn [arg_status arg_category arg_priority arg_assigned_to arg_unassigned
       arg_start_date arg_end_date arg_search arg_sort_by arg_sort_order
       arg_page arg_per_page].

Lemma sanitize_status raw :
  default "" (Helpers.sanitize_string (Some (JStr (Py.lower raw))) 20)
  = normalized_status raw.
Proof. reflexivity. Qed.

(** A status in capitals is not one of the enumeration, yet the status
    update accepts it: staff sends [RESOLVED] for Alice's pending complaint,
    the reply is 200 and the complaint is resolved. *)
Lemma uppercase_status_accepted :
  let r := Admin.update_complaint_status Sample.env Sample.db 3 1
             (Some {["status" := JStr "RESOLVED"]}) in
  ("RESOLVED" ∉ Complaint.VALID_STATUSES)
  ∧ status_code r.1 = 200
  ∧ r.1 ≠ (create_error_response
             ("Invalid status. Valid options: "
              +:+ String.concat ", " Complaint.VALID_STATUSES) 400)
  ∧ Complaint.status <$> Db.get_complaint Sample.db 1 = Some "pending"
  ∧ Complaint.status <$> Db.get_complaint r.2 1 = Some "resolved"
  ∧ r.2 ≠ Sample.db.
Proof.
  intros r.
  split; [by_decide|].
  split; [by vm_compute|].
  split; [intros H; apply (f_equal status_code) in H; vm_compute in H; congruence|].
  split; [by vm_compute|].
  split; [by vm_compute|].
  intros H. apply (f_equal (fun d => Complaint.status <$> Db.get_complaint d 1)) in H.
  vm_compute in H. congruence.
Qed.

Section Listings.

Variable strptime : string -> option Z.

(** A listing answers 200, or 403 or 404 from the role check: never 400. *)
Lemma listing_never_400 db identity args :
  status_code (Student.get_my_complaints db identity args) ≠ 400
  ∧ status_code (Admin.get_all_complaints strptime db identity args) ≠ 400.
Proof.
  unfold Student.get_my_complaints, Student.get_current_student,
    Admin.get_all_complaints, Admin.get_current_admin.
  split; destruct (Db.get_user db identity) as [user|]; [|done| |done];
    (destruct (negb (User.is_active user)); [done|]);
    destruct (negb _); done.
Qed.

(** C7 (as the code has it). On both listings a status, category or
    priority filter whose value is outside its enumeration is ignored: the
    reply is the one the same request gets without that filter, and it is
    never the 400 of a validation error. On the status update, sent by
    staff for a complaint that exists, a string whose lower-cased, stripped
    form, cut to 20 characters, is outside the enumeration gets the 400
    reply and leaves the database as it was. *)
Theorem invalid_enum_ignored_on_read_refused_on_write
    (env : Env) (db : Db.t) (identity : Z) (args : Args)
    (status category priority : string)
    (staff_identity complaint_id : Z) (data : gmap string json)
    (admin : User.t) (complaint : Complaint.t) (raw : string) :
  (status ∉ Complaint.VALID_STATUSES ->
   Student.get_my_complaints db identity (with_status (Some status) args)
   = Student.get_my_complaints db identity (with_status None args)
   ∧ Admin.get_all_complaints strptime db identity (with_status (Some status) args)
     = Admin.get_all_complaints strptime db identity (with_status None args)
   ∧ status_code (Student.get_my_complaints db identity
                    (with_status (Some status) args)) ≠ 400
   ∧ status_code (Admin.get_all_complaints strptime db identity
                    (with_status (Some status) args)) ≠ 400)
  ∧ (category ∉ Complaint.VALID_CATEGORIES ->
     Student.get_my_complaints db identity (with_category (Some category) args)
     = Student.get_my_complaints db identity (with_category None args)
     ∧ Admin.get_all_complaints strptime db identity
         (with_category (Some category) args)
       = Admin.get_all_complaints strptime db identity (with_category None args)
     ∧ status_code (Student.get_my_complaints db identity
                      (with_category (Some category) args)) ≠ 400
     ∧ status_code (Admin.get_all_complaints strptime db identity
                      (with_category (Some category) args)) ≠ 400)
  ∧ (priority ∉ Complaint.VALID_PRIORITIES ->
     Student.get_my_complaints db identity (with_priority (Some priority) args)
     = Student.get_my_complaints db identity (with_priority None args)
     ∧ Admin.get_all_complaints strptime db identity
         (with_priority (Some priority) args)
       = Admin.get_all_complaints strptime db identity (with_priority None args)
     ∧ status_code (Student.get_my_complaints db identity
                      (with_priority (Some priority) args)) ≠ 400
     ∧ status_code (Admin.get_all_complaints strptime db identity
                      (with_priority (Some priority) args)) ≠ 400)
  ∧ (Db.get_user db staff_identity = Some admin ->
     User.is_active admin = true ->
     User.is_admin admin = true ->
     Db.get_complaint db complaint_id = Some complaint ->
     data !! "status" = Some (JStr raw) ->
     normalized_status raw ∉ Complaint.VALID_STATUSES ->
     Admin.update_complaint_status env db staff_identity complaint_id (Some data)
     = (create_error_response
          ("Invalid status. Valid options: "
           +:+ String.concat ", " Complaint.VALID_STATUSES) 400, db)).
Proof.
  split; [|split; [|split]].
  - intros Hs.
    split; [|split; [|apply listing_never_400]].
    + unfold Student.get_my_complaints, Student.my_complaints_query.
      project_args.
      destruct (Student.get_current_student db identity) as [user|e]; [|done].
      by rewrite !(filter_enum_invalid _ _ status).
    + unfold Admin.get_all_complaints, Admin.all_complaints_query.
      project_args.
      destruct (Admin.get_current_admin db identity) as [user|e]; [|done].
      by rewrite !(filter_enum_invalid _ _ status).
  - intros Hc.
    split; [|split; [|apply listing_never_400]].
    + unfold Student.get_my_complaints, Student.my_complaints_query.
      project_args.
      destruct (Student.get_current_student db identity) as [user|e]; [|done].
      by rewrite !(filter_enum_invalid _ _ category).
    + unfold Admin.get_all_complaints, Admin.all_complaints_query.
      project_args.
      destruct (Admin.get_current_admin db identity) as [user|e]; [|done].
      by rewrite !(filter_enum_invalid _ _ category).
  - intros Hp.
    split; [|split; [|apply listing_never_400]].
    + unfold Student.get_my_complaints, Student.my_complaints_query.
      project_args.
      destruct (Student.get_current_student db identity) as [user|e]; [|done].
      by rewrite !(filter_enum_invalid _ _ priority).
    + unfold Admin.get_all_complaints, Admin.all_complaints_query.
      project_args.
      destruct (Admin.get_current_admin db identity) as [user|e]; [|done].
      by rewrite !(filter_enum_invalid _ _ priority).
  - intros Hu Ha Hadm Hget Hraw Hnorm.
    unfold Admin.update_complaint_status.
    rewrite (DbProps.admin_accepted db staff_identity admin Hu Ha Hadm), Hget.
    cbn [mbind option_bind]. rewrite Hraw. cbn [Handler.as_str].
    rewrite sanitize_status. unfold Py.mem.
    by rewrite (bool_decide_eq_false_2 _ Hnorm).
Qed.

End Listings.

Lemma get_complaint_notified now user_id type title message complaint db id :
  Db.get_complaint
    (Db.create_notification now user_id type title message complaint db) id
  = Db.get_complaint db id.
Proof. reflexivity. Qed.

Lemma update_status_valid now c new_status :
  new_status ∈ Complaint.VALID_STATUSES ->
  (Complaint.update_status now c new_status).2 = true
  ∧ Complaint.id (Complaint.update_status now c new_status).1 = Complaint.id c.
Proof.
  intros Hv. unfold Complaint.update_status, Py.mem.
  by rewrite (bool_decide_eq_true_2 _ Hv).
Qed.

(** The status update stores what [update_status] computes: an accepted
    status gets the 200 reply and the complaint read back afterwards is the
    updated object, with its resolution timestamp. *)
Lemma update_complaint_status_stores env db identity complaint_id
    (data : gmap string json) admin complaint raw :
  Db.get_user db identity = Some admin ->
  User.is_active admin = true ->
  User.is_admin admin = true ->
  Db.get_complaint db complaint_id = Some complaint ->
  data !! "status" = Some (JStr raw) ->
  normalized_status raw ∈ Complaint.VALID_STATUSES ->
  let r := Admin.update_complaint_status env db identity complaint_id (Some data) in
  let updated :=
    (Complaint.update_status (now env) complaint (normalized_status raw)).1 in
  status_code r.1 = 200
  ∧ ∃ c, Db.get_complaint r.2 complaint_id = Some c
       ∧ Complaint.status c = normalized_status raw
       ∧ Complaint.resolved_at c = Complaint.resolved_at updated.
Proof.
  intros Hu Ha Hadm Hget Hraw Hv r updated. subst r.
  unfold Admin.update_complaint_status.
  rewrite (DbProps.admin_accepted db identity admin Hu Ha Hadm), Hget.
  cbn [mbind option_bind]. rewrite Hraw. cbn [Handler.as_str].
  rewrite !sanitize_status. unfold Py.mem.
  rewrite (bool_decide_eq_true_2 _ Hv). cbn [negb].
  destruct (update_status_valid (now env) complaint _ Hv) as [Hok Hid].
  fold updated in Hid.
  destruct (Complaint.update_status (now env) complaint (normalized_status raw))
    as [updated' ok] eqn:Hup.
  simpl in Hok, updated. subst ok updated. cbn [negb].
  match goal with
  | |- context [Db.save_complaint ?n ?o ?u ?d] =>
      assert (Hd : Db.get_complaint d complaint_id = Some complaint)
        by (repeat case_match; exact Hget);
      pose proof (DbProps.get_complaint_save n o u d complaint_id Hd Hid) as Hsave
  end.
  split; [done|]. eexists. split.
  { cbn [snd]. rewrite get_complaint_notified. exact Hsave. }
  unfold Db.flushed. case_bool_decide as Heq.
  - rewrite <- Heq. split; [|done].
    apply (f_equal fst) in Hup. simpl in Hup. rewrite <- Hup.
    unfold Complaint.update_status, Py.mem.
    by rewrite (bool_decide_eq_true_2 _ Hv).
  - simpl. split; [|done].
    apply (f_equal fst) in Hup. simpl in Hup. rewrite <- Hup.
    unfold Complaint.update_status, Py.mem.
    by rewrite (bool_decide_eq_true_2 _ Hv).
Qed.

(** Alice lists her complaints with [status=done]: same reply as without
    the filter. Staff sends the status [escalated]: 400, nothing changes. *)
Lemma invalid_enum_ignored_on_read_refused_on_write_witness :
  Student.get_my_complaints Sample.db 1 (with_status (Some "done") Sample.no_args)
  = Student.get_my_complaints Sample.db 1 (with_status None Sample.no_args)
  ∧ Admin.update_complaint_status Sample.env Sample.db 3 1
      (Some {["status" := JStr " Escalated "]})
    = (create_error_response
         ("Invalid status. Valid options: "
          +:+ String.concat ", " Complaint.VALID_STATUSES) 400, Sample.db).
Proof.
  destruct (invalid_enum_ignored_on_read_refused_on_write (fun _ => None)
              Sample.env Sample.db 1 Sample.no_args "done" "parking" "critical"
              3 1 {["status" := JStr " Escalated "]} Sample.staff Sample.card
              " Escalated ")
    as (Hread & _ & _ & Hwrite).
  split.
  - apply Hread. by_decide.
  - apply Hwrite.
    + reflexivity.
    + reflexivity.
    + reflexivity.
    + reflexivity.
    + reflexivity.
    + by_decide.
Defined.

End ValidationProps.

(** ** Ticket numbers *)

Module TicketProps.

Import Ticket.

Lemma years_have_four_digits :
  forallb (fun y => four_digits (Py.str_of_int y)) (seqZ 1000 9000) = true.
Proof. vm_compute. reflexivity. Qed.

Lemma year_four_digits year :
  1000 ≤ year ≤ 9999 -> four_digits (Py.str_of_int year) = true.
Proof.
  intros Hy. pose proof years_have_four_digits as H.
  rewrite forallb_forall in H. apply H.
  apply list_elem_of_In, elem_of_seqZ. lia.
Qed.

Lemma alphabet_ok : Forall (fun c => is_upper_or_digit c = true) Complaint.ticket_alphabet.
Proof. by_decide. Qed.

Lemma drawn_char_ok (i : nat) :
  is_upper_or_digit (default "A"%char (Complaint.ticket_alphabet !! i)) = true.
Proof.
  destruct (Complaint.ticket_alphabet !! i) as [c|] eqn:Hc; simpl; [|done].
  apply list_elem_of_lookup_2 in Hc.
  pose proof alphabet_ok as H. rewrite Forall_forall in H. by apply H.
Qed.

(** A generated ticket number matches the pattern in any four-digit year,
    whatever the random source draws. *)
Lemma generated_matches year rng :
  1000 ≤ year ≤ 9999 ->
  matches_ticket_pattern (Complaint.generate_ticket_number year rng) = true.
Proof.
  intros Hy. apply year_four_digits in Hy.
  unfold Complaint.generate_ticket_number.
  unfold four_digits in Hy.
  destruct (Py.str_of_int year) as [|y1 [|y2 [|y3 [|y4 [|y5 s]]]]]; try done.
  cbn in Hy.
  unfold Complaint.random_choices.
  cbn [seq fmap list_fmap].
  cbn [string_of_list_ascii].
  pose proof (fun i => drawn_char_ok (rng i `mod` length Complaint.ticket_alphabet)) as Hd.
  pose proof (Hd 0%nat) as H0. pose proof (Hd 1%nat) as H1.
  pose proof (Hd 2%nat) as H2. pose proof (Hd 3%nat) as H3.
  pose proof (Hd 4%nat) as H4. pose proof (Hd 5%nat) as H5. clear Hd.
  revert H0 H1 H2 H3 H4 H5.
  generalize (default "A"%char (Complaint.ticket_alphabet !! (rng 0 `mod` length Complaint.ticket_alphabet)%nat)).
  generalize (default "A"%char (Complaint.ticket_alphabet !! (rng 1 `mod` length Complaint.ticket_alphabet)%nat)).
  generalize (default "A"%char (Complaint.ticket_alphabet !! (rng 2 `mod` length Complaint.ticket_alphabet)%nat)).
  generalize (default "A"%char (Complaint.ticket_alphabet !! (rng 3 `mod` length Complaint.ticket_alphabet)%nat)).
  generalize (default "A"%char (Complaint.ticket_alphabet !! (rng 4 `mod` length Complaint.ticket_alphabet)%nat)).
  generalize (default "A"%char (Complaint.ticket_alphabet !! (rng 5 `mod` length Complaint.ticket_alphabet)%nat)).
  intros c6 c5 c4 c3 c2 c1 H1 H2 H3 H4 H5 H6.
  unfold matches_ticket_pattern.
  cbv [String.append list_ascii_of_string].
  rewrite !andb_true_iff in Hy. destruct Hy as [[[Hy1 Hy2] Hy3] Hy4].
  rewrite H1, H2, H3, H4, H5, H6, Hy1, Hy2, Hy3, Hy4. reflexivity.
Qed.

Lemma next_id_above (l : list Z) x : x ∈ l -> x < Db.next_id l.
Proof.
  unfold Db.next_id. induction l as [|y l IH]; intros Hx; [by inversion Hx|].
  apply elem_of_cons in Hx as [->|Hx]; simpl; [lia|].
  specialize (IH Hx). lia.
Qed.

Lemma next_id_fresh (l : list Z) : Db.next_id l ∉ l.
Proof. intros H. apply next_id_above in H. lia. Qed.

Lemma insert_complaint_spec now a db c db1 :
  Db.insert_complaint now a db = Some (c, db1) ->
  Complaint.Attrs.ticket_number a = Some (Complaint.ticket_number c)
  ∧ (Complaint.ticket_number c ∉ tickets db)
  ∧ Complaint.id c = Db.next_id (ids db)
  ∧ Db.complaints db1 = (Db.complaints db ++ [c])%list.
Proof.
  unfold Db.insert_complaint. intros H.
  destruct (Complaint.Attrs.ticket_number a) as [tn|]; [|done].
  destruct (Complaint.Attrs.user_id a); [|done].
  destruct (Complaint.Attrs.category a); [|done].
  destruct (Complaint.Attrs.title a); [|done].
  destruct (Complaint.Attrs.description a); [|done].
  cbn [mbind option_bind] in H.
  case_bool_decide as Hfresh; [done|].
  injection H as <- <-. done.
Qed.

Lemma well_keyed_insert db db' c :
  well_keyed db ->
  Db.complaints db' = (Db.complaints db ++ [c])%list ->
  Complaint.id c = Db.next_id (ids db) ->
  Complaint.ticket_number c ∉ tickets db ->
  matches_ticket_pattern (Complaint.ticket_number c) = true ->
  well_keyed db'.
Proof.
  intros (Hids & Htks & Hfmt) Hc Hid Hfresh Hm.
  unfold well_keyed, ids, tickets in *. rewrite Hc, !fmap_app. simpl.
  split; [|split].
  - apply NoDup_app. split; [done|]. split; [|apply NoDup_singleton].
    intros x Hx Hx'. apply list_elem_of_singleton in Hx'. subst x.
    rewrite Hid in Hx. by apply next_id_fresh in Hx.
  - apply NoDup_app. split; [done|]. split; [|apply NoDup_singleton].
    intros x Hx Hx'. apply list_elem_of_singleton in Hx'. by subst x.
  - apply Forall_app. split; [done|]. by apply Forall_singleton.
Qed.

Lemma same_key_same_row (l : list Complaint.t) x y :
  NoDup (Complaint.id <$> l) -> x ∈ l -> y ∈ l ->
  Complaint.id x = Complaint.id y -> x = y.
Proof.
  induction l as [|z l IH]; intros Hnd Hx Hy Hxy; [by inversion Hx|].
  rewrite fmap_cons in Hnd. apply NoDup_cons in Hnd as [Hz Hnd].
  apply elem_of_cons in Hx as [->|Hx];
    apply elem_of_cons in Hy as [->|Hy]; [done| | |by apply IH].
  - exfalso. apply Hz. rewrite Hxy. by apply list_elem_of_fmap_2.
  - exfalso. apply Hz. rewrite <- Hxy. by apply list_elem_of_fmap_2.
Qed.

(** Writing a loaded complaint back changes neither keys nor tickets. *)
Lemma save_complaint_keys now old new db :
  NoDup (ids db) ->
  old ∈ Db.complaints db ->
  Complaint.id new = Complaint.id old ->
  Complaint.ticket_number new = Complaint.ticket_number old ->
  ids (Db.save_complaint now old new db) = ids db
  ∧ tickets (Db.save_complaint now old new db) = tickets db.
Proof.
  intros Hnd Hold Hid Htn. unfold Db.save_complaint.
  case_bool_decide; [done|]. unfold ids, tickets in *. simpl.
  rewrite <- !list_fmap_compose.
  split; apply list_fmap_ext; intros i c Hc; simpl;
    apply list_elem_of_lookup_2 in Hc;
    (case_bool_decide as Hk; [|done]);
    rewrite (same_key_same_row _ c old Hnd Hc Hold Hk); simpl; congruence.
Qed.

Lemma update_status_keys now c new_status :
  Complaint.id (Complaint.update_status now c new_status).1 = Complaint.id c
  ∧ Complaint.ticket_number (Complaint.update_status now c new_status).1
    = Complaint.ticket_number c.
Proof. unfold Complaint.update_status. by destruct (negb _). Qed.

Lemma well_keyed_same db db' :
  ids db' = ids db -> tickets db' = tickets db -> well_keyed db -> well_keyed db'.
Proof. unfold well_keyed. by intros -> ->. Qed.

Lemma create_complaint_keyed env db identity body :
  1000 ≤ year env ≤ 9999 ->
  well_keyed db ->
  well_keyed (Student.create_complaint env db identity body).2.
Proof.
  intros Hy Hwk. unfold Student.create_complaint, Handler.failed.
  repeat case_match; simpl; try done.
  all: match goal with
       | H : Db.insert_complaint _ _ _ = Some _ |- _ =>
           apply insert_complaint_spec in H as (Htn & Hfresh & Hid & Hc)
       end.
  all: unfold Complaint.init in Htn; cbn in Htn; injection Htn as Htn.
  all: eapply well_keyed_insert; [exact Hwk|exact Hc|exact Hid|exact Hfresh|].
  all: rewrite <- Htn; by apply generated_matches.
Qed.

Lemma add_response_to_complaint_keyed env db identity complaint_id body :
  well_keyed db ->
  well_keyed (Student.add_response_to_complaint env db identity complaint_id body).2.
Proof.
  intros Hwk. unfold Student.add_response_to_complaint, Db.add_response.
  repeat case_match; simpl; done.
Qed.

Lemma update_complaint_status_keyed env db identity complaint_id body :
  well_keyed db ->
  well_keyed (Admin.update_complaint_status env db identity complaint_id body).2.
Proof.
  intros Hwk. unfold Admin.update_complaint_status, Handler.failed.
  destruct (Admin.get_current_admin db identity) as [admin|e]; [|done].
  destruct (Db.get_complaint db complaint_id) as [complaint|] eqn:Hget; [|done].
  destruct (body ≫= _) as [raw|]; [|done].
  destruct (Handler.as_str raw) as [raw_status|]; [|done].
  destruct (negb (Py.mem _ _)); [done|].
  destruct (Complaint.update_status _ _ _) as [updated ok] eqn:Hup.
  destruct (negb ok); [done|]. simpl.
  pose proof (update_status_keys (now env) complaint
                (default "" (Helpers.sanitize_string
                               (Some (JStr (Py.lower raw_status))) 20))) as [Hid Htn].
  rewrite Hup in Hid, Htn. simpl in Hid, Htn.
  apply DbProps.get_complaint_id in Hget as [_ Hin].
  destruct Hwk as (Hids & Htks & Hfmt).
  match goal with
  | |- context [Db.save_complaint ?n ?o ?u ?d] =>
      assert (Hd : ids d = ids db ∧ Db.complaints d = Db.complaints db)
        by (repeat case_match; done);
      destruct Hd as [Hd1 Hd2];
      destruct (save_complaint_keys n o u d) as [Hk1 Hk2];
        [by rewrite Hd1|by rewrite Hd2|done|done|]
  end.
  apply (well_keyed_same db); [| |done].
  - etrans; [exact Hk1|]. repeat case_match; done.
  - etrans; [exact Hk2|]. repeat case_match; done.
Qed.

Lemma add_admin_response_keyed env db identity complaint_id body :
  well_keyed db ->
  well_keyed (Admin.add_admin_response env db identity complaint_id body).2.
Proof.
  intros Hwk. unfold Admin.add_admin_response, Handler.failed.
  destruct (Admin.get_current_admin db identity) as [admin|e]; [|done].
  destruct (Db.get_complaint db complaint_id) as [complaint|] eqn:Hget; [|done].
  destruct body as [data|]; [|done].
  case_bool_decide; [done|].
  destruct (Handler.too_short _ _); [done|].
  destruct (Admin.as_boolean _) as [stored|]; [|done].
  unfold Db.add_response.
  apply DbProps.get_complaint_id in Hget as [_ Hin].
  destruct Hwk as (Hids & Htks & Hfmt).
  match goal with
  | |- context [Db.save_complaint ?n ?o ?u ?d] =>
      destruct (save_complaint_keys n o u d) as [Hk1 Hk2];
        [done|done| | |]
  end.
  - by destruct (String.eqb _ _).
  - by destruct (String.eqb _ _).
  - apply (well_keyed_same db); [| |done].
    + etrans; [|exact Hk1]. by destruct (negb _).
    + etrans; [|exact Hk2]. by destruct (negb _).
Qed.

Lemma handle_keyed env db req :
  1000 ≤ year env ≤ 9999 -> well_keyed db -> well_keyed (handle env db req).
Proof.
  intros Hy Hwk. destruct req; simpl.
  - by apply create_complaint_keyed.
  - by apply add_response_to_complaint_keyed.
  - by apply update_complaint_status_keyed.
  - by apply add_admin_response_keyed.
Qed.

Lemma run_keyed steps : forall db,
  Forall (fun step : Env * request => 1000 ≤ year step.1 ≤ 9999) steps ->
  well_keyed db -> well_keyed (run db steps).
Proof.
  induction steps as [|step steps IH]; intros db Hys Hwk; simpl; [done|].
  apply Forall_cons in Hys as [Hy Hys].
  apply IH; [done|]. by apply handle_keyed.
Qed.

(** C8. In a four-digit year a complaint constructed without a ticket
    number gets the generated one, which matches
    [TKT-\d{4}-[A-Z0-9]{6}]; and along any run of requests served in
    four-digit years, the stored ticket numbers stay pairwise distinct (as
    do the primary keys) and of that form: a new complaint is stored only
    if its ticket number is not stored yet. *)
Theorem ticket_numbers_formatted_and_unique (kwargs : Complaint.Attrs.t)
    (y : Z) (random : nat -> nat) (db : Db.t) (steps : list (Env * request)) :
  1000 ≤ y ≤ 9999 ->
  Complaint.Attrs.ticket_number kwargs = None
  ∨ Complaint.Attrs.ticket_number kwargs = Some "" ->
  Forall (fun step : Env * request => 1000 ≤ year step.1 ≤ 9999) steps ->
  well_keyed db ->
  (∃ tn, Complaint.Attrs.ticket_number (Complaint.init kwargs y random) = Some tn
         ∧ tn = Complaint.generate_ticket_number y random
         ∧ matches_ticket_pattern tn = true)
  ∧ NoDup (tickets (run db steps))
  ∧ Forall (fun t => matches_ticket_pattern t = true) (tickets (run db steps))
  ∧ well_keyed (run db steps).
Proof.
  intros Hy Hkw Hys Hwk. split.
  - exists (Complaint.generate_ticket_number y random).
    split; [|split; [done|by apply generated_matches]].
    unfold Complaint.init. by destruct Hkw as [-> | ->].
  - pose proof (run_keyed steps db Hys Hwk) as Hrun.
    destruct Hrun as (Hids & Htks & Hfmt). done.
Qed.

(** Alice files a complaint, then Bob does, served with the same year and
    the same draws: Alice's complaint is stored with a fresh ticket number,
    Bob's collides with it and is not stored. *)
Lemma ticket_numbers_formatted_and_unique_witness :
  tickets (run Sample.db two_submissions)
  = ["TKT-2024-A3B5C7"; "TKT-2024-ZZ99Q1"; "TKT-2024-DKRY5C"]
  ∧ NoDup (tickets (run Sample.db two_submissions)).
Proof.
  split; [vm_compute; reflexivity|].
  apply (ticket_numbers_formatted_and_unique
           (Complaint.Attrs.mk None (Some 1) None (Some "library") (Some "t")
              (Some "d") None None None None None None)
           2024 (fun i => i) Sample.db two_submissions).
  - lia.
  - by left.
  - repeat constructor; vm_compute; congruence.
  - split; [by_decide|]. split; [by_decide|].
    repeat constructor.
Defined.

End TicketProps.

(** ** The trend chart *)

Module TrendProps.

Lemma date_minus_days t days :
  Dashboard.date (Dashboard.minus_days t days) = Dashboard.date t - days.
Proof.
  unfold Dashboard.date, Dashboard.minus_days.
  replace (t - days * Dashboard.DAY) with (t + (- days) * Dashboard.DAY) by lia.
  rewrite Z.div_add by done. lia.
Qed.

(** The loop yields one point for each day from [current_date] to
    [end_date], in order. *)
Lemma fill_dense counts current_date end_date :
  Dashboard.fill counts current_date end_date
  = (fun d => Dashboard.mkPoint d (default 0 (counts !! d)))
      <$> seqZ current_date (end_date - current_date + 1).
Proof.
  funelim (Dashboard.fill counts current_date end_date).
  - rewrite seqZ_cons by lia. rewrite fmap_cons. f_equal.
    match goal with IH : Dashboard.fill _ _ _ = _ <$> _ |- _ => rewrite IH end.
    do 2 f_equal; lia.
  - by rewrite seqZ_nil by lia.
Qed.

(** The dictionary built from one row per day of [l]. *)
Lemma daily_counts_lookup (f : Z -> Z) (l : list Z) (d : Z) :
  Dashboard.daily_counts ((fun d => (d, f d)) <$> l) !! d
  = if decide (d ∈ l) then Some (f d) else None.
Proof.
  unfold Dashboard.daily_counts.
  assert (Hgen : forall m : gmap Z Z,
    foldl (fun m dc => <[dc.1 := dc.2]> m) m ((fun d => (d, f d)) <$> l) !! d
    = if decide (d ∈ l) then Some (f d) else m !! d).
  { induction l as [|x l IH]; intros m.
    - destruct (decide (d ∈ [])) as [H|_]; [by apply elem_of_nil in H|done].
    - rewrite fmap_cons. cbn [foldl]. rewrite IH. cbn [fst snd].
      destruct (decide (d ∈ l)) as [Hd|Hd];
        destruct (decide (d ∈ x :: l)) as [Hd'|Hd']; try done.
      + exfalso. apply Hd'. by apply list_elem_of_further.
      + apply elem_of_cons in Hd' as [->|?]; [|done]. by rewrite lookup_insert_eq.
      + rewrite lookup_insert_ne; [done|]. intros <-. apply Hd', list_elem_of_here. }
  rewrite Hgen. by rewrite lookup_empty.
Qed.

Lemma count_on_absent rows d :
  d ∉ (fun c => Dashboard.date (Complaint.created_at c)) <$> rows ->
  Dashboard.count_on rows d = 0.
Proof.
  intros Hd. unfold Dashboard.count_on.
  induction rows as [|c rows IH]; [done|].
  rewrite fmap_cons in Hd. apply not_elem_of_cons in Hd as [Hc Hd].
  rewrite filter_cons_False by congruence. by apply IH.
Qed.

(** What the chart reports for a day: the number of complaints of the
    window created on it. *)
Lemma counted db start_date d :
  default 0 (Dashboard.daily_counts (Dashboard.daily_data db start_date) !! d)
  = Dashboard.count_on (Dashboard.in_window db start_date) d.
Proof.
  unfold Dashboard.daily_data. rewrite daily_counts_lookup.
  case_decide as Hd; [done|]. simpl. symmetry. apply count_on_absent.
  intros H. apply Hd. rewrite merge_sort_Permutation. by apply elem_of_remove_dups.
Qed.

(** A week's chart has eight points. Staff asks for [days=7] on
    2024-03-08 at 01:00: the reply runs from 2024-03-01 to 2024-03-08, eight
    days; and the point of 2024-03-01 counts no complaint, though two were
    created that day, before 01:00. *)
Lemma week_chart_has_eight_points :
  let now := Sample.t0 + 7 * Dashboard.DAY + 3600 * 1000000 in
  let chart := Dashboard.trend_chart Sample.db (Some 7) now now in
  data (Dashboard.get_trend_chart_data Sample.db 3 (Some 7) now now) = Some chart
  ∧ length chart = 8%nat
  ∧ length chart ≠ 7%nat
  ∧ Dashboard.point_date <$> chart
    = [19783; 19784; 19785; 19786; 19787; 19788; 19789; 19790]
  ∧ head chart = Some (Dashboard.mkPoint (Dashboard.date Sample.t0) 0)
  ∧ Dashboard.count_on (Db.complaints Sample.db) (Dashboard.date Sample.t0) = 2.
Proof. vm_compute. repeat split; congruence. Qed.

(** C5 (as the code has it). The [days] parameter is clamped into
    [7, 365], 30 when absent. The chart has one point for every day from
    the day of [utcnow() - days] to the day of the second [utcnow()], both
    included, in increasing order and without gaps: [days + 1] points when
    the two readings of the clock fall on the same day, eight for
    [days=7]. Each point carries the number of complaints created on its
    day at or after [utcnow() - days], 0 when there is none. *)
Theorem trend_chart_dense (db : Db.t) (days : option Z) (now_start now_end : Z) :
  let n := Dashboard.clamp_days (default 30 days) in
  let start_date := Dashboard.minus_days now_start n in
  let chart := Dashboard.trend_chart db days now_start now_end in
  7 ≤ n ≤ 365
  ∧ n = Z.min (Z.max 7 (default 30 days)) 365
  ∧ chart
    = (fun d => Dashboard.mkPoint d
                  (Dashboard.count_on (Dashboard.in_window db start_date) d))
        <$> seqZ (Dashboard.date now_start - n)
              (Dashboard.date now_end - Dashboard.date now_start + n + 1)
  ∧ length chart
    = Z.to_nat (Dashboard.date now_end - Dashboard.date now_start + n + 1)
  ∧ length (Dashboard.trend_chart db days now_start now_start) = Z.to_nat (n + 1)
  ∧ length (Dashboard.trend_chart db (Some 7) now_start now_start) = 8%nat.
Proof.
  intros n start_date chart.
  assert (Hn : 7 ≤ n ≤ 365) by (subst n; unfold Dashboard.clamp_days; lia).
  assert (Hchart : forall days' now_end',
    Dashboard.trend_chart db days' now_start now_end'
    = (fun d => Dashboard.mkPoint d
         (Dashboard.count_on
            (Dashboard.in_window db
               (Dashboard.minus_days now_start
                  (Dashboard.clamp_days (default 30 days')))) d))
      <$> seqZ (Dashboard.date now_start - Dashboard.clamp_days (default 30 days'))
            (Dashboard.date now_end' - Dashboard.date now_start
             + Dashboard.clamp_days (default 30 days') + 1)).
  { intros days' now_end'. unfold Dashboard.trend_chart.
    rewrite fill_dense, date_minus_days.
    replace (Dashboard.date now_end'
             - (Dashboard.date now_start - Dashboard.clamp_days (default 30 days')) + 1)
      with (Dashboard.date now_end' - Dashboard.date now_start
            + Dashboard.clamp_days (default 30 days') + 1) by lia.
    apply list_fmap_ext. intros i d _. simpl. f_equal. apply counted. }
  split; [exact Hn|]. split; [done|].
  split; [apply Hchart|].
  split; [subst chart; rewrite Hchart, length_fmap, length_seqZ; done|].
  split.
  - rewrite Hchart, length_fmap, length_seqZ. f_equal. subst n. lia.
  - rewrite Hchart, length_fmap, length_seqZ.
    replace (Dashboard.date now_start - Dashboard.date now_start
             + Dashboard.clamp_days (default 30 (Some 7)) + 1) with 8; [done|].
    unfold Dashboard.clamp_days. simpl. lia.
Qed.

End TrendProps.

(** ** The effects of the write handlers *)

Module StepProps.

Import Server.

Lemma same_origin_refl c : same_origin c c.
Proof. unfold same_origin. naive_solver. Qed.

Lemma same_origin_trans c1 c2 c3 :
  same_origin c1 c2 -> same_origin c2 c3 -> same_origin c1 c3.
Proof.
  unfold same_origin.
  intros (? & ? & ? & ? & ? & ? & ? & H12) (? & ? & ? & ? & ? & ? & ? & H23).
  repeat split; try congruence. intros t Ht. by apply H23, H12.
Qed.

Lemma touch_same_origin now c : same_origin c (Db.touch now c).
Proof. unfold same_origin. naive_solver. Qed.

Lemma flushed_same_origin now old new :
  same_origin old new -> same_origin old (Db.flushed now old new).
Proof.
  intros H. unfold Db.flushed. case_bool_decide; [apply same_origin_refl|].
  eapply same_origin_trans; [exact H|apply touch_same_origin].
Qed.

Lemma save_complaint_tables now old new db :
  Db.users (Db.save_complaint now old new db) = Db.users db
  ∧ Db.responses (Db.save_complaint now old new db) = Db.responses db
  ∧ Db.notifications (Db.save_complaint now old new db) = Db.notifications db.
Proof. unfold Db.save_complaint. by case_bool_decide. Qed.

Lemma save_complaint_rows now old new db :
  Db.complaints (Db.save_complaint now old new db)
  = (fun c => if bool_decide (Complaint.id c = Complaint.id old)
              then Db.flushed now old new else c) <$> Db.complaints db
  ∨ Db.complaints (Db.save_complaint now old new db) = Db.complaints db ∧ new = old.
Proof.
  unfold Db.save_complaint, Db.flushed. case_bool_decide; [by right|by left].
Qed.

(** Members of staff stay members of staff. *)
Lemma staff_same_users db db' a :
  Db.users db' = Db.users db -> staff db a -> staff db' a.
Proof. unfold staff, Db.get_user. by intros ->. Qed.

Lemma step_staff db db' :
  step db db' -> forall a, staff db a -> staff db' a.
Proof.
  induction 1; intros a Ha; try exact Ha; try (by apply (staff_same_users db)).
  - apply IHstep2, IHstep1, Ha.
  - apply (staff_same_users db); [|done].
    by destruct (save_complaint_tables now0 old new db) as (-> & _ & _).
  - destruct Ha as (u & Hu & Hadm). exists (f u). split.
    + unfold Db.get_user in *. simpl. rewrite DbProps.find_fmap.
      * by rewrite Hu.
      * intros x. by destruct (H x) as [-> _].
    + unfold User.is_admin in *. by destruct (H u) as [_ ->].
Qed.

Lemma get_complaint_elem_of db id c :
  Db.get_complaint db id = Some c -> c ∈ Db.complaints db.
Proof. intros H. by apply DbProps.get_complaint_id in H as [_ ?]. Qed.

(** The enumerations are kept. *)
Lemma step_valid_enums db db' : step db db' -> valid_enums db -> valid_enums db'.
Proof.
  induction 1 as [| | db r Hr | db n Hn | db now old new Hold Hev | db c Hc Ha Hf
                 | db f Hf | db f Hf]; intros [Hcs Hns]; try done.
  - apply IHstep2, IHstep1. by split.
  - split; [done|]. simpl. apply Forall_app. split; [done|by apply Forall_singleton].
  - destruct (save_complaint_tables now old new db) as (_ & _ & Hn).
    split; [|by rewrite Hn].
    assert (Hv : valid_complaint old).
    { rewrite Forall_forall in Hcs. apply Hcs. by eapply get_complaint_elem_of. }
    destruct Hev as (_ & Hvalid & _).
    destruct (save_complaint_rows now old new db) as [-> | [-> _]]; [|done].
    apply Forall_fmap. eapply Forall_impl; [exact Hcs|].
    intros c Hvc. simpl. case_bool_decide; [|done].
    unfold Db.flushed. case_bool_decide; [done|]. by apply Hvalid.
  - split; [|done]. simpl. apply Forall_app. split; [done|by apply Forall_singleton].
  - split; [done|]. simpl. apply Forall_fmap. eapply Forall_impl; [exact Hns|].
    intros n Hn. simpl. by rewrite Hf.
Qed.

(** Internal responses and assignments stay with staff. *)
Lemma step_staff_only db db' : step db db' -> staff_only db -> staff_only db'.
Proof.
  intros Hstep. pose proof (step_staff db db' Hstep) as Hst. revert Hst.
  induction Hstep as [db | db1 db2 db3 H12 IH12 H23 IH23 | db r Hr | db n Hn
                     | db now old new Hold Hev | db c Hc Ha Hf | db f Hf | db f Hf];
    intros Hst [Hrs Hcs]; try done.
  - apply IH23; [by apply step_staff|]. apply IH12; [by apply step_staff|done].
  - split; [|done]. simpl. apply Forall_app. split; [done|].
    apply Forall_singleton. intros Hi. by apply Hst, Hr.
  - destruct (save_complaint_tables now old new db) as (_ & Hr & _).
    split.
    + rewrite Hr. eapply Forall_impl; [exact Hrs|]. naive_solver.
    + assert (Ho : forall a, Complaint.assigned_to old = Some a -> staff db a).
      { rewrite Forall_forall in Hcs. apply Hcs. by eapply get_complaint_elem_of. }
      destruct Hev as (_ & _ & Hassign).
      destruct (save_complaint_rows now old new db) as [-> | [-> _]].
      * apply Forall_fmap. eapply Forall_impl; [exact Hcs|].
        intros c Hc. simpl. case_bool_decide; [|naive_solver].
        unfold Db.flushed. case_bool_decide; [naive_solver|]. simpl.
        intros a Ha. apply Hst. destruct (Hassign a Ha); auto.
      * eapply Forall_impl; [exact Hcs|]. naive_solver.
  - split; [done|]. simpl. apply Forall_app. split; [done|].
    apply Forall_singleton. intros a Ha'. congruence.
  - split; simpl.
    + eapply Forall_impl; [exact Hrs|]. intros r Hr Hi. by apply Hst, Hr.
    + eapply Forall_impl; [exact Hcs|]. intros c Hc a Ha. by apply Hst, Hc.
Qed.

Lemma find_app_found {A} (f : A -> bool) (l k : list A) x :
  List.find f l = Some x -> List.find f (l ++ k) = Some x.
Proof.
  induction l as [|y l IH]; simpl; [done|]. by destruct (f y).
Qed.

Lemma get_complaint_after_save now old new db id c :
  Db.get_complaint db (Complaint.id old) = Some old ->
  same_origin old new ->
  Db.get_complaint db id = Some c ->
  ∃ c', Db.get_complaint (Db.save_complaint now old new db) id = Some c'
        ∧ same_origin c c'.
Proof.
  intros Hold Hso Hc. unfold Db.save_complaint.
  case_bool_decide; [exists c; split; [done|apply same_origin_refl]|].
  unfold Db.get_complaint in *. simpl. rewrite DbProps.find_fmap.
  - rewrite Hc. simpl. eexists. split; [done|].
    case_bool_decide as Hid; [|apply same_origin_refl].
    apply DbProps.find_elem_of in Hc as Hc'. destruct Hc' as [_ Hc'].
    apply bool_decide_eq_true_1 in Hc'. rewrite <- Hc', Hid in Hc.
    rewrite Hold in Hc. injection Hc as <-.
    eapply same_origin_trans; [exact Hso|apply touch_same_origin].
  - intros x. simpl.
    destruct (bool_decide (Complaint.id x = Complaint.id old)) eqn:Hx; [|done].
    apply bool_decide_eq_true_1 in Hx. simpl.
    destruct Hso as (Hid & _). by rewrite Hid, Hx.
Qed.

(** A stored complaint stays stored, with what it was created with. *)
Lemma step_keeps db db' :
  step db db' -> forall id c,
  Db.get_complaint db id = Some c ->
  ∃ c', Db.get_complaint db' id = Some c' ∧ same_origin c c'.
Proof.
  induction 1 as [db | db1 db2 db3 H12 IH12 H23 IH23 | db r Hr | db n Hn
                 | db now old new Hold Hev | db c0 Hc0 Ha Hf | db f Hf | db f Hf];
    intros id c Hc;
    try (exists c; split; [exact Hc|apply same_origin_refl]).
  - destruct (IH12 id c Hc) as (c2 & Hc2 & Hs2).
    destruct (IH23 id c2 Hc2) as (c3 & Hc3 & Hs3).
    exists c3. split; [done|]. by eapply same_origin_trans.
  - destruct Hev as (Hso & _). by apply get_complaint_after_save.
  - exists c. split; [|apply same_origin_refl].
    unfold Db.get_complaint in *. simpl. by apply find_app_found.
Qed.

(** *** How the setters change a complaint *)

Lemma evolves_refl db c : evolves db c c.
Proof. split; [apply same_origin_refl|]. split; [done|]. intros a Ha. by left. Qed.

Lemma update_status_evolves db now c new_status :
  new_status ∈ Complaint.VALID_STATUSES ->
  evolves db c (Complaint.update_status now c new_status).1.
Proof.
  intros Hv. split; [|split].
  - unfold same_origin.
    repeat split; try (unfold Complaint.update_status; by destruct (negb _)).
    intros t Ht. by apply ResolutionProps.update_status_keeps.
  - intros (_ & Hc & Hp). unfold Complaint.update_status, Py.mem.
    rewrite (bool_decide_eq_true_2 _ Hv). by split.
  - intros a Ha. left. revert Ha. unfold Complaint.update_status.
    by destruct (negb _).
Qed.

Lemma set_status_evolves db c status :
  status ∈ Complaint.VALID_STATUSES -> evolves db c (Admin.set_status c status).
Proof.
  intros Hv. split; [|split].
  - unfold same_origin. simpl. naive_solver.
  - intros (_ & Hc & Hp). by split.
  - intros a Ha. by left.
Qed.

Lemma set_priority_evolves db c priority :
  priority ∈ Complaint.VALID_PRIORITIES -> evolves db c (AdminMore.set_priority c priority).
Proof.
  intros Hv. split; [|split].
  - unfold same_origin. simpl. naive_solver.
  - intros (Hs & Hc & _). by split.
  - intros a Ha. by left.
Qed.

Lemma set_assigned_to_evolves db c assigned_to :
  (forall a, assigned_to = Some a -> staff db a) ->
  evolves db c (AdminMore.set_assigned_to c assigned_to).
Proof.
  intros Hv. split; [|split].
  - unfold same_origin. simpl. naive_solver.
  - done.
  - intros a Ha. right. by apply Hv.
Qed.

Lemma set_admin_notes_evolves db c notes :
  evolves db c (AdminMore.set_admin_notes c notes).
Proof.
  split; [|split].
  - unfold same_origin. simpl. naive_solver.
  - done.
  - intros a Ha. by left.
Qed.

(** *** Each handler is made of these effects *)

Lemma admin_identity {D} db identity admin :
  @Admin.get_current_admin D db identity = inl admin ->
  Db.get_user db identity = Some admin
  ∧ User.id admin = identity
  ∧ User.is_active admin = true
  ∧ User.is_admin admin = true.
Proof.
  unfold Admin.get_current_admin. intros H.
  destruct (Db.get_user db identity) as [u|] eqn:Hu; [|done].
  destruct (User.is_active u) eqn:Ha; simpl in H; [|done].
  destruct (User.is_admin u) eqn:Hr; simpl in H; [|done].
  injection H as <-. split; [done|]. split; [by eapply DbProps.get_user_id|done].
Qed.

Lemma admin_is_staff {D} db identity admin :
  @Admin.get_current_admin D db identity = inl admin -> staff db (User.id admin).
Proof.
  intros H. apply admin_identity in H as (Hu & Hid & _ & Hadm).
  exists admin. by rewrite Hid.
Qed.

Lemma loaded db complaint_id complaint :
  Db.get_complaint db complaint_id = Some complaint ->
  Db.get_complaint db (Complaint.id complaint) = Some complaint.
Proof.
  intros H. by destruct (DbProps.get_complaint_id _ _ _ H) as [-> _].
Qed.

Lemma create_notification_step now user_id type title message complaint_id db :
  step db (Db.create_notification now user_id type title message complaint_id db).
Proof.
  unfold Db.create_notification. apply step_notification. simpl.
  unfold Py.mem. case_bool_decide; [done|]. by_decide.
Qed.

Lemma add_response_step now complaint_id user_id message is_internal db :
  (is_internal = true -> staff db user_id) ->
  step db (Db.add_response now complaint_id user_id message is_internal db).2.
Proof. intros H. unfold Db.add_response. simpl. by apply step_response. Qed.

Lemma get_complaint_not_found db id :
  id ∉ Complaint.id <$> Db.complaints db -> Db.get_complaint db id = None.
Proof.
  intros Hid. unfold Db.get_complaint.
  destruct (List.find _ _) as [c|] eqn:Hc; [|done].
  apply DbProps.find_elem_of in Hc as [Hin Hc].
  apply bool_decide_eq_true_1 in Hc. exfalso. apply Hid. rewrite <- Hc.
  by apply list_elem_of_fmap_2.
Qed.

(** What the insert of a constructed complaint stores. *)
Lemma insert_constructed now kwargs year rng db c db1 :
  Db.insert_complaint now (Complaint.init kwargs year rng) db = Some (c, db1) ->
  valid_complaint c
  ∧ Complaint.assigned_to c = Complaint.Attrs.assigned_to kwargs
  ∧ Complaint.Attrs.user_id kwargs = Some (Complaint.user_id c)
  ∧ Complaint.Attrs.title kwargs = Some (Complaint.title c)
  ∧ Complaint.Attrs.description kwargs = Some (Complaint.description c)
  ∧ Complaint.resolved_at c = Complaint.Attrs.resolved_at kwargs
  ∧ Db.get_complaint db (Complaint.id c) = None
  ∧ db1 = Db.mk (Db.users db) (Db.complaints db ++ [c])%list (Db.responses db)
            (Db.notifications db).
Proof.
  unfold Db.insert_complaint, Complaint.init. simpl.
  rewrite !ConstructorProps.normalized. intros H.
  destruct (match Complaint.Attrs.ticket_number kwargs with
            | Some tn => _ | None => _ end) as [tn|]; [|done].
  destruct (Complaint.Attrs.user_id kwargs); [|done].
  destruct (Complaint.Attrs.title kwargs); [|done].
  destruct (Complaint.Attrs.description kwargs); [|done].
  cbn [mbind option_bind default] in H.
  case_bool_decide; [done|]. injection H as <- <-. simpl.
  split.
  { split; [|split]; simpl; apply ConstructorProps.enum_or_valid; by_decide. }
  repeat split; try done.
  apply get_complaint_not_found, TicketProps.next_id_fresh.
Qed.

Lemma save_step db db0 now complaint_id complaint updated :
  Db.get_complaint db0 complaint_id = Some complaint ->
  Db.complaints db = Db.complaints db0 ->
  evolves db complaint updated ->
  step db (Db.save_complaint now complaint updated db).
Proof.
  intros Hget Hsame Hev. apply step_save; [|done].
  apply loaded in Hget. unfold Db.get_complaint in *. by rewrite Hsame.
Qed.

Lemma create_complaint_step env db identity body :
  step db (Student.create_complaint env db identity body).2.
Proof.
  unfold Student.create_complaint, Handler.failed.
  repeat case_match; simpl; try apply step_none.
  all: match goal with
       | H : Db.insert_complaint _ _ _ = Some _ |- _ =>
           apply insert_constructed in H
             as (Hv & Ha & _ & _ & _ & _ & Hfresh & ->)
       end.
  all: eapply step_then; [by apply step_insert|apply create_notification_step].
Qed.

Lemma add_response_to_complaint_step env db identity complaint_id body :
  step db (Student.add_response_to_complaint env db identity complaint_id body).2.
Proof.
  unfold Student.add_response_to_complaint.
  repeat case_match; simpl; try apply step_none.
  all: match goal with
       | H : Db.add_response ?n ?c ?u ?m ?i ?d = (_, ?d1) |- step _ ?d1 =>
           replace d1 with (Db.add_response n c u m i d).2 by (by rewrite H);
           by apply add_response_step
       end.
Qed.

Lemma update_complaint_status_step env db identity complaint_id body :
  step db (Admin.update_complaint_status env db identity complaint_id body).2.
Proof.
  unfold Admin.update_complaint_status, Handler.failed.
  destruct (Admin.get_current_admin db identity) as [admin|e]; [|apply step_none].
  destruct (Db.get_complaint db complaint_id) as [complaint|] eqn:Hget;
    [|apply step_none].
  destruct (body ≫= _) as [raw|]; [|apply step_none].
  destruct (Handler.as_str raw) as [raw_status|]; [|apply step_none].
  destruct (negb (Py.mem _ _)) eqn:Hv; [apply step_none|].
  apply negb_false_iff, bool_decide_eq_true_1 in Hv.
  set (db1 := match Helpers.sanitize_string _ 2000 with
              | Some comment => _
              | None => db
              end).
  assert (H1 : step db db1 ∧ Db.complaints db1 = Db.complaints db).
  { subst db1. destruct (Helpers.sanitize_string _ 2000) as [comment|];
      [|split; [apply step_none|done]].
    destruct (Py.truthy comment); [|split; [apply step_none|done]].
    split; [|done]. apply add_response_step. intros [=]. }
  destruct H1 as [H1 Hsame].
  pose proof (update_status_evolves db1 (now env) complaint _ Hv) as Hev.
  destruct (Complaint.update_status _ _ _) as [updated ok] eqn:Hup.
  destruct (negb ok); [apply step_none|]. cbn [snd fst] in *.
  eapply step_then; [|apply create_notification_step].
  eapply step_then; [exact H1|].
  by apply (save_step db1 db _ complaint_id).
Qed.

Lemma add_admin_response_step env db identity complaint_id body :
  step db (Admin.add_admin_response env db identity complaint_id body).2.
Proof.
  unfold Admin.add_admin_response, Handler.failed.
  destruct (Admin.get_current_admin db identity) as [admin|e] eqn:Hadm;
    [|apply step_none].
  destruct (Db.get_complaint db complaint_id) as [complaint|] eqn:Hget;
    [|apply step_none].
  destruct body as [data|]; [|apply step_none].
  case_bool_decide; [apply step_none|].
  destruct (Handler.too_short _ _); [apply step_none|].
  destruct (Admin.as_boolean _) as [stored|]; [|apply step_none].
  unfold Db.add_response.
  set (db1 := Db.mk _ _ _ _).
  assert (H1 : step db db1).
  { apply step_response. simpl. intros _. by eapply admin_is_staff. }
  assert (H2 : step db1 (Db.save_complaint (now env) complaint
                           (if String.eqb (Complaint.status complaint) "pending"
                            then Admin.set_status complaint "in_progress"
                            else complaint) db1)).
  { apply (save_step db1 db _ complaint_id); [done|done|].
    destruct (String.eqb _ _); [|apply evolves_refl].
    apply set_status_evolves. by_decide. }
  destruct (negb (json_truthy _)); simpl.
  - eapply step_then; [exact H1|]. eapply step_then; [exact H2|].
    apply create_notification_step.
  - eapply step_then; [exact H1|exact H2].
Qed.

Lemma update_complaint_priority_step env db identity complaint_id body :
  step db (AdminMore.update_complaint_priority env db identity complaint_id body).2.
Proof.
  unfold AdminMore.update_complaint_priority, Handler.failed.
  destruct (Admin.get_current_admin db identity) as [admin|e]; [|apply step_none].
  destruct (Db.get_complaint db complaint_id) as [complaint|] eqn:Hget;
    [|apply step_none].
  destruct (body ≫= _) as [raw|]; [|apply step_none].
  destruct (Handler.as_str raw) as [raw_priority|]; [|apply step_none].
  destruct (negb (Py.mem _ _)) eqn:Hv; [apply step_none|].
  apply negb_false_iff, bool_decide_eq_true_1 in Hv. simpl.
  apply (save_step db db _ complaint_id); [done|done|].
  by apply set_priority_evolves.
Qed.

Lemma assign_complaint_step env db identity complaint_id body :
  step db (AdminMore.assign_complaint env db identity complaint_id body).2.
Proof.
  unfold AdminMore.assign_complaint.
  destruct (Admin.get_current_admin db identity) as [admin|e]; [|apply step_none].
  destruct (Db.get_complaint db complaint_id) as [complaint|] eqn:Hget;
    [|apply step_none].
  destruct body as [[admin_id|]|]; [| |apply step_none].
  - destruct (Db.get_user db admin_id) as [assigned_admin|] eqn:Hu; [|apply step_none].
    destruct (negb (User.is_admin assigned_admin)) eqn:Hadm; [apply step_none|].
    apply negb_false_iff in Hadm. simpl.
    eapply step_then; [apply create_notification_step|].
    eapply (save_step _ db _ complaint_id); [done|done|].
    apply set_assigned_to_evolves. intros a [= <-]. by exists assigned_admin.
  - simpl. apply (save_step db db _ complaint_id); [done|done|].
    by apply set_assigned_to_evolves.
Qed.

Lemma update_admin_notes_step env db identity complaint_id body :
  step db (AdminMore.update_admin_notes env db identity complaint_id body).2.
Proof.
  unfold AdminMore.update_admin_notes.
  destruct (Admin.get_current_admin db identity) as [admin|e]; [|apply step_none].
  destruct (Db.get_complaint db complaint_id) as [complaint|] eqn:Hget;
    [|apply step_none].
  destruct body as [data|]; [|apply step_none].
  case_bool_decide; [apply step_none|]. simpl.
  apply (save_step db db _ complaint_id); [done|done|].
  apply set_admin_notes_evolves.
Qed.

Lemma toggle_user_active_step env db identity user_id :
  step db (AdminMore.toggle_user_active env db identity user_id).2.
Proof.
  unfold AdminMore.toggle_user_active.
  repeat case_match; simpl; try apply step_none.
  all: apply step_users; intros u;
    destruct (bool_decide (User.id u = User.id _)); split; reflexivity.
Qed.

Lemma mark_notification_as_read_step db identity notification_id :
  step db (StudentMore.mark_notification_as_read db identity notification_id).2.
Proof.
  unfold StudentMore.mark_notification_as_read.
  repeat case_match; simpl; try apply step_none.
  all: apply step_read; intros n;
    match goal with
    | |- context [bool_decide ?P] => destruct (bool_decide P); reflexivity
    end.
Qed.

Lemma mark_all_notifications_as_read_step db identity :
  step db (StudentMore.mark_all_notifications_as_read db identity).2.
Proof.
  unfold StudentMore.mark_all_notifications_as_read.
  repeat case_match; simpl; try apply step_none.
  all: apply step_read; intros n;
    match goal with
    | |- context [bool_decide ?P] => destruct (bool_decide P); reflexivity
    end.
Qed.

Lemma handle_step env db req : step db (handle env db req).
Proof.
  destruct req as [[| | |]| | | | | |]; simpl.
  - apply create_complaint_step.
  - apply add_response_to_complaint_step.
  - apply update_complaint_status_step.
  - apply add_admin_response_step.
  - apply update_complaint_priority_step.
  - apply assign_complaint_step.
  - apply update_admin_notes_step.
  - apply toggle_user_active_step.
  - apply mark_notification_as_read_step.
  - apply mark_all_notifications_as_read_step.
Qed.

Lemma run_step steps : forall db, step db (run db steps).
Proof.
  induction steps as [|s steps IH]; intros db; simpl; [apply step_none|].
  eapply step_then; [apply handle_step|apply IH].
Qed.

End StepProps.

(** ** Invariants of the database along a run of the server *)

Module ServerProps.

Import Server.

Lemma sample_valid_enums : valid_enums Sample.db.
Proof.
  split; [|constructor].
  repeat constructor; by_decide.
Qed.

Lemma sample_staff_only : staff_only Sample.db.
Proof.
  assert (Hs : staff Sample.db 3) by (by exists Sample.staff).
  split.
  - repeat constructor; simpl; [by intros _|by intros [=]].
  - repeat constructor; simpl; [intros a [= <-]; exact Hs|by intros a [=]].
Qed.

(** Along any run of student and admin requests the enumerated columns
    stay within their enumerations: every stored complaint has a valid
    status, category and priority and every notification a valid type. *)
Theorem run_keeps_enums (db : Db.t) (steps : list (Env * request)) :
  valid_enums db -> valid_enums (run db steps).
Proof. apply StepProps.step_valid_enums, StepProps.run_step. Qed.

Lemma run_keeps_enums_witness : valid_enums (run Sample.db office_day).
Proof. apply (run_keeps_enums Sample.db office_day), sample_valid_enums. Defined.

(** Along any run of student and admin requests every internal response
    has a member of staff as its author and every complaint that is
    assigned is assigned to a member of staff. *)
Theorem run_keeps_staff_only (db : Db.t) (steps : list (Env * request)) :
  staff_only db -> staff_only (run db steps).
Proof. apply StepProps.step_staff_only, StepProps.run_step. Qed.

Lemma run_keeps_staff_only_witness : staff_only (run Sample.db office_day).
Proof. apply (run_keeps_staff_only Sample.db office_day), sample_staff_only. Defined.

(** No student or admin request deletes a complaint or rewrites its
    origin: along any run a
    stored complaint stays stored under its key with the same ticket
    number, owner, category, title, description and creation time, and a
    resolution timestamp, once set, is never changed or cleared. *)
Theorem run_keeps_complaints (db : Db.t) (steps : list (Env * request))
    (id : Z) (c : Complaint.t) :
  Db.get_complaint db id = Some c ->
  ∃ c', Db.get_complaint (run db steps) id = Some c'
        ∧ Complaint.id c' = Complaint.id c
        ∧ Complaint.ticket_number c' = Complaint.ticket_number c
        ∧ Complaint.user_id c' = Complaint.user_id c
        ∧ Complaint.category c' = Complaint.category c
        ∧ Complaint.title c' = Complaint.title c
        ∧ Complaint.description c' = Complaint.description c
        ∧ Complaint.created_at c' = Complaint.created_at c
        ∧ (forall t, Complaint.resolved_at c = Some t ->
             Complaint.resolved_at c' = Some t).
Proof.
  intros Hc.
  destruct (StepProps.step_keeps db (run db steps) (StepProps.run_step steps db) id c Hc)
    as (c' & Hc' & Hso).
  exists c'. split; [exact Hc'|exact Hso].
Qed.

Lemma run_keeps_complaints_witness :
  ∃ c', Db.get_complaint (run Sample.db office_day) 2 = Some c'
        ∧ Complaint.user_id c' = 2
        ∧ Complaint.resolved_at c' = Some (Sample.t0 + 9).
Proof.
  destruct (run_keeps_complaints Sample.db office_day 2 Sample.hostel)
    as (c' & Hc' & _ & _ & Hu & _ & _ & _ & _ & Hr).
  - reflexivity.
  - exists c'. split; [exact Hc'|]. split; [exact Hu|]. by apply Hr.
Defined.

End ServerProps.

(** ** Stripping white space *)

Module StripProps.

Lemma app_cons c s t : String c s +:+ t = String c (s +:+ t).
Proof. reflexivity. Qed.

Lemma app_nil_r s : s +:+ "" = s.
Proof. induction s as [|c s IH]; [done|]. by rewrite app_cons, IH. Qed.

Lemma app_assoc s1 s2 s3 : (s1 +:+ s2) +:+ s3 = s1 +:+ (s2 +:+ s3).
Proof. induction s1 as [|c s1 IH]; [done|]. by rewrite !app_cons, IH. Qed.

Lemma app_length s1 s2 :
  String.length (s1 +:+ s2) = (String.length s1 + String.length s2)%nat.
Proof. induction s1 as [|c s1 IH]; [done|]. rewrite app_cons. simpl. by rewrite IH. Qed.

Lemma rev_app_append s1 s2 : String.rev_app s1 s2 = String.rev s1 +:+ s2.
Proof.
  unfold String.rev. revert s2.
  induction s1 as [|c s1 IH]; intros s2; simpl; [done|].
  rewrite (IH (String c s2)), (IH (String c "")).
  by rewrite app_assoc.
Qed.

Lemma rev_cons c s : String.rev (String c s) = String.rev s +:+ String c "".
Proof. unfold String.rev at 1. simpl. apply rev_app_append. Qed.

Lemma rev_append s1 s2 : String.rev (s1 +:+ s2) = String.rev s2 +:+ String.rev s1.
Proof.
  induction s1 as [|c s1 IH]; [by rewrite app_nil_r|].
  by rewrite app_cons, !rev_cons, IH, app_assoc.
Qed.

Lemma rev_rev s : String.rev (String.rev s) = s.
Proof.
  induction s as [|c s IH]; [done|].
  by rewrite rev_cons, rev_append, IH.
Qed.

(** [lstrip] and [rstrip_rev] only ever drop leading bytes. *)
Lemma lstrip_suffix s : ∃ k, s = k +:+ Py.lstrip s.
Proof.
  remember (String.length s) as n eqn:Hn. revert s Hn.
  induction n as [n IH] using lt_wf_ind. intros s ->.
  destruct s as [|c1 s1]; [by exists ""|]. simpl.
  destruct (Py.space1 c1).
  { destruct (IH (String.length s1) ltac:(simpl; lia) s1 eq_refl) as [k Hk].
    exists (String c1 k). by rewrite app_cons, <- Hk. }
  destruct s1 as [|c2 s2]; [by exists ""|].
  destruct (Py.space2 c1 c2).
  { destruct (IH (String.length s2) ltac:(simpl; lia) s2 eq_refl) as [k Hk].
    exists (String c1 (String c2 k)). by rewrite !app_cons, <- Hk. }
  destruct s2 as [|c3 s3]; [by exists ""|].
  destruct (Py.space3 c1 c2 c3); [|by exists ""].
  destruct (IH (String.length s3) ltac:(simpl; lia) s3 eq_refl) as [k Hk].
  exists (String c1 (String c2 (String c3 k))). by rewrite !app_cons, <- Hk.
Qed.

Lemma rstrip_rev_suffix s : ∃ k, s = k +:+ Py.rstrip_rev s.
Proof.
  remember (String.length s) as n eqn:Hn. revert s Hn.
  induction n as [n IH] using lt_wf_ind. intros s ->.
  destruct s as [|c1 s1]; [by exists ""|]. simpl.
  destruct (Py.space1 c1).
  { destruct (IH (String.length s1) ltac:(simpl; lia) s1 eq_refl) as [k Hk].
    exists (String c1 k). by rewrite app_cons, <- Hk. }
  destruct s1 as [|c2 s2]; [by exists ""|].
  destruct (Py.space2 c2 c1).
  { destruct (IH (String.length s2) ltac:(simpl; lia) s2 eq_refl) as [k Hk].
    exists (String c1 (String c2 k)). by rewrite !app_cons, <- Hk. }
  destruct s2 as [|c3 s3]; [by exists ""|].
  destruct (Py.space3 c3 c2 c1); [|by exists ""].
  destruct (IH (String.length s3) ltac:(simpl; lia) s3 eq_refl) as [k Hk].
  exists (String c1 (String c2 (String c3 k))). by rewrite !app_cons, <- Hk.
Qed.

Lemma lstrip_length s : (String.length (Py.lstrip s) ≤ String.length s)%nat.
Proof.
  destruct (lstrip_suffix s) as [k Hk]. rewrite Hk at 2. rewrite app_length. lia.
Qed.

(** The stripped text is the start of the text stripped on the left. *)
Lemma strip_prefix s : ∃ rest, Py.lstrip s = Py.strip s +:+ rest.
Proof.
  unfold Py.strip.
  destruct (rstrip_rev_suffix (String.rev (Py.lstrip s))) as [k Hk].
  exists (String.rev k).
  rewrite <- rev_append, <- Hk. by rewrite rev_rev.
Qed.

Lemma take_prefix n s : ∃ rest, s = Py.take n s +:+ rest.
Proof.
  revert n. induction s as [|c s IH]; intros n; [by exists ""|]. simpl.
  destruct (Py.is_continuation c).
  - destruct (IH n) as [rest Hr]. exists rest. by rewrite app_cons, <- Hr.
  - destruct n as [|n]; [by eexists|].
    destruct (IH n) as [rest Hr]. exists rest. by rewrite app_cons, <- Hr.
Qed.

(** A text that does not start with white space has no start that does. *)
Lemma lstrip_fixed_prefix t p rest :
  Py.lstrip t = t -> t = p +:+ rest -> Py.lstrip p = p.
Proof.
  intros Hfix ->.
  assert (Hlen : forall s c, (String.length (Py.lstrip s) < String.length (String c s))%nat).
  { intros s c. pose proof (lstrip_length s). simpl. lia. }
  destruct p as [|c1 p1]; [done|]. rewrite app_cons in Hfix. simpl in Hfix |- *.
  destruct (Py.space1 c1).
  { exfalso. pose proof (Hlen (p1 +:+ rest) c1) as H. rewrite Hfix in H. lia. }
  destruct p1 as [|c2 p2]; [done|]. rewrite app_cons in Hfix. simpl in Hfix |- *.
  destruct (Py.space2 c1 c2).
  { exfalso. pose proof (Hlen (p2 +:+ rest) c2) as H.
    pose proof (f_equal String.length Hfix) as Hl. simpl in *. lia. }
  destruct p2 as [|c3 p3]; [done|]. rewrite app_cons in Hfix. simpl in Hfix |- *.
  destruct (Py.space3 c1 c2 c3); [|done].
  exfalso. pose proof (Hlen (p3 +:+ rest) c3) as H.
  pose proof (f_equal String.length Hfix) as Hl. simpl in *. lia.
Qed.

Lemma lstrip_lstrip s : Py.lstrip (Py.lstrip s) = Py.lstrip s.
Proof.
  remember (String.length s) as n eqn:Hn. revert s Hn.
  induction n as [n IH] using lt_wf_ind. intros s ->.
  destruct s as [|c1 s1]; [done|]. simpl.
  destruct (Py.space1 c1) eqn:H1.
  { apply (IH (String.length s1)); [simpl; lia|done]. }
  destruct s1 as [|c2 s2]; [simpl; by rewrite H1|].
  destruct (Py.space2 c1 c2) eqn:H2.
  { apply (IH (String.length s2)); [simpl; lia|done]. }
  destruct s2 as [|c3 s3]; [simpl; by rewrite H1, H2|].
  destruct (Py.space3 c1 c2 c3) eqn:H3.
  { apply (IH (String.length s3)); [simpl; lia|done]. }
  simpl. by rewrite H1, H2, H3.
Qed.

(** The stripped text, and any start of it, does not start with white
    space. *)
Lemma strip_start s p rest : Py.strip s = p +:+ rest -> Py.lstrip p = p.
Proof.
  intros Hp. destruct (strip_prefix s) as [k Hk].
  apply (lstrip_fixed_prefix (Py.lstrip s) p (rest +:+ k)).
  - apply lstrip_lstrip.
  - by rewrite Hk, Hp, app_assoc.
Qed.

End StripProps.

(** ** What the student's write handlers store *)

Module OutcomeProps.

Lemma take_length n s : Py.len (Py.take n s) = Nat.min n (Py.len s).
Proof.
  revert n. induction s as [|c s IH]; intros n; simpl; [by destruct n|].
  destruct (Py.is_continuation c) eqn:Hc; simpl; rewrite ?Hc; [apply IH|].
  destruct n as [|n]; simpl; [done|]. by rewrite Hc, IH.
Qed.

Lemma sanitized (value : json) (max_length : nat) :
  max_length ≠ 0%nat ->
  match Helpers.sanitize_string (Some value) max_length with
  | Some s =>
      value ≠ JNull
      ∧ (Py.len s ≤ max_length)%nat
      ∧ Py.len s = Nat.min max_length (Py.len (Py.strip (json_str value)))
  | None => value = JNull
  end.
Proof.
  intros Hm. unfold Helpers.sanitize_string.
  destruct value as [|b|z|s]; [done| | |];
    (split; [done|]);
    rewrite (bool_decide_eq_true_2 _ Hm); cbn [andb];
    (case_bool_decide as Hlen; [rewrite take_length|]); lia.
Qed.

(** [sanitize_string] returns the start of the stripped text: as many
    characters as the stripped text has, or [max_length] if that is less.
    The result never starts with white space, whether it was cut or not;
    it is [None] only for [None]. *)
Theorem sanitize_string_bounded (value : json) (max_length : nat) :
  max_length ≠ 0%nat ->
  match Helpers.sanitize_string (Some value) max_length with
  | Some s =>
      value ≠ JNull
      ∧ (Py.len s ≤ max_length)%nat
      ∧ Py.len s = Nat.min max_length (Py.len (Py.strip (json_str value)))
      ∧ (∃ rest, Py.strip (json_str value) = s +:+ rest)
      ∧ Py.lstrip s = s
  | None => value = JNull
  end.
Proof.
  intros Hm.
  pose proof (OutcomeProps.sanitized value max_length Hm) as H.
  destruct (Helpers.sanitize_string (Some value) max_length) as [s|] eqn:Hs; [|done].
  destruct H as (Hv & Hb & Hl). split; [done|]. split; [done|]. split; [done|].
  assert (Hpre : ∃ rest, Py.strip (json_str value) = s +:+ rest).
  { revert Hs. unfold Helpers.sanitize_string.
    destruct value; [done|..]; intros [= <-];
      (destruct (_ && _); [apply StripProps.take_prefix|exists ""; by rewrite StripProps.app_nil_r]). }
  split; [done|]. destruct Hpre as [rest Hr]. by eapply StripProps.strip_start.
Qed.

Lemma sanitize_string_bounded_witness :
  match Helpers.sanitize_string (Some (JStr "   Lost library card   ")) 8 with
  | Some s =>
      JStr "   Lost library card   " ≠ JNull
      ∧ (Py.len s ≤ 8)%nat
      ∧ Py.len s
        = Nat.min 8 (Py.len (Py.strip (json_str (JStr "   Lost library card   "))))
      ∧ (∃ rest, Py.strip (json_str (JStr "   Lost library card   ")) = s +:+ rest)
      ∧ Py.lstrip s = s
  | None => JStr "   Lost library card   " = JNull
  end.
Proof. apply (sanitize_string_bounded (JStr "   Lost library card   ") 8). lia. Defined.

Lemma sanitize_length value max_length s :
  Helpers.sanitize_string value max_length = Some s ->
  max_length ≠ 0%nat ->
  (Py.len s ≤ max_length)%nat.
Proof.
  intros Hs Hm. destruct value as [v|]; [|done].
  pose proof (sanitized v max_length Hm) as H.
  rewrite Hs in H. by destruct H as (_ & H & _).
Qed.

Lemma long_enough s n :
  Handler.too_short (Some s) n = false -> (n ≤ Py.len s)%nat.
Proof.
  unfold Handler.too_short. intros H. apply orb_false_iff in H as [_ H].
  apply bool_decide_eq_false_1 in H. lia.
Qed.

(** The columns of a complaint that was constructed and inserted. *)
Lemma insert_constructed_fields now kwargs year rng db c db1 :
  Db.insert_complaint now (Complaint.init kwargs year rng) db = Some (c, db1) ->
  Complaint.status c
  = Enum.enum_or "pending" Complaint.VALID_STATUSES (Complaint.Attrs.status kwargs)
  ∧ Complaint.category c
    = Enum.enum_or "other" Complaint.VALID_CATEGORIES (Complaint.Attrs.category kwargs)
  ∧ Complaint.priority c
    = Enum.enum_or "medium" Complaint.VALID_PRIORITIES (Complaint.Attrs.priority kwargs)
  ∧ Complaint.Attrs.ticket_number (Complaint.init kwargs year rng)
    = Some (Complaint.ticket_number c).
Proof.
  intros H.
  apply TicketProps.insert_complaint_spec in H as Hspec.
  destruct Hspec as (Htn & _). rewrite Htn. clear Htn.
  revert H. unfold Db.insert_complaint, Complaint.init. simpl.
  rewrite !ConstructorProps.normalized. intros H.
  destruct (match Complaint.Attrs.ticket_number kwargs with
            | Some tn => _ | None => _ end) as [tn|]; [|done].
  destruct (Complaint.Attrs.user_id kwargs); [|done].
  destruct (Complaint.Attrs.title kwargs); [|done].
  destruct (Complaint.Attrs.description kwargs); [|done].
  cbn [mbind option_bind default] in H.
  case_bool_decide; [done|]. by injection H as <- <-.
Qed.

(** Submitting a complaint either stores exactly one new complaint and one
    notification, or changes nothing. The new complaint belongs to the
    caller, is pending, unassigned and unresolved, has a valid category and
    priority, a title of 5 to 200 characters, a description of 20 to 5000
    and a generated ticket number; the notification tells the caller that
    the complaint was submitted. *)
Theorem create_complaint_outcome (env : Env) (db : Db.t) (identity : Z)
    (body : option (gmap string json)) :
  let r := Student.create_complaint env db identity body in
  (status_code r.1 = 201
   ∧ ∃ c n,
       r.2 = Db.mk (Db.users db) (Db.complaints db ++ [c])%list (Db.responses db)
               (Db.notifications db ++ [n])%list
       ∧ Complaint.user_id c = identity
       ∧ Complaint.status c = "pending"
       ∧ Complaint.assigned_to c = None
       ∧ Complaint.resolved_at c = None
       ∧ Complaint.category c ∈ Complaint.VALID_CATEGORIES
       ∧ Complaint.priority c ∈ Complaint.VALID_PRIORITIES
       ∧ (5 ≤ Py.len (Complaint.title c) ≤ 200)%nat
       ∧ (20 ≤ Py.len (Complaint.description c) ≤ 5000)%nat
       ∧ Complaint.ticket_number c
         = Complaint.generate_ticket_number (year env) (rng env)
       ∧ Notification.user_id n = identity
       ∧ Notification.type n = "complaint_submitted"
       ∧ Notification.complaint_id n = Some (Complaint.id c)
       ∧ Notification.is_read n = false)
  ∨ (status_code r.1 ≠ 201 ∧ r.2 = db).
Proof.
  intros r. subst r. unfold Student.create_complaint, Handler.failed.
  destruct (Student.get_current_student db identity) as [user|e] eqn:Huser.
  2:{ right. split; [|done].
      revert Huser. unfold Student.get_current_student.
      repeat case_match; intros [= <-]; done. }
  apply DbProps.student_identity in Huser as (Hid & _).
  repeat case_match; simpl; try (right; split; done).
  all: left; split; [done|].
  all: match goal with
       | H : Db.insert_complaint _ _ _ = Some _ |- _ =>
           pose proof (StepProps.insert_constructed _ _ _ _ _ _ _ H)
             as (Hv & Ha & Hu & Ht & Hd & Hr & _ & Hdb);
           pose proof (insert_constructed_fields _ _ _ _ _ _ _ H)
             as (Hst & Hcat & Hpr & Htn)
       end.
  all: simpl in *; subst; injection Hu as Hu; injection Htn as Htn.
  all: eexists _, _; split; [reflexivity|].
  all: destruct Hv as (_ & Hvc & Hvp).
  all: repeat match goal with
         | H : Handler.too_short (Helpers.sanitize_string ?v ?n) ?m = false |- _ =>
             let s := fresh "s" in let E := fresh "E" in
             destruct (Helpers.sanitize_string v n) as [s|] eqn:E; [|done];
             apply long_enough in H;
             apply sanitize_length in E; [|done]
         end.
  all: injection Ht as <-; injection Hd as <-.
  all: repeat split; try done; try lia.
Qed.

(** A student's response either stores exactly one response or changes
    nothing. The stored response is public, written by the caller on a
    complaint of the caller that is neither closed nor rejected, and has 5
    to 5000 characters; the complaint keeps its status and nobody is
    notified. *)
Theorem add_response_to_complaint_outcome (env : Env) (db : Db.t) (identity : Z)
    (complaint_id : Z) (body : option (gmap string json)) :
  let r := Student.add_response_to_complaint env db identity complaint_id body in
  (status_code r.1 = 201
   ∧ ∃ response complaint,
       r.2 = Db.mk (Db.users db) (Db.complaints db)
               (Db.responses db ++ [response])%list (Db.notifications db)
       ∧ Response.is_internal response = false
       ∧ Response.user_id response = identity
       ∧ Response.complaint_id response = complaint_id
       ∧ (5 ≤ Py.len (Response.message response) ≤ 5000)%nat
       ∧ Db.get_complaint db complaint_id = Some complaint
       ∧ Complaint.user_id complaint = identity
       ∧ Complaint.status complaint ∉ ["closed"; "rejected"])
  ∨ (status_code r.1 ≠ 201 ∧ r.2 = db).
Proof.
  intros r. subst r. unfold Student.add_response_to_complaint.
  destruct (Student.get_current_student db identity) as [user|e] eqn:Huser.
  2:{ right. split; [|done].
      revert Huser. unfold Student.get_current_student.
      repeat case_match; intros [= <-]; done. }
  apply DbProps.student_identity in Huser as (Hid & _).
  destruct (Db.get_complaint db complaint_id) as [complaint|] eqn:Hget;
    [|right; by split].
  case_bool_decide as Hown; simpl; [|right; by split].
  destruct (Py.mem _ _) eqn:Hst; [right; by split|].
  apply bool_decide_eq_false_1 in Hst.
  destruct body as [data|]; [|right; by split].
  case_bool_decide; [right; by split|].
  destruct (Helpers.sanitize_string (data !! "message") 5000) as [msg|] eqn:Hmsg;
    [|right; by split].
  destruct (Handler.too_short (Some msg) 5) eqn:Hlen; [right; by split|].
  left. split; [done|]. unfold Db.add_response. simpl.
  eexists _, complaint. split; [reflexivity|]. simpl.
  apply long_enough in Hlen. apply sanitize_length in Hmsg; [|done].
  repeat split; try done; lia.
Qed.

(** What a student is shown of a complaint is a complaint of that student:
    the detail view and the tracking by ticket number carry a payload only
    for a complaint whose owner is the caller. *)
Theorem student_views_owned (db : Db.t) (identity : Z) (complaint_id : Z)
    (ticket_number : string) (d : Complaint.dict) :
  data (Student.get_complaint_details db identity complaint_id) = Some d
  ∨ data (Student.track_complaint_by_ticket db identity ticket_number) = Some d ->
  Complaint.d_user_id d = identity
  ∧ ∃ c, c ∈ Db.complaints db ∧ Complaint.user_id c = identity
         ∧ Complaint.d_id d = Complaint.id c
         ∧ Complaint.d_ticket_number d = Complaint.ticket_number c.
Proof.
  unfold Student.get_complaint_details, Student.track_complaint_by_ticket.
  destruct (Student.get_current_student db identity) as [user|e] eqn:Hu.
  2:{ apply DbProps.student_refused in Hu. intros [H|H]; congruence. }
  apply DbProps.student_identity in Hu as (Hid & _).
  intros [H|H].
  - destruct (Db.get_complaint db complaint_id) as [c|] eqn:Hc; [|done].
    revert H. case_bool_decide as Hown; simpl; [|done]. intros [= <-]. simpl.
    split; [congruence|]. exists c.
    apply DbProps.get_complaint_id in Hc as [_ Hin]. split; [done|].
    split; [congruence|done].
  - destruct (List.find _ _) as [c|] eqn:Hc; [|done].
    revert H. case_bool_decide as Hown; simpl; [|done]. intros [= <-]. simpl.
    split; [congruence|]. exists c.
    apply DbProps.find_elem_of in Hc as [Hin _]. split; [done|].
    split; [congruence|done].
Qed.

Lemma student_views_owned_witness :
  ∃ d, data (Student.get_complaint_details Sample.db 1 1) = Some d
       ∧ Complaint.d_user_id d = 1.
Proof.
  eexists. split; [vm_compute; reflexivity|].
  eapply (student_views_owned Sample.db 1 1 "").
  left. vm_compute. reflexivity.
Defined.

End OutcomeProps.

Module AccessProps.

(** What the role checks establish. *)
Lemma student_loaded {D} db identity user :
  @Student.get_current_student D db identity = inl user ->
  Db.get_user db identity = Some user
  ∧ User.id user = identity
  ∧ User.is_active user = true
  ∧ User.role user = "student".
Proof.
  unfold Student.get_current_student. intros H.
  destruct (Db.get_user db identity) as [u|] eqn:Hu; [|done].
  destruct (User.is_active u) eqn:Ha; simpl in H; [|done].
  destruct (String.eqb (User.role u) "student") eqn:Hr; simpl in H; [|done].
  injection H as <-. split; [done|]. split; [by eapply DbProps.get_user_id|].
  split; [done|by apply String.eqb_eq].
Qed.

(** The role checks read the users only. *)
Lemma student_same_users {D E} db db' identity user :
  Db.users db' = Db.users db ->
  @Student.get_current_student D db identity = inl user ->
  @Student.get_current_student E db' identity = inl user.
Proof.
  intros Hu H. apply student_loaded in H as (Hg & _ & Ha & Hr).
  apply DbProps.student_accepted; [|done..].
  unfold Db.get_user in *. by rewrite Hu.
Qed.

Lemma admin_same_users {D E} db db' identity admin :
  Db.users db' = Db.users db ->
  @Admin.get_current_admin D db identity = inl admin ->
  @Admin.get_current_admin E db' identity = inl admin.
Proof.
  intros Hu H. apply StepProps.admin_identity in H as (Hg & _ & Ha & Hr).
  apply DbProps.admin_accepted; [|done..].
  unfold Db.get_user in *. by rewrite Hu.
Qed.

(** A refusal of the role check is a 403 or a 404. *)
Lemma student_refusal {D} db identity (e : Reply D) :
  Student.get_current_student db identity = inr e ->
  data e = None ∧ (status_code e = 403 ∨ status_code e = 404).
Proof.
  unfold Student.get_current_student. intros H.
  repeat case_match; try done; injection H as <-; simpl; auto.
Qed.

Lemma admin_refusal {D} db identity (e : Reply D) :
  Admin.get_current_admin db identity = inr e ->
  data e = None ∧ (status_code e = 403 ∨ status_code e = 404).
Proof.
  unfold Admin.get_current_admin. intros H.
  repeat case_match; try done; injection H as <-; simpl; auto.
Qed.

End AccessProps.

Module NotificationProps.

Import StudentMore.

Lemma mark_as_read_read n : Notification.is_read (mark_as_read n) = true.
Proof. reflexivity. Qed.

(** Marking the unread notifications of [user_id] leaves none unread. *)
Lemma unread_after_mark_all (user_id : Z) (l : list Notification.t) :
  filter (fun n => Notification.user_id n = user_id ∧ Notification.is_read n = false)
    ((fun n => if bool_decide (Notification.user_id n = user_id
                               ∧ Notification.is_read n = false)
               then mark_as_read n else n) <$> l) = [].
Proof.
  induction l as [|n l IH]; [done|].
  rewrite fmap_cons. rewrite filter_cons_False; [exact IH|].
  case_bool_decide as H; simpl; [by intros [_ ?]|exact H].
Qed.

(** The rows of other users are not touched. *)
Lemma others_after_mark_all (user_id : Z) (l : list Notification.t) :
  filter (fun n => Notification.user_id n ≠ user_id)
    ((fun n => if bool_decide (Notification.user_id n = user_id
                               ∧ Notification.is_read n = false)
               then mark_as_read n else n) <$> l)
  = filter (fun n => Notification.user_id n ≠ user_id) l.
Proof.
  induction l as [|n l IH]; [done|].
  rewrite fmap_cons. case_bool_decide as H.
  - destruct H as [Hu _].
    rewrite !filter_cons_False; [exact IH| |]; simpl; by intros ?.
  - destruct (decide (Notification.user_id n ≠ user_id)) as [Hn|Hn].
    + rewrite !filter_cons_True by done. by rewrite IH.
    + rewrite !filter_cons_False by done. exact IH.
Qed.

(** Marking all notifications as read either answers 200 or changes
    nothing. After a 200 the caller has no unread notification left, the
    statistics report none, the notifications of every other user are as
    they were, no notification is added or removed and the other tables
    are untouched. *)
Theorem mark_all_notifications_as_read_outcome (db : Db.t) (identity : Z) :
  let r := mark_all_notifications_as_read db identity in
  (status_code r.1 = 200
   ∧ unread r.2 identity = []
   ∧ (∃ stats, data (get_student_stats r.2 identity) = Some stats
               ∧ unread_notifications stats = 0%nat)
   ∧ filter (fun n => Notification.user_id n ≠ identity) (Db.notifications r.2)
     = filter (fun n => Notification.user_id n ≠ identity) (Db.notifications db)
   ∧ Notification.id <$> Db.notifications r.2 = Notification.id <$> Db.notifications db
   ∧ Db.users r.2 = Db.users db
   ∧ Db.complaints r.2 = Db.complaints db
   ∧ Db.responses r.2 = Db.responses db)
  ∨ (status_code r.1 ≠ 200 ∧ r.2 = db).
Proof.
  intros r. subst r. unfold mark_all_notifications_as_read.
  destruct (Student.get_current_student db identity) as [user|e] eqn:Huser.
  2:{ right. split; [|done].
      apply AccessProps.student_refusal in Huser as [_ [H | H]];
        cbn [fst]; rewrite H; done. }
  left. pose proof Huser as Hst.
  apply DbProps.student_identity in Huser as (Hid & _). subst identity.
  cbn [fst snd status_code create_success_response].
  split; [done|].
  assert (Hun : ∀ db', Db.notifications db'
                       = (fun n => if bool_decide (Notification.user_id n = User.id user
                                                   ∧ Notification.is_read n = false)
                                   then mark_as_read n else n) <$> Db.notifications db ->
                       unread db' (User.id user) = []).
  { intros db' Hdb'. unfold unread. rewrite Hdb'. apply unread_after_mark_all. }
  split; [by apply Hun|].
  split.
  { unfold get_student_stats.
    match goal with
    | |- context [@Student.get_current_student ?E ?d ?i] =>
        rewrite (AccessProps.student_same_users (E:=E) db d i user eq_refl Hst)
    end.
 eexists. split; [reflexivity|].
    cbn [unread_notifications]. by rewrite Hun. }
  split; [apply others_after_mark_all|].
  split; [|done].
  cbn [Db.notifications]. rewrite <- list_fmap_compose. apply list_fmap_ext.
  intros i n _. simpl. by case_bool_decide.
Qed.

End NotificationProps.

Module PageProps.

Lemma StronglySorted_take {A} (R : relation A) (n : nat) (l : list A) :
  StronglySorted R l -> StronglySorted R (take n l).
Proof. intros H. rewrite <- (take_drop n l) in H. by apply StronglySorted_app_1_l in H. Qed.

Lemma StronglySorted_drop {A} (R : relation A) (n : nat) (l : list A) :
  StronglySorted R l -> StronglySorted R (drop n l).
Proof. intros H. rewrite <- (take_drop n l) in H. by apply StronglySorted_app_1_r in H. Qed.

(** A page of a sorted query is sorted. *)
Lemma paginate_query_sorted {A} (R : relation A) (query : list A)
    (page per_page max_per_page : Z) :
  StronglySorted R query ->
  StronglySorted R
    (Helpers.items (Helpers.paginate_query query page per_page max_per_page)).
Proof.
  intros H. unfold Helpers.paginate_query, Helpers.paginate. simpl.
  by apply StronglySorted_take, StronglySorted_drop.
Qed.

(** A page never has more than 100 rows. *)
Lemma paginate_query_length {A} (query : list A) (page per_page max_per_page : Z) :
  (length (Helpers.items (Helpers.paginate_query query page per_page max_per_page))
   ≤ 100)%nat.
Proof.
  unfold Helpers.paginate_query, Helpers.paginate. simpl.
  rewrite length_take. repeat case_match; lia.
Qed.

End PageProps.

Module InboxProps.

Import StudentMore.

#[local] Instance newest_first_trans : Transitive newest_first.
Proof. intros a b c. unfold newest_first. lia. Qed.

#[local] Instance newest_first_total : Total newest_first.
Proof. intros a b. unfold newest_first. lia. Qed.

(** The notification listing shows the caller's own notifications only:
    every listed notification is stored and addressed to the caller, and is
    unread when only unread ones were asked for; the page is ordered from
    the newest to the oldest and has at most 100 entries. *)
Theorem get_notifications_scoped (db : Db.t) (identity : Z)
    (unread_only : option string) (page per_page : option Z) (p : NotificationPage) :
  data (get_notifications db identity unread_only page per_page) = Some p ->
  Forall (fun n => n ∈ Db.notifications db
                   ∧ Notification.user_id n = identity
                   ∧ (Py.lower (default "false" unread_only) = "true" ->
                      Notification.is_read n = false))
    (listed_notifications p)
  ∧ StronglySorted newest_first (listed_notifications p)
  ∧ (length (listed_notifications p) ≤ 100)%nat.
Proof.
  unfold get_notifications.
  destruct (Student.get_current_student db identity) as [user|e] eqn:Hu.
  2:{ apply AccessProps.student_refusal in Hu as [Hd _]. congruence. }
  apply AccessProps.student_loaded in Hu as (_ & Hid & _).
  intros [= <-]. cbn [listed_notifications].
  split; [|split].
  - apply Forall_forall. intros n Hn.
    apply DbProps.paginate_query_subseteq in Hn.
    unfold notifications_query in Hn. rewrite merge_sort_Permutation in Hn.
    destruct (String.eqb _ "true") eqn:Hflag.
    + apply list_elem_of_filter in Hn as [Hr Hn].
      apply list_elem_of_filter in Hn as [Hown Hn].
      split; [done|]. split; [congruence|done].
    + apply list_elem_of_filter in Hn as [Hown Hn].
      split; [done|]. split; [congruence|].
      intros Ht. apply String.eqb_eq in Ht. congruence.
  - apply PageProps.paginate_query_sorted. unfold notifications_query.
    apply (StronglySorted_merge_sort newest_first).
  - apply PageProps.paginate_query_length.
Qed.

(** Alice asks for her unread notifications. *)
Lemma get_notifications_scoped_witness :
  ∃ p, data (get_notifications Campus.db 1 (Some "True") None None) = Some p
       ∧ listed_notifications p = [Campus.replied]
       ∧ Forall (fun n => n ∈ Db.notifications Campus.db
                          ∧ Notification.user_id n = 1
                          ∧ (Py.lower (default "false" (Some "True")) = "true" ->
                             Notification.is_read n = false))
           (listed_notifications p).
Proof.
  eexists. split; [vm_compute; reflexivity|]. split; [reflexivity|].
  apply (get_notifications_scoped Campus.db 1 (Some "True") None None).
  vm_compute. reflexivity.
Defined.

End InboxProps.

Module KeyProps.

(** Writing columns of the rows of one key: the row read back under that
    key is the written one, the rows under other keys are as before. *)
Lemma find_update {A} (key : A -> Z) (g : A -> A) (k : Z) (l : list A) (id : Z) :
  (forall x, key (g x) = key x) ->
  List.find (fun x => bool_decide (key x = id))
    ((fun x => if bool_decide (key x = k) then g x else x) <$> l)
  = (if bool_decide (id = k) then g else (fun x => x))
      <$> List.find (fun x => bool_decide (key x = id)) l.
Proof.
  intros Hg. rewrite DbProps.find_fmap.
  - destruct (List.find _ l) as [x|] eqn:Hx; [|done]. simpl. f_equal.
    apply DbProps.find_elem_of in Hx as [_ Hx]. apply bool_decide_eq_true_1 in Hx.
    rewrite Hx. repeat case_bool_decide; congruence.
  - intros x. simpl. destruct (bool_decide (key x = k)); [|done]. by rewrite Hg.
Qed.

End KeyProps.

Module ReadProps.

Import StudentMore.

(** Marking one notification as read either answers 200 or changes
    nothing. It answers 200 only for a notification addressed to the
    caller; that notification is then read, every other notification is as
    it was, and no other table is touched. *)
Theorem mark_notification_as_read_outcome (db : Db.t) (identity : Z)
    (notification_id : Z) :
  let r := mark_notification_as_read db identity notification_id in
  (status_code r.1 = 200
   ∧ (∃ n, get_notification db notification_id = Some n
           ∧ Notification.user_id n = identity
           ∧ get_notification r.2 notification_id = Some (mark_as_read n))
   ∧ (forall id, id ≠ notification_id ->
        get_notification r.2 id = get_notification db id)
   ∧ length (Db.notifications r.2) = length (Db.notifications db)
   ∧ Db.users r.2 = Db.users db
   ∧ Db.complaints r.2 = Db.complaints db
   ∧ Db.responses r.2 = Db.responses db)
  ∨ (status_code r.1 ≠ 200 ∧ r.2 = db).
Proof.
  intros r. subst r. unfold mark_notification_as_read.
  destruct (Student.get_current_student db identity) as [user|e] eqn:Huser.
  2:{ right. split; [|done].
      apply AccessProps.student_refusal in Huser as [_ [H | H]];
        cbn [fst]; rewrite H; done. }
  apply AccessProps.student_loaded in Huser as (_ & Hid & _).
  destruct (get_notification db notification_id) as [n|] eqn:Hn; [|right; by split].
  case_bool_decide as Hown; simpl; [|right; by split].
  left. split; [done|].
  assert (Hkey : Notification.id n = notification_id).
  { apply DbProps.find_elem_of in Hn as [_ Hn]. by apply bool_decide_eq_true_1 in Hn. }
  assert (Hfind : forall id,
             get_notification
               (Db.mk (Db.users db) (Db.complaints db) (Db.responses db)
                  ((fun x => if bool_decide (Notification.id x = Notification.id n)
                             then mark_as_read x else x) <$> Db.notifications db)) id
             = (if bool_decide (id = Notification.id n) then mark_as_read
                else (fun x => x)) <$> get_notification db id).
  { intros id. unfold get_notification. cbn [Db.notifications].
    by apply (KeyProps.find_update Notification.id mark_as_read). }
  split; [|split; [|split]].
  - exists n. split; [done|]. split; [congruence|].
    rewrite Hfind, Hn. simpl. by rewrite bool_decide_eq_true_2.
  - intros id Hne. rewrite Hfind. rewrite bool_decide_eq_false_2 by congruence.
    by destruct (get_notification db id).
  - by rewrite length_fmap.
  - done.
Qed.

End ReadProps.

Module AccountProps.

Import AdminMore.

(** The account found under a key after the flag of one key was written. *)
Lemma get_user_set_active now (db : Db.t) (k : Z) (b : bool) (id : Z) :
  Db.get_user
    (Db.mk ((fun u => if bool_decide (User.id u = k) then set_active now u b else u)
              <$> Db.users db)
       (Db.complaints db) (Db.responses db) (Db.notifications db)) id
  = (if bool_decide (id = k) then (fun u => set_active now u b) else (fun x => x))
      <$> Db.get_user db id.
Proof.
  unfold Db.get_user. cbn [Db.users].
  by apply (KeyProps.find_update User.id (fun u => set_active now u b)).
Qed.


End AccountProps.


Module LockProps.

Import Account.

Lemma locked_student {D} db identity :
  locked db identity ->
  ∃ e : Reply D, Student.get_current_student db identity = inr e
                 ∧ data e = None ∧ status_code e ≠ 200.
Proof.
  unfold locked, Student.get_current_student.
  destruct (Db.get_user db identity) as [u|]; [intros ->|intros _]; simpl;
    by eexists.
Qed.

Lemma locked_admin {D} db identity :
  locked db identity ->
  ∃ e : Reply D, Admin.get_current_admin db identity = inr e
                 ∧ data e = None ∧ status_code e ≠ 200.
Proof.
  unfold locked, Admin.get_current_admin.
  destruct (Db.get_user db identity) as [u|]; [intros ->|intros _]; simpl;
    by eexists.
Qed.

(** The student and admin blueprints refuse a deactivated or unknown
    account: whichever of their write requests it sends, the database
    stays as it is, and the student's listing, detail view, tracking,
    statistics and notifications carry no data. *)
Theorem locked_account_is_refused (env : Env) (db : Db.t) (req : Server.request)
    (args : Args) (complaint_id : Z) (ticket_number : string)
    (unread_only : option string) (page per_page : option Z) :
  locked db (sender req) ->
  Server.handle env db req = db
  ∧ data (Student.get_my_complaints db (sender req) args) = None
  ∧ data (Student.get_complaint_details db (sender req) complaint_id) = None
  ∧ data (Student.track_complaint_by_ticket db (sender req) ticket_number) = None
  ∧ data (StudentMore.get_student_stats db (sender req)) = None
  ∧ data (StudentMore.get_notifications db (sender req) unread_only page per_page)
    = None.
Proof.
  intros Hl. split.
  - destruct req as [[]| | | | | |]; simpl in *;
      unfold Student.create_complaint, Student.add_response_to_complaint,
        Admin.update_complaint_status, Admin.add_admin_response,
        AdminMore.update_complaint_priority, AdminMore.assign_complaint,
        AdminMore.update_admin_notes, AdminMore.toggle_user_active,
        StudentMore.mark_notification_as_read,
        StudentMore.mark_all_notifications_as_read;
      first
        [ destruct (locked_student (D:=Complaint.dict) db _ Hl) as (e & -> & _); done
        | destruct (locked_student (D:=Response.dict) db _ Hl) as (e & -> & _); done
        | destruct (locked_student (D:=unit) db _ Hl) as (e & -> & _); done
        | destruct (locked_admin (D:=Complaint.dict) db _ Hl) as (e & -> & _); done
        | destruct (locked_admin (D:=Response.dict) db _ Hl) as (e & -> & _); done
        | destruct (locked_admin (D:=User.t) db _ Hl) as (e & -> & _); done ].
  - unfold Student.get_my_complaints, Student.get_complaint_details,
      Student.track_complaint_by_ticket, StudentMore.get_student_stats,
      StudentMore.get_notifications.
    destruct (locked_student (D:=Listing) db _ Hl) as (e1 & -> & -> & _).
    destruct (locked_student (D:=Complaint.dict) db _ Hl) as (e2 & -> & -> & _).
    destruct (locked_student (D:=StudentMore.StatsData) db _ Hl) as (e3 & -> & -> & _).
    destruct (locked_student (D:=StudentMore.NotificationPage) db _ Hl)
      as (e4 & -> & -> & _).
    done.
Qed.

(** The dean deactivates Alice; her next complaint is not stored. *)
Lemma locked_account_is_refused_witness :
  let db := (AdminMore.toggle_user_active Sample.env Campus.db 4 1).2 in
  let req := Server.Core
               (Ticket.CreateComplaint 1
                  (Some (<["title" := JStr "Portal locked"]>
                         (<["category" := JStr "other"]>
                          {["description" := JStr "I cannot sign in to the portal any more."]})))) in
  locked db (sender req) ∧ Server.handle Sample.env db req = db.
Proof.
  intros db req. split; [vm_compute; reflexivity|].
  apply (locked_account_is_refused Sample.env db req Sample.no_args 1 "" None None None).
  vm_compute. reflexivity.
Defined.

End LockProps.

Module ToggleProps.

Import AdminMore.

(** Under a primary key, the rows of one key are one row. *)
Lemma same_key_same_user (l : list User.t) (u v : User.t) :
  NoDup (User.id <$> l) -> u ∈ l -> v ∈ l -> User.id u = User.id v -> u = v.
Proof.
  intros Hnd Hu Hv Hid.
  apply list_elem_of_lookup_1 in Hu as [i Hi]. apply list_elem_of_lookup_1 in Hv as [j Hj].
  assert (i = j) as ->.
  { eapply (NoDup_lookup _ _ _ (User.id u) Hnd).
    - by rewrite list_lookup_fmap, Hi.
    - by rewrite list_lookup_fmap, Hj, Hid. }
  congruence.
Qed.

(** Toggling an account twice restores every column of every account but
    one: the modification time of the target, which is the time of the
    second request. *)
Theorem toggle_user_active_twice (env1 env2 : Env) (db : Db.t) (identity : Z)
    (user_id : Z) :
  NoDup (User.id <$> Db.users db) ->
  status_code (toggle_user_active env1 db identity user_id).1 = 200 ->
  let db1 := (toggle_user_active env1 db identity user_id).2 in
  let r := toggle_user_active env2 db1 identity user_id in
  status_code r.1 = 200
  ∧ r.2 = Db.mk ((fun u => if bool_decide (User.id u = user_id)
                           then set_active (now env2) u (User.is_active u) else u)
                   <$> Db.users db)
            (Db.complaints db) (Db.responses db) (Db.notifications db)
  ∧ User.is_active <$> Db.users r.2 = User.is_active <$> Db.users db.
Proof.
  intros Hnd. unfold toggle_user_active at 1 2.
  destruct (Admin.get_current_admin db identity) as [admin|e] eqn:Hadmin.
  2:{ apply AccessProps.admin_refusal in Hadmin as [_ [H | H]];
        cbn [fst]; rewrite H; done. }
  apply StepProps.admin_identity in Hadmin as (Hga & Hid & Hact & Hadm).
  destruct (is_super_admin admin) eqn:Hsuper; simpl; [|done].
  destruct (Db.get_user db user_id) as [user|] eqn:Hu; [|done].
  case_bool_decide as Hself; simpl; [done|]. intros _.
  assert (Hkey : User.id user = user_id) by (by eapply DbProps.get_user_id).
  pose proof (AccountProps.get_user_set_active (now env1) db (User.id user)
                (negb (User.is_active user))) as Hfind.
  set (db1 := Db.mk _ _ _ _) in *.
  unfold toggle_user_active.
  assert (Hcheck1 : @Admin.get_current_admin User.t db1 identity = inl admin).
  { apply DbProps.admin_accepted; [|done..].
    rewrite Hfind, Hga. simpl. rewrite bool_decide_eq_false_2; [done|congruence]. }
  rewrite Hcheck1, Hsuper. cbn [negb].
  rewrite Hfind, Hu. cbn [fmap option_fmap option_map].
  rewrite (bool_decide_eq_true_2 (user_id = User.id user)) by congruence.
  cbn [set_active User.id]. rewrite (bool_decide_eq_false_2 _ Hself).
  cbn [fst snd status_code create_success_response].
  split; [done|].
  assert (Hrows : (fun u => if bool_decide (User.id u = User.id user)
                            then set_active (now env2) u
                                   (User.is_active
                                      (toggled (now env2)
                                         (set_active (now env1) user
                                            (negb (User.is_active user)))))
                            else u) <$> Db.users db1
                  = (fun u => if bool_decide (User.id u = user_id)
                              then set_active (now env2) u (User.is_active u) else u)
                      <$> Db.users db).
  { subst db1. cbn [Db.users]. rewrite <- list_fmap_compose.
    apply list_fmap_ext. intros i u Hi. simpl.
    apply list_elem_of_lookup_2 in Hi. rewrite <- Hkey.
    destruct (bool_decide (User.id u = User.id user)) eqn:Hk.
    - apply bool_decide_eq_true_1 in Hk. simpl. rewrite (bool_decide_eq_true_2 _ Hk).
      assert (u = user) as ->.
      { apply (same_key_same_user (Db.users db)); [done..| |done].
        unfold Db.get_user in Hu. by apply DbProps.find_elem_of in Hu as [Hu _]. }
      by rewrite negb_involutive.
    - by rewrite Hk. }
  split.
  - cbn [toggled set_active User.is_active User.id] in *. by rewrite Hrows.
  - cbn [Db.users toggled set_active User.is_active User.id] in *.
    rewrite Hrows. rewrite <- list_fmap_compose. apply list_fmap_ext.
    intros i u _. simpl. by destruct (bool_decide _).
Qed.

(** The dean deactivates Alice and activates her again an hour later. *)
Lemma toggle_user_active_twice_witness :
  let later := mkEnv (now Sample.env + 3600 * 1000000) 2024 (rng Sample.env) in
  User.is_active
    <$> Db.users
          (toggle_user_active later
             (toggle_user_active Sample.env Campus.db 4 1).2 4 1).2
  = User.is_active <$> Db.users Campus.db.
Proof.
  intros later.
  apply (toggle_user_active_twice Sample.env later Campus.db 4 1).
  - by_decide.
  - reflexivity.
Defined.

End ToggleProps.

Module SaveProps.

Import Server.

(** Writing a complaint back leaves the complaints of other keys alone. *)
Lemma get_complaint_save_other now old new db id :
  Complaint.id new = Complaint.id old ->
  id ≠ Complaint.id old ->
  Db.get_complaint (Db.save_complaint now old new db) id = Db.get_complaint db id.
Proof.
  intros Hid Hne. unfold Db.save_complaint. case_bool_decide; [done|].
  unfold Db.get_complaint. cbn [Db.complaints].
  induction (Db.complaints db) as [|c l IH]; [done|].
  rewrite fmap_cons. cbn [List.find].
  destruct (bool_decide (Complaint.id c = Complaint.id old)) eqn:Hc.
  - apply bool_decide_eq_true_1 in Hc. cbn [Db.touch Complaint.id].
    rewrite !bool_decide_eq_false_2 by congruence. exact IH.
  - destruct (bool_decide (Complaint.id c = id)); [done|exact IH].
Qed.

(** The columns of the row a flush stores. *)
Lemma flushed_columns now old new :
  let c' := Db.flushed now old new in
  Complaint.status c' = Complaint.status new
  ∧ Complaint.priority c' = Complaint.priority new
  ∧ Complaint.assigned_to c' = Complaint.assigned_to new
  ∧ Complaint.admin_notes c' = Complaint.admin_notes new
  ∧ Complaint.resolved_at c' = Complaint.resolved_at new
  ∧ Complaint.attachments c' = Complaint.attachments new
  ∧ same_origin new c'
  ∧ (new = old -> c' = old)
  ∧ (new ≠ old -> Complaint.updated_at c' = now).
Proof.
  unfold Db.flushed. simpl. case_bool_decide as H.
  - subst new. repeat split; done.
  - repeat split; done.
Qed.

(** The database after a loaded complaint was modified and committed. *)
Lemma saved now old new db complaint_id :
  Db.get_complaint db complaint_id = Some old ->
  Complaint.id new = Complaint.id old ->
  let db' := Db.save_complaint now old new db in
  Db.get_complaint db' complaint_id = Some (Db.flushed now old new)
  ∧ (forall id, id ≠ complaint_id -> Db.get_complaint db' id = Db.get_complaint db id)
  ∧ Db.users db' = Db.users db
  ∧ Db.responses db' = Db.responses db
  ∧ Db.notifications db' = Db.notifications db.
Proof.
  intros Hget Hid db'. subst db'.
  split; [by apply DbProps.get_complaint_save|].
  split; [|apply StepProps.save_complaint_tables].
  intros id Hne. apply get_complaint_save_other; [done|].
  apply DbProps.get_complaint_id in Hget as [-> _]. done.
Qed.

End SaveProps.

Module DeskProps.

Import Server AdminMore.

(** Assigning a complaint either answers 200 or changes nothing. After a
    200 the complaint is assigned to the member of staff that was named,
    who receives one notification about it, or is unassigned when no one
    was named, in which case nobody is notified. Nothing else of the
    complaint changes but its modification time, and no other complaint,
    no user and no response is touched. *)
Theorem assign_complaint_outcome (env : Env) (db : Db.t) (identity : Z)
    (complaint_id : Z) (body : option (option Z)) :
  let r := assign_complaint env db identity complaint_id body in
  (status_code r.1 = 200
   ∧ ∃ target complaint c',
       body = Some target
       ∧ Db.get_complaint db complaint_id = Some complaint
       ∧ Db.get_complaint r.2 complaint_id = Some c'
       ∧ Complaint.assigned_to c' = target
       ∧ same_origin complaint c'
       ∧ Complaint.status c' = Complaint.status complaint
       ∧ Complaint.priority c' = Complaint.priority complaint
       ∧ Complaint.admin_notes c' = Complaint.admin_notes complaint
       ∧ Complaint.resolved_at c' = Complaint.resolved_at complaint
       ∧ (forall id, id ≠ complaint_id ->
            Db.get_complaint r.2 id = Db.get_complaint db id)
       ∧ match target with
         | Some a =>
             staff db a
             ∧ ∃ n, Db.notifications r.2 = (Db.notifications db ++ [n])%list
                    ∧ Notification.user_id n = a
                    ∧ Notification.type n = "complaint_assigned"
                    ∧ Notification.complaint_id n = Some complaint_id
                    ∧ Notification.is_read n = false
         | None => Db.notifications r.2 = Db.notifications db
         end
       ∧ Db.users r.2 = Db.users db
       ∧ Db.responses r.2 = Db.responses db)
  ∨ (status_code r.1 ≠ 200 ∧ r.2 = db).
Proof.
  intros r. subst r. unfold assign_complaint.
  destruct (Admin.get_current_admin db identity) as [admin|e] eqn:Hadmin.
  2:{ right. split; [|done].
      apply AccessProps.admin_refusal in Hadmin as [_ [H | H]];
        cbn [fst]; rewrite H; done. }
  destruct (Db.get_complaint db complaint_id) as [complaint|] eqn:Hget;
    [|right; by split].
  pose proof (DbProps.get_complaint_id _ _ _ Hget) as [Hcid _].
  destruct body as [[a|]|]; [| |right; by split].
  - destruct (Db.get_user db a) as [assigned_admin|] eqn:Ha; [|right; by split].
    destruct (User.is_admin assigned_admin) eqn:Hadm; simpl; [|right; by split].
    left. split; [done|].
    match goal with
    | |- context [Db.save_complaint ?n ?o ?u ?d] =>
        destruct (SaveProps.saved n o u d complaint_id Hget eq_refl)
          as (Hsaved & Hother & Hus & Hrs & Hns);
        destruct (SaveProps.flushed_columns n o u)
          as (Hst & Hpr & Has & Hno & Hre & _ & Hso & _)
    end.
    eexists (Some a), complaint, _.
    split; [done|]. split; [done|]. split; [exact Hsaved|].
    split; [exact Has|]. split; [exact Hso|].
    split; [exact Hst|]. split; [exact Hpr|]. split; [exact Hno|].
    split; [exact Hre|]. split; [exact Hother|].
    split; [|by split].
    split; [by exists assigned_admin|].
    eexists. split; [exact Hns|]. simpl. by rewrite Hcid.
  - left. split; [done|].
    match goal with
    | |- context [Db.save_complaint ?n ?o ?u ?d] =>
        destruct (SaveProps.saved n o u d complaint_id Hget eq_refl)
          as (Hsaved & Hother & Hus & Hrs & Hns);
        destruct (SaveProps.flushed_columns n o u)
          as (Hst & Hpr & Has & Hno & Hre & _ & Hso & _)
    end.
    eexists None, complaint, _.
    split; [done|]. split; [done|]. split; [exact Hsaved|].
    split; [exact Has|]. split; [exact Hso|].
    split; [exact Hst|]. split; [exact Hpr|]. split; [exact Hno|].
    split; [exact Hre|]. split; [exact Hother|]. by split.
Qed.

Ltac saved_complaint complaint_id Hget :=
  match goal with
  | |- context [Db.save_complaint ?n ?o ?u ?d] =>
      destruct (SaveProps.saved n o u d complaint_id Hget eq_refl)
        as (Hsaved & Hother & Hus & Hrs & Hns);
      destruct (SaveProps.flushed_columns n o u)
        as (Hst & Hpr & Has & Hno & Hre & _ & Hso & _)
  end.

(** Updating the priority either answers 200 or changes nothing. After a
    200 the complaint has the priority that was sent, in lower case and
    stripped, which is a valid one; nothing else of the complaint changes
    but its modification time, nobody is notified and no other row is
    touched. *)
Theorem update_complaint_priority_outcome (env : Env) (db : Db.t) (identity : Z)
    (complaint_id : Z) (body : option (gmap string json)) :
  let r := update_complaint_priority env db identity complaint_id body in
  (status_code r.1 = 200
   ∧ ∃ data raw complaint c',
       body = Some data
       ∧ data !! "priority" = Some (JStr raw)
       ∧ Db.get_complaint db complaint_id = Some complaint
       ∧ Db.get_complaint r.2 complaint_id = Some c'
       ∧ Complaint.priority c' = Py.strip (Py.lower raw)
       ∧ Complaint.priority c' ∈ Complaint.VALID_PRIORITIES
       ∧ same_origin complaint c'
       ∧ Complaint.status c' = Complaint.status complaint
       ∧ Complaint.assigned_to c' = Complaint.assigned_to complaint
       ∧ Complaint.admin_notes c' = Complaint.admin_notes complaint
       ∧ Complaint.resolved_at c' = Complaint.resolved_at complaint
       ∧ (forall id, id ≠ complaint_id ->
            Db.get_complaint r.2 id = Db.get_complaint db id)
       ∧ Db.notifications r.2 = Db.notifications db
       ∧ Db.users r.2 = Db.users db
       ∧ Db.responses r.2 = Db.responses db)
  ∨ (status_code r.1 ≠ 200 ∧ r.2 = db).
Proof.
  intros r. subst r. unfold update_complaint_priority, Handler.failed.
  destruct (Admin.get_current_admin db identity) as [admin|e] eqn:Hadmin.
  2:{ right. split; [|done].
      apply AccessProps.admin_refusal in Hadmin as [_ [H | H]];
        cbn [fst]; rewrite H; done. }
  destruct (Db.get_complaint db complaint_id) as [complaint|] eqn:Hget;
    [|right; by split].
  destruct body as [data|]; [|right; by split]. cbn [mbind option_bind].
  destruct (data !! "priority") as [[| | |raw]|] eqn:Hraw; try (right; by split).
  cbn [Handler.as_str].
  destruct (Py.mem _ _) eqn:Hv; simpl; [|right; by split].
  apply bool_decide_eq_true_1 in Hv.
  left. split; [done|].
  saved_complaint complaint_id Hget.
  eexists data, raw, complaint, _.
  split; [done|]. split; [done|]. split; [done|]. split; [exact Hsaved|].
  assert (Hnorm : default "" (Helpers.sanitize_string (Some (JStr (Py.lower raw))) 20)
                  = Py.strip (Py.lower raw)).
  { revert Hv. simpl. case_bool_decide as Hlen; [|done]. intros Hv. exfalso.
    assert (Hl : (Py.len (Py.take 20 (Py.strip (Py.lower raw))) ≤ 6)%nat).
    { revert Hv. generalize (Py.take 20 (Py.strip (Py.lower raw))). intros s Hs.
      unfold Complaint.VALID_PRIORITIES in Hs.
      repeat (apply elem_of_cons in Hs as [->|Hs]; [simpl; lia|]).
      by apply elem_of_nil in Hs. }
    rewrite OutcomeProps.take_length in Hl. lia. }
  split; [rewrite Hpr; exact Hnorm|].
  split; [rewrite Hpr; exact Hv|].
  split; [exact Hso|]. split; [exact Hst|]. split; [exact Has|].
  split; [exact Hno|]. split; [exact Hre|]. split; [exact Hother|]. by split.
Qed.

(** Updating the staff notes either answers 200 or changes nothing. After
    a 200 the notes of the complaint are the sanitized text that was sent,
    at most 5000 characters, and are cleared when the body has no notes;
    nothing else of the complaint changes but its modification time,
    nobody is notified and no other row is touched. *)
Theorem update_admin_notes_outcome (env : Env) (db : Db.t) (identity : Z)
    (complaint_id : Z) (body : option (gmap string json)) :
  let r := update_admin_notes env db identity complaint_id body in
  (status_code r.1 = 200
   ∧ ∃ data complaint c',
       body = Some data
       ∧ data ≠ ∅
       ∧ Db.get_complaint db complaint_id = Some complaint
       ∧ Db.get_complaint r.2 complaint_id = Some c'
       ∧ Complaint.admin_notes c' = Helpers.sanitize_string (data !! "notes") 5000
       ∧ (data !! "notes" = None -> Complaint.admin_notes c' = None)
       ∧ (forall notes, Complaint.admin_notes c' = Some notes ->
            (Py.len notes ≤ 5000)%nat)
       ∧ same_origin complaint c'
       ∧ Complaint.status c' = Complaint.status complaint
       ∧ Complaint.priority c' = Complaint.priority complaint
       ∧ Complaint.assigned_to c' = Complaint.assigned_to complaint
       ∧ Complaint.resolved_at c' = Complaint.resolved_at complaint
       ∧ (forall id, id ≠ complaint_id ->
            Db.get_complaint r.2 id = Db.get_complaint db id)
       ∧ Db.notifications r.2 = Db.notifications db
       ∧ Db.users r.2 = Db.users db
       ∧ Db.responses r.2 = Db.responses db)
  ∨ (status_code r.1 ≠ 200 ∧ r.2 = db).
Proof.
  intros r. subst r. unfold update_admin_notes.
  destruct (Admin.get_current_admin db identity) as [admin|e] eqn:Hadmin.
  2:{ right. split; [|done].
      apply AccessProps.admin_refusal in Hadmin as [_ [H | H]];
        cbn [fst]; rewrite H; done. }
  destruct (Db.get_complaint db complaint_id) as [complaint|] eqn:Hget;
    [|right; by split].
  destruct body as [data|]; [|right; by split].
  case_bool_decide as Hdata; [right; by split|].
  left. split; [done|].
  saved_complaint complaint_id Hget.
  eexists data, complaint, _.
  split; [done|]. split; [done|]. split; [done|]. split; [exact Hsaved|].
  split; [exact Hno|].
  split; [intros Hnone; by rewrite Hno, Hnone|].
  split.
  { intros notes Hnotes. rewrite Hno in Hnotes. simpl in Hnotes.
    by apply OutcomeProps.sanitize_length in Hnotes. }
  split; [exact Hso|]. split; [exact Hst|]. split; [exact Hpr|].
  split; [exact Has|]. split; [exact Hre|]. split; [exact Hother|]. by split.
Qed.

End DeskProps.
